(** * Vorbis encoder element (ext/vorbis/vorbisenc.c)

    A shallow embedding of the GStreamer Vorbis encoder element and the
    properties of its state machine: the header handshake, the granule
    position / timestamp bookkeeping, the rate and quality configuration,
    the sample ingestion loop, the format conversions and queries of the
    two pads, the object properties, the tags written as Vorbis comments
    and the state changes.

    Conventions.
    - C integers are [Z]; the wrap-around of 64-bit unsigned arithmetic is
      written out with [guint64], the reinterpretation as a signed 64-bit
      value with [gint64].
    - The element struct is the record [GstVorbisEnc]; every handler takes the
      record and returns the updated one next to its C return value.
    - libvorbis is opaque.  The handle ([vi], [vc], [vd] and [vb] together) is
      the history of the calls made to the library, and what the library
      returns is given by oracles of that history (section variables).
    - The peer of the source pad is opaque as well: [srcpad] logs every buffer
      handed to [gst_pad_push], and the flow return is an oracle of that log. *)

From Stdlib Require Import ZArith Lia Bool Ascii String Floats Strings.Byte.
From stdpp Require Import base list.

Local Open Scope Z_scope.
Set Default Proof Using "Type".

(** ** Machine integers and clock values *)

Definition G_MAXUINT64 : Z := 2 ^ 64 - 1.
Definition GST_CLOCK_TIME_NONE : Z := G_MAXUINT64.
Definition GST_SECOND : Z := 1000000000.
Definition LOWEST_BITRATE : Z := 6000.
Definition HIGHEST_BITRATE : Z := 250001.
Definition MAX_BITRATE_DEFAULT : Z := -1.
Definition BITRATE_DEFAULT : Z := -1.
Definition MIN_BITRATE_DEFAULT : Z := -1.
(** 0.3 rounded to a [gfloat] (binary32). *)
Definition QUALITY_DEFAULT : float := 0x1.333334p-2%float.

(** Conversion to [guint64]: reduction modulo 2^64. *)
Definition guint64 (z : Z) : Z := z mod 2 ^ 64.

(** Conversion of a 64-bit pattern to [gint64] / [ogg_int64_t]. *)
Definition gint64 (z : Z) : Z :=
  let w := z mod 2 ^ 64 in if w <? 2 ^ 63 then w else w - 2 ^ 64.

(** Conversion to [gint] and to [guint] (32 bits). *)
Definition gint (z : Z) : Z :=
  let w := z mod 2 ^ 32 in if w <? 2 ^ 31 then w else w - 2 ^ 32.

Definition guint (z : Z) : Z := z mod 2 ^ 32.

(** Modelled from the spec: [gst_util_uint64_scale] belongs to the GStreamer
    core library, not to this element.  The spec gives it as
    [val * num / denom]; the result is a [guint64], so a quotient that does
    not fit, and a zero denominator, yield [G_MAXUINT64]. *)
Definition gst_util_uint64_scale (val num denom : Z) : Z :=
  if denom =? 0 then G_MAXUINT64
  else Z.min (val * num / denom) G_MAXUINT64.

(** ** Data *)

(** A [gfloat] sample as it lies in the buffer: four bytes. *)
Definition gfloat : Type := list byte.

Record ogg_packet : Type := mk_ogg_packet {
  packet : list byte;
  granulepos : Z
}.

(** [packet->bytes] *)
Definition packet_bytes (op : ogg_packet) : Z := Z.of_nat (length (packet op)).

(** The caps of the source pad: the media type and the "streamheader" array
    (the payloads of the buffers placed in it). *)
Record GstCaps : Type := mkGstCaps {
  caps_name : string;
  streamheader : list (list byte)
}.

Record GstBuffer : Type := mkGstBuffer {
  GST_BUFFER_DATA : list byte;
  GST_BUFFER_OFFSET : Z;
  GST_BUFFER_OFFSET_END : Z;
  GST_BUFFER_TIMESTAMP : Z;
  GST_BUFFER_DURATION : Z;
  GST_BUFFER_FLAG_IN_CAPS : bool;
  GST_BUFFER_CAPS : option GstCaps
}.

Definition GST_BUFFER_SIZE (b : GstBuffer) : Z :=
  Z.of_nat (length (GST_BUFFER_DATA b)).

Inductive GstFlowReturn : Type :=
| GST_FLOW_RESEND
| GST_FLOW_OK
| GST_FLOW_NOT_LINKED
| GST_FLOW_WRONG_STATE
| GST_FLOW_UNEXPECTED
| GST_FLOW_NOT_NEGOTIATED
| GST_FLOW_ERROR
| GST_FLOW_NOT_SUPPORTED.

Definition flow_is_ok (r : GstFlowReturn) : bool :=
  match r with GST_FLOW_OK => true | _ => false end.

Definition GstTagList : Type := list (string * string).

Inductive GstEvent : Type :=
| GST_EVENT_EOS
| GST_EVENT_TAG (list_ : GstTagList)
| GST_EVENT_OTHER (name : string).

(** [GST_ELEMENT_ERROR (element, domain, code, text, debug)] posts an error
    message on the bus. *)
Inductive GstErrorDomain : Type := CORE | LIBRARY | RESOURCE | STREAM.
Inductive GstErrorCode : Type := NEGOTIATION | FAILED | OTHER_CODE.

Record GstMessage : Type := GST_MESSAGE_ERROR {
  msg_domain : GstErrorDomain;
  msg_code : GstErrorCode;
  msg_debug : string
}.

(** Properties of the element, as [gst_vorbisenc_set_property] receives them
    ([prop_id] with the [GValue] it carries). *)
Inductive property : Type :=
| ARG_MAX_BITRATE (v : Z)
| ARG_BITRATE (v : Z)
| ARG_MIN_BITRATE (v : Z)
| ARG_QUALITY (v : float)
| ARG_MANAGED (v : bool)
| ARG_LAST_MESSAGE.

(** [struct ovectl_ratemanage_arg], the fields the element writes. *)
Record ovectl_ratemanage_arg : Type := mk_ratemanage_arg {
  bitrate_hard_min : Z;
  bitrate_hard_max : Z;
  management_active : Z
}.

Inductive ovectl : Type :=
| OV_ECTL_RATEMANAGE_GET
| OV_ECTL_RATEMANAGE_SET (ai : option ovectl_ratemanage_arg)
| OV_ECTL_RATEMANAGE_AVG.

(** The calls the element makes to libvorbis. *)
Inductive vorbis_call : Type :=
| vorbis_info_init
| vorbis_info_clear
| vorbis_encode_setup_vbr (channels_ rate : Z) (quality_ : float)
| vorbis_encode_setup_managed (channels_ rate max_ nominal min_ : Z)
| vorbis_encode_ctl (req : ovectl)
| vorbis_encode_setup_init
| vorbis_analysis_init
| vorbis_block_init
| vorbis_comment_init
| vorbis_comment_add_tag (tag value : string)
| vorbis_comment_clear
| vorbis_analysis_headerout
| vorbis_analysis_buffer (vals : Z)
| vorbis_analysis_wrote (pcm : list (list gfloat)) (vals : Z)
| vorbis_analysis_blockout
| vorbis_analysis
| vorbis_bitrate_addblock
| vorbis_bitrate_flushpacket
| vorbis_block_clear
| vorbis_dsp_clear.

(** The library handle: the calls made so far, the latest first. *)
Definition libvorbis : Type := list vorbis_call.

(** What [get_constraints_string] prints, by its format arguments. *)
Inductive constraints_string : Type :=
| min_max (min_ max_ : Z)
| min_no_max (min_ : Z)
| no_min_max (max_ : Z)
| no_min_or_max.

(** What [update_start_message] prints, by its format arguments. *)
Inductive start_message : Type :=
| encoding_at_average_bitrate (bitrate_ : Z) (c : constraints_string)
| encoding_at_approximate_bitrate (bitrate_ : Z)
| encoding_at_quality_level_constrained (quality_ : float) (c : constraints_string)
| encoding_at_quality_level (quality_ : float)
| encoding_using_bitrate_management (c : constraints_string).

(** [GstFormat], as the convert functions switch on it. *)
Inductive GstFormat : Type :=
| GST_FORMAT_UNDEFINED
| GST_FORMAT_DEFAULT
| GST_FORMAT_BYTES
| GST_FORMAT_TIME
| GST_FORMAT_BUFFERS
| GST_FORMAT_PERCENT.

(** What [gst_vorbisenc_get_property] stores in the [GValue]. *)
Inductive GValue : Type :=
| G_VALUE_INT (v : Z)
| G_VALUE_FLOAT (v : float)
| G_VALUE_BOOLEAN (v : bool)
| G_VALUE_STRING (v : option start_message).

(** The number of a property in the enumeration [ARG_0], [ARG_MAX_BITRATE],
    ... of the element. *)
Definition prop_id (prop : property) : Z :=
  match prop with
  | ARG_MAX_BITRATE _ => 1
  | ARG_BITRATE _ => 2
  | ARG_MIN_BITRATE _ => 3
  | ARG_QUALITY _ => 4
  | ARG_MANAGED _ => 5
  | ARG_LAST_MESSAGE => 6
  end.

Inductive GstStateChange : Type :=
| GST_STATE_CHANGE_NULL_TO_READY
| GST_STATE_CHANGE_READY_TO_PAUSED
| GST_STATE_CHANGE_PAUSED_TO_PLAYING
| GST_STATE_CHANGE_PLAYING_TO_PAUSED
| GST_STATE_CHANGE_PAUSED_TO_READY
| GST_STATE_CHANGE_READY_TO_NULL.

Inductive GstStateChangeReturn : Type :=
| GST_STATE_CHANGE_FAILURE
| GST_STATE_CHANGE_SUCCESS
| GST_STATE_CHANGE_ASYNC
| GST_STATE_CHANGE_NO_PREROLL.

Inductive GParamFlags : Type := G_PARAM_READABLE | G_PARAM_READWRITE.

(** The parameter specifications [gst_vorbisenc_class_init] installs, by
    name, range, default value and flags. *)
Inductive GParamSpec : Type :=
| g_param_spec_int (name : string) (minimum maximum default_value : Z)
    (flags : GParamFlags)
| g_param_spec_float (name : string) (minimum maximum default_value : float)
    (flags : GParamFlags)
| g_param_spec_boolean (name : string) (default_value : bool) (flags : GParamFlags)
| g_param_spec_string (name : string) (default_value : option start_message)
    (flags : GParamFlags).

Inductive GstQueryType : Type :=
| GST_QUERY_NONE
| GST_QUERY_POSITION
| GST_QUERY_DURATION
| GST_QUERY_LATENCY
| GST_QUERY_JITTER
| GST_QUERY_RATE
| GST_QUERY_SEEKING
| GST_QUERY_SEGMENT
| GST_QUERY_CONVERT
| GST_QUERY_FORMATS.

(** A query: its type and the fields of its structure the element reads
    and writes.  A position and a duration query hold a format and a value,
    a convert query a source format and value and a destination format and
    value. *)
Record GstQuery : Type := mkGstQuery {
  GST_QUERY_TYPE : GstQueryType;
  query_format : GstFormat;
  query_value : Z;
  query_dest_format : GstFormat;
  query_dest_value : Z
}.

(** [gst_query_set_position] and [gst_query_set_duration]. *)
Definition gst_query_set_position (query : GstQuery) (format : GstFormat) (cur : Z)
  : GstQuery :=
  mkGstQuery (GST_QUERY_TYPE query) format cur (query_dest_format query)
    (query_dest_value query).

Definition gst_query_set_duration (query : GstQuery) (format : GstFormat) (duration : Z)
  : GstQuery :=
  mkGstQuery (GST_QUERY_TYPE query) format duration (query_dest_format query)
    (query_dest_value query).

Definition gst_query_set_convert (query : GstQuery) (src_format : GstFormat)
    (src_value : Z) (dest_format : GstFormat) (dest_value : Z) : GstQuery :=
  mkGstQuery (GST_QUERY_TYPE query) src_format src_value dest_format dest_value.

(** The types of tag values [gst_vorbisenc_get_tag_value] tells apart. *)
Inductive GType : Type :=
| G_TYPE_UINT
| G_TYPE_STRING
| GST_TYPE_DATE
| G_TYPE_DOUBLE
| G_TYPE_OTHER.

Record GDate : Type := mk_GDate {
  g_date_get_year : Z;
  g_date_get_month : Z;
  g_date_get_day : Z
}.

(** ** Decimal output *)

(** The character of a decimal digit. *)
Definition digit (d : Z) : ascii := ascii_of_nat (48 + Z.to_nat d).

(** The decimal digits of a number that is not negative, in front of
    [acc]; [fuel] bounds their number. *)
Fixpoint decimal (fuel : nat) (n : Z) (acc : string) : string :=
  match fuel with
  | O => acc
  | S fuel' =>
      let acc := String (digit (n mod 10)) acc in
      if n / 10 =? 0 then acc else decimal fuel' (n / 10) acc
  end.

(** [g_strdup_printf ("%u", n)] for a [guint] and, for a number that is
    not negative, the conversion "%0<width>d" of [printf]: the decimal
    digits, with zeros in front up to the width. *)
Definition printf_u (n : Z) : string := decimal 10 n EmptyString.

Fixpoint zeros (n : nat) (s : string) : string :=
  match n with
  | O => s
  | S n' => String "0"%char (zeros n' s)
  end.

Definition printf_0d (width : nat) (n : Z) : string :=
  let s := decimal 10 n EmptyString in zeros (width - String.length s) s.

(** The caps [raw_caps_factory] makes for the sink pad template: the media
    type, the range of the sample rate, the range of the channel count and
    the width of a sample in bits. *)
Record GstRawCaps : Type := mkGstRawCaps {
  raw_caps_name : string;
  raw_caps_rate : Z * Z;
  raw_caps_channels : Z * Z;
  raw_caps_width : Z
}.

Definition raw_caps_factory : GstRawCaps :=
  mkGstRawCaps "audio/x-raw-float" (8000, 50000) (1, 2) 32.

(** ** The element *)

(** [struct _GstVorbisEnc] with what surrounds it.  [srcpad] is the log of the
    buffers handed to [gst_pad_push] on the source pad, the oldest first,
    [srcpad_caps] the caps set on that pad and [srcpad_events] the events
    pushed on it; [bus] holds the posted element errors and [notified] the
    names passed to [g_object_notify]; [vorbis] stands for the members [vi],
    [vc], [vd] and [vb].  The integer members are [gint] ([bitrate],
    [min_bitrate], [max_bitrate], [channels], [frequency]) and 64-bit
    ([samples_in], [bytes_out], [next_ts], [granulepos_offset],
    [subgranule_offset]); [subgranule_offset] is kept as the 64-bit pattern
    it has in the sum of [granulepos_to_timestamp_offset].  [quality] is a
    [gfloat]; every [gfloat] is a binary64 value, and it is only ever
    compared with 0.0. *)
Record GstVorbisEnc : Type := mkGstVorbisEnc {
  srcpad : list GstBuffer;
  srcpad_caps : option GstCaps;
  srcpad_events : list GstEvent;
  bus : list GstMessage;
  notified : list string;
  vorbis : libvorbis;
  managed : bool;
  bitrate : Z;
  min_bitrate : Z;
  max_bitrate : Z;
  quality : float;
  quality_set : bool;
  channels : Z;
  frequency : Z;
  samples_in : Z;
  bytes_out : Z;
  next_ts : Z;
  granulepos_offset : Z;
  subgranule_offset : Z;
  tags : option GstTagList;
  setup : bool;
  header_sent : bool;
  last_message : option start_message
}.

Definition set_srcpad (v : list GstBuffer) (enc : GstVorbisEnc) : GstVorbisEnc :=
  mkGstVorbisEnc v (srcpad_caps enc) (srcpad_events enc) (bus enc)
    (notified enc) (vorbis enc) (managed enc) (bitrate enc) (min_bitrate enc)
    (max_bitrate enc) (quality enc) (quality_set enc) (channels enc)
    (frequency enc) (samples_in enc) (bytes_out enc) (next_ts enc)
    (granulepos_offset enc) (subgranule_offset enc) (tags enc) (setup enc)
    (header_sent enc) (last_message enc).

Definition set_srcpad_caps (v : option GstCaps) (enc : GstVorbisEnc) : GstVorbisEnc :=
  mkGstVorbisEnc (srcpad enc) v (srcpad_events enc) (bus enc) (notified enc)
    (vorbis enc) (managed enc) (bitrate enc) (min_bitrate enc)
    (max_bitrate enc) (quality enc) (quality_set enc) (channels enc)
    (frequency enc) (samples_in enc) (bytes_out enc) (next_ts enc)
    (granulepos_offset enc) (subgranule_offset enc) (tags enc) (setup enc)
    (header_sent enc) (last_message enc).

Definition set_srcpad_events (v : list GstEvent) (enc : GstVorbisEnc) : GstVorbisEnc :=
  mkGstVorbisEnc (srcpad enc) (srcpad_caps enc) v (bus enc) (notified enc)
    (vorbis enc) (managed enc) (bitrate enc) (min_bitrate enc)
    (max_bitrate enc) (quality enc) (quality_set enc) (channels enc)
    (frequency enc) (samples_in enc) (bytes_out enc) (next_ts enc)
    (granulepos_offset enc) (subgranule_offset enc) (tags enc) (setup enc)
    (header_sent enc) (last_message enc).

Definition set_bus (v : list GstMessage) (enc : GstVorbisEnc) : GstVorbisEnc :=
  mkGstVorbisEnc (srcpad enc) (srcpad_caps enc) (srcpad_events enc) v
    (notified enc) (vorbis enc) (managed enc) (bitrate enc) (min_bitrate enc)
    (max_bitrate enc) (quality enc) (quality_set enc) (channels enc)
    (frequency enc) (samples_in enc) (bytes_out enc) (next_ts enc)
    (granulepos_offset enc) (subgranule_offset enc) (tags enc) (setup enc)
    (header_sent enc) (last_message enc).

Definition set_notified (v : list string) (enc : GstVorbisEnc) : GstVorbisEnc :=
  mkGstVorbisEnc (srcpad enc) (srcpad_caps enc) (srcpad_events enc) (bus enc)
    v (vorbis enc) (managed enc) (bitrate enc) (min_bitrate enc)
    (max_bitrate enc) (quality enc) (quality_set enc) (channels enc)
    (frequency enc) (samples_in enc) (bytes_out enc) (next_ts enc)
    (granulepos_offset enc) (subgranule_offset enc) (tags enc) (setup enc)
    (header_sent enc) (last_message enc).

Definition set_vorbis (v : libvorbis) (enc : GstVorbisEnc) : GstVorbisEnc :=
  mkGstVorbisEnc (srcpad enc) (srcpad_caps enc) (srcpad_events enc) (bus enc)
    (notified enc) v (managed enc) (bitrate enc) (min_bitrate enc)
    (max_bitrate enc) (quality enc) (quality_set enc) (channels enc)
    (frequency enc) (samples_in enc) (bytes_out enc) (next_ts enc)
    (granulepos_offset enc) (subgranule_offset enc) (tags enc) (setup enc)
    (header_sent enc) (last_message enc).

Definition set_managed (v : bool) (enc : GstVorbisEnc) : GstVorbisEnc :=
  mkGstVorbisEnc (srcpad enc) (srcpad_caps enc) (srcpad_events enc) (bus enc)
    (notified enc) (vorbis enc) v (bitrate enc) (min_bitrate enc)
    (max_bitrate enc) (quality enc) (quality_set enc) (channels enc)
    (frequency enc) (samples_in enc) (bytes_out enc) (next_ts enc)
    (granulepos_offset enc) (subgranule_offset enc) (tags enc) (setup enc)
    (header_sent enc) (last_message enc).

Definition set_bitrate (v : Z) (enc : GstVorbisEnc) : GstVorbisEnc :=
  mkGstVorbisEnc (srcpad enc) (srcpad_caps enc) (srcpad_events enc) (bus enc)
    (notified enc) (vorbis enc) (managed enc) v (min_bitrate enc)
    (max_bitrate enc) (quality enc) (quality_set enc) (channels enc)
    (frequency enc) (samples_in enc) (bytes_out enc) (next_ts enc)
    (granulepos_offset enc) (subgranule_offset enc) (tags enc) (setup enc)
    (header_sent enc) (last_message enc).

Definition set_min_bitrate (v : Z) (enc : GstVorbisEnc) : GstVorbisEnc :=
  mkGstVorbisEnc (srcpad enc) (srcpad_caps enc) (srcpad_events enc) (bus enc)
    (notified enc) (vorbis enc) (managed enc) (bitrate enc) v
    (max_bitrate enc) (quality enc) (quality_set enc) (channels enc)
    (frequency enc) (samples_in enc) (bytes_out enc) (next_ts enc)
    (granulepos_offset enc) (subgranule_offset enc) (tags enc) (setup enc)
    (header_sent enc) (last_message enc).

Definition set_max_bitrate (v : Z) (enc : GstVorbisEnc) : GstVorbisEnc :=
  mkGstVorbisEnc (srcpad enc) (srcpad_caps enc) (srcpad_events enc) (bus enc)
    (notified enc) (vorbis enc) (managed enc) (bitrate enc) (min_bitrate enc)
    v (quality enc) (quality_set enc) (channels enc) (frequency enc)
    (samples_in enc) (bytes_out enc) (next_ts enc) (granulepos_offset enc)
    (subgranule_offset enc) (tags enc) (setup enc) (header_sent enc)
    (last_message enc).

Definition set_quality (v : float) (enc : GstVorbisEnc) : GstVorbisEnc :=
  mkGstVorbisEnc (srcpad enc) (srcpad_caps enc) (srcpad_events enc) (bus enc)
    (notified enc) (vorbis enc) (managed enc) (bitrate enc) (min_bitrate enc)
    (max_bitrate enc) v (quality_set enc) (channels enc) (frequency enc)
    (samples_in enc) (bytes_out enc) (next_ts enc) (granulepos_offset enc)
    (subgranule_offset enc) (tags enc) (setup enc) (header_sent enc)
    (last_message enc).

Definition set_quality_set (v : bool) (enc : GstVorbisEnc) : GstVorbisEnc :=
  mkGstVorbisEnc (srcpad enc) (srcpad_caps enc) (srcpad_events enc) (bus enc)
    (notified enc) (vorbis enc) (managed enc) (bitrate enc) (min_bitrate enc)
    (max_bitrate enc) (quality enc) v (channels enc) (frequency enc)
    (samples_in enc) (bytes_out enc) (next_ts enc) (granulepos_offset enc)
    (subgranule_offset enc) (tags enc) (setup enc) (header_sent enc)
    (last_message enc).

Definition set_channels (v : Z) (enc : GstVorbisEnc) : GstVorbisEnc :=
  mkGstVorbisEnc (srcpad enc) (srcpad_caps enc) (srcpad_events enc) (bus enc)
    (notified enc) (vorbis enc) (managed enc) (bitrate enc) (min_bitrate enc)
    (max_bitrate enc) (quality enc) (quality_set enc) v (frequency enc)
    (samples_in enc) (bytes_out enc) (next_ts enc) (granulepos_offset enc)
    (subgranule_offset enc) (tags enc) (setup enc) (header_sent enc)
    (last_message enc).

Definition set_frequency (v : Z) (enc : GstVorbisEnc) : GstVorbisEnc :=
  mkGstVorbisEnc (srcpad enc) (srcpad_caps enc) (srcpad_events enc) (bus enc)
    (notified enc) (vorbis enc) (managed enc) (bitrate enc) (min_bitrate enc)
    (max_bitrate enc) (quality enc) (quality_set enc) (channels enc) v
    (samples_in enc) (bytes_out enc) (next_ts enc) (granulepos_offset enc)
    (subgranule_offset enc) (tags enc) (setup enc) (header_sent enc)
    (last_message enc).

Definition set_samples_in (v : Z) (enc : GstVorbisEnc) : GstVorbisEnc :=
  mkGstVorbisEnc (srcpad enc) (srcpad_caps enc) (srcpad_events enc) (bus enc)
    (notified enc) (vorbis enc) (managed enc) (bitrate enc) (min_bitrate enc)
    (max_bitrate enc) (quality enc) (quality_set enc) (channels enc)
    (frequency enc) v (bytes_out enc) (next_ts enc) (granulepos_offset enc)
    (subgranule_offset enc) (tags enc) (setup enc) (header_sent enc)
    (last_message enc).

Definition set_bytes_out (v : Z) (enc : GstVorbisEnc) : GstVorbisEnc :=
  mkGstVorbisEnc (srcpad enc) (srcpad_caps enc) (srcpad_events enc) (bus enc)
    (notified enc) (vorbis enc) (managed enc) (bitrate enc) (min_bitrate enc)
    (max_bitrate enc) (quality enc) (quality_set enc) (channels enc)
    (frequency enc) (samples_in enc) v (next_ts enc) (granulepos_offset enc)
    (subgranule_offset enc) (tags enc) (setup enc) (header_sent enc)
    (last_message enc).

Definition set_next_ts (v : Z) (enc : GstVorbisEnc) : GstVorbisEnc :=
  mkGstVorbisEnc (srcpad enc) (srcpad_caps enc) (srcpad_events enc) (bus enc)
    (notified enc) (vorbis enc) (managed enc) (bitrate enc) (min_bitrate enc)
    (max_bitrate enc) (quality enc) (quality_set enc) (channels enc)
    (frequency enc) (samples_in enc) (bytes_out enc) v (granulepos_offset enc)
    (subgranule_offset enc) (tags enc) (setup enc) (header_sent enc)
    (last_message enc).

Definition set_granulepos_offset (v : Z) (enc : GstVorbisEnc) : GstVorbisEnc :=
  mkGstVorbisEnc (srcpad enc) (srcpad_caps enc) (srcpad_events enc) (bus enc)
    (notified enc) (vorbis enc) (managed enc) (bitrate enc) (min_bitrate enc)
    (max_bitrate enc) (quality enc) (quality_set enc) (channels enc)
    (frequency enc) (samples_in enc) (bytes_out enc) (next_ts enc) v
    (subgranule_offset enc) (tags enc) (setup enc) (header_sent enc)
    (last_message enc).

Definition set_subgranule_offset (v : Z) (enc : GstVorbisEnc) : GstVorbisEnc :=
  mkGstVorbisEnc (srcpad enc) (srcpad_caps enc) (srcpad_events enc) (bus enc)
    (notified enc) (vorbis enc) (managed enc) (bitrate enc) (min_bitrate enc)
    (max_bitrate enc) (quality enc) (quality_set enc) (channels enc)
    (frequency enc) (samples_in enc) (bytes_out enc) (next_ts enc)
    (granulepos_offset enc) v (tags enc) (setup enc) (header_sent enc)
    (last_message enc).

Definition set_tags (v : option GstTagList) (enc : GstVorbisEnc) : GstVorbisEnc :=
  mkGstVorbisEnc (srcpad enc) (srcpad_caps enc) (srcpad_events enc) (bus enc)
    (notified enc) (vorbis enc) (managed enc) (bitrate enc) (min_bitrate enc)
    (max_bitrate enc) (quality enc) (quality_set enc) (channels enc)
    (frequency enc) (samples_in enc) (bytes_out enc) (next_ts enc)
    (granulepos_offset enc) (subgranule_offset enc) v (setup enc)
    (header_sent enc) (last_message enc).

Definition set_setup (v : bool) (enc : GstVorbisEnc) : GstVorbisEnc :=
  mkGstVorbisEnc (srcpad enc) (srcpad_caps enc) (srcpad_events enc) (bus enc)
    (notified enc) (vorbis enc) (managed enc) (bitrate enc) (min_bitrate enc)
    (max_bitrate enc) (quality enc) (quality_set enc) (channels enc)
    (frequency enc) (samples_in enc) (bytes_out enc) (next_ts enc)
    (granulepos_offset enc) (subgranule_offset enc) (tags enc) v
    (header_sent enc) (last_message enc).

Definition set_header_sent (v : bool) (enc : GstVorbisEnc) : GstVorbisEnc :=
  mkGstVorbisEnc (srcpad enc) (srcpad_caps enc) (srcpad_events enc) (bus enc)
    (notified enc) (vorbis enc) (managed enc) (bitrate enc) (min_bitrate enc)
    (max_bitrate enc) (quality enc) (quality_set enc) (channels enc)
    (frequency enc) (samples_in enc) (bytes_out enc) (next_ts enc)
    (granulepos_offset enc) (subgranule_offset enc) (tags enc) (setup enc) v
    (last_message enc).

Definition set_last_message (v : option start_message) (enc : GstVorbisEnc) : GstVorbisEnc :=
  mkGstVorbisEnc (srcpad enc) (srcpad_caps enc) (srcpad_events enc) (bus enc)
    (notified enc) (vorbis enc) (managed enc) (bitrate enc) (min_bitrate enc)
    (max_bitrate enc) (quality enc) (quality_set enc) (channels enc)
    (frequency enc) (samples_in enc) (bytes_out enc) (next_ts enc)
    (granulepos_offset enc) (subgranule_offset enc) (tags enc) (setup enc)
    (header_sent enc) v.

(** ** Granule position to timestamp *)

(** This function takes into account the granulepos_offset and the subgranule
    time offset. *)
Definition granulepos_to_timestamp_offset (enc : GstVorbisEnc) (granulepos_ : Z) : Z :=
  if 0 <=? granulepos_ then
    guint64 (gst_util_uint64_scale
               (guint64 (guint64 granulepos_ + granulepos_offset enc))
               GST_SECOND (guint64 (frequency enc))
             + subgranule_offset enc)
  else GST_CLOCK_TIME_NONE.

(** This function does a straight granulepos -> timestamp conversion. *)
Definition granulepos_to_timestamp (enc : GstVorbisEnc) (granulepos_ : Z) : Z :=
  if 0 <=? granulepos_ then
    gst_util_uint64_scale (guint64 granulepos_) GST_SECOND (guint64 (frequency enc))
  else GST_CLOCK_TIME_NONE.

(** ** Buffers from packets *)

(** Prepare a buffer for transmission by passing data through libvorbis. *)
Definition gst_vorbisenc_buffer_from_packet (enc : GstVorbisEnc) (op : ogg_packet)
  : GstBuffer * GstVorbisEnc :=
  let offset_end := guint64 (guint64 (granulepos op) + granulepos_offset enc) in
  let offset := granulepos_to_timestamp enc (gint64 offset_end) in
  let timestamp := next_ts enc in
  let enc1 := set_next_ts (granulepos_to_timestamp_offset enc (granulepos op)) enc in
  let duration := guint64 (next_ts enc1 - timestamp) in
  (mkGstBuffer (packet op) offset offset_end timestamp duration false None, enc1).

(** The same as above, but different logic for setting timestamp and
    granulepos. *)
Definition gst_vorbisenc_buffer_from_header_packet (enc : GstVorbisEnc) (op : ogg_packet)
  : GstBuffer :=
  mkGstBuffer (packet op) (bytes_out enc) 0 GST_CLOCK_TIME_NONE GST_CLOCK_TIME_NONE
    false None.

Definition GST_BUFFER_FLAG_SET_IN_CAPS (b : GstBuffer) : GstBuffer :=
  mkGstBuffer (GST_BUFFER_DATA b) (GST_BUFFER_OFFSET b) (GST_BUFFER_OFFSET_END b)
    (GST_BUFFER_TIMESTAMP b) (GST_BUFFER_DURATION b) true (GST_BUFFER_CAPS b).

Definition gst_buffer_set_caps (b : GstBuffer) (caps : GstCaps) : GstBuffer :=
  mkGstBuffer (GST_BUFFER_DATA b) (GST_BUFFER_OFFSET b) (GST_BUFFER_OFFSET_END b)
    (GST_BUFFER_TIMESTAMP b) (GST_BUFFER_DURATION b) (GST_BUFFER_FLAG_IN_CAPS b)
    (Some caps).

(** Marks the three buffers and puts them, in order, in the "streamheader"
    array of the caps.  The marked buffers are returned with the caps. *)
Definition gst_vorbisenc_set_header_on_caps (caps : GstCaps) (buf1 buf2 buf3 : GstBuffer)
  : GstCaps * (GstBuffer * GstBuffer * GstBuffer) :=
  let buf1 := GST_BUFFER_FLAG_SET_IN_CAPS buf1 in
  let buf2 := GST_BUFFER_FLAG_SET_IN_CAPS buf2 in
  let buf3 := GST_BUFFER_FLAG_SET_IN_CAPS buf3 in
  (mkGstCaps (caps_name caps)
     [GST_BUFFER_DATA buf1; GST_BUFFER_DATA buf2; GST_BUFFER_DATA buf3],
   (buf1, buf2, buf3)).

Definition vorbis_caps_factory : GstCaps := mkGstCaps "audio/x-vorbis" [].

(** ** Deinterleaving *)

(** [*data++] on a [gfloat *]: the four bytes under the pointer, and the
    pointer moved past them. *)
Definition read_gfloat (data : list byte) : gfloat * list byte :=
  (take 4 data, drop 4 data).

(** [vorbis_buffer[j][i] = v] *)
Definition vorbis_buffer_store (vorbis_buffer : list (list gfloat)) (j i : nat) (v : gfloat)
  : list (list gfloat) :=
  match vorbis_buffer !! j with
  | Some row => <[j := <[i := v]> row]> vorbis_buffer
  | None => vorbis_buffer
  end.

(** [for (j = ...; j < channels; j++) vorbis_buffer[j][i] = *data++;] with
    [n] iterations left. *)
Fixpoint deinterleave_frame (n j i : nat) (st : list (list gfloat) * list byte)
  : list (list gfloat) * list byte :=
  match n with
  | O => st
  | S n' =>
      let '(v, data) := read_gfloat (snd st) in
      deinterleave_frame n' (S j) i (vorbis_buffer_store (fst st) j i v, data)
  end.

(** [for (i = ...; i < size; i++) ...] with [n] iterations left. *)
Fixpoint deinterleave (n i nchannels : nat) (st : list (list gfloat) * list byte)
  : list (list gfloat) * list byte :=
  match n with
  | O => st
  | S n' => deinterleave n' (S i) nchannels (deinterleave_frame nchannels 0 i st)
  end.

(** The array [vorbis_analysis_buffer] exposes: one row of [vals] samples per
    channel. *)
Definition analysis_buffer (nchannels vals : nat) : list (list gfloat) :=
  replicate nchannels (replicate vals [x00; x00; x00; x00]).

(** ** Observations on the logs *)

(** The header units carry [GST_BUFFER_FLAG_IN_CAPS]; the data units do not. *)
Definition is_header_unit (b : GstBuffer) : bool := GST_BUFFER_FLAG_IN_CAPS b.
Definition is_data_unit (b : GstBuffer) : bool := negb (GST_BUFFER_FLAG_IN_CAPS b).

Definition data_units (log : list GstBuffer) : list GstBuffer :=
  List.filter is_data_unit log.

(** The units pushed since the log had [n] entries. *)
Definition pushed_since (n : nat) (log : list GstBuffer) : list GstBuffer := drop n log.

(** The sample blocks submitted with [vorbis_analysis_wrote], the latest
    first. *)
Fixpoint wrote_calls (h : libvorbis) : list (list (list gfloat) * Z) :=
  match h with
  | [] => []
  | vorbis_analysis_wrote pcm vals :: h' => (pcm, vals) :: wrote_calls h'
  | _ :: h' => wrote_calls h'
  end.

Inductive encoding_mode : Type := QualityVBR | ManagedBitrate.

(** The latest [vorbis_encode_setup_*] call of a history. *)
Fixpoint setup_call (h : libvorbis) : option vorbis_call :=
  match h with
  | [] => None
  | vorbis_encode_setup_vbr c r q :: _ => Some (vorbis_encode_setup_vbr c r q)
  | vorbis_encode_setup_managed c r ma n mi :: _ =>
      Some (vorbis_encode_setup_managed c r ma n mi)
  | _ :: h' => setup_call h'
  end.

Definition setup_mode (h : libvorbis) : option encoding_mode :=
  match setup_call h with
  | Some (vorbis_encode_setup_vbr _ _ _) => Some QualityVBR
  | Some (vorbis_encode_setup_managed _ _ _ _ _) => Some ManagedBitrate
  | _ => None
  end.

(** Value ranges of the C types. *)
Definition is_guint64 (z : Z) : Prop := 0 <= z <= G_MAXUINT64.
Definition is_gint64 (z : Z) : Prop := - 2 ^ 63 <= z < 2 ^ 63.
Definition is_gint (z : Z) : Prop := - 2 ^ 31 <= z < 2 ^ 31.



(** ** A small library and peer to run the element on *)

Module Demo.

(** A library that cuts one block per submitted buffer of samples and packs
    it into one packet, whose granule position is the number of samples
    submitted so far. *)
Fixpoint submitted (h : libvorbis) : Z :=
  match h with
  | [] => 0
  | vorbis_analysis_init :: _ => 0
  | vorbis_analysis_wrote _ vals :: h' => vals + submitted h'
  | _ :: h' => submitted h'
  end.

Fixpoint blocks (h : libvorbis) : nat :=
  match h with
  | [] => O
  | vorbis_analysis_init :: _ => O
  | vorbis_analysis_wrote _ vals :: h' => if 0 <? vals then S (blocks h') else blocks h'
  | vorbis_analysis_blockout :: h' => Nat.pred (blocks h')
  | _ :: h' => blocks h'
  end.

Definition vorbis_ret (h : libvorbis) : Z :=
  match h with
  | vorbis_analysis_blockout :: h' => match blocks h' with O => 0 | S _ => 1 end
  | vorbis_bitrate_flushpacket :: vorbis_bitrate_addblock :: _ => 1
  | _ => 0
  end.

Definition vorbis_op (h : libvorbis) : ogg_packet := mk_ogg_packet [x2a] (submitted h).

Definition vorbis_headers (h : libvorbis) : ogg_packet * ogg_packet * ogg_packet :=
  (mk_ogg_packet [x01] 0, mk_ogg_packet [x03] 0, mk_ogg_packet [x05] 0).

Definition vorbis_pending (h : libvorbis) : nat :=
  2 * blocks h + match h with vorbis_bitrate_addblock :: _ => 1 | _ => 0 end.

(** A peer that takes every buffer, and one that refuses the second push. *)
Definition accept (log : list GstBuffer) (b : GstBuffer) : GstFlowReturn := GST_FLOW_OK.

Definition refuse_second (log : list GstBuffer) (b : GstBuffer) : GstFlowReturn :=
  if Nat.eqb (length log) 1 then GST_FLOW_WRONG_STATE else GST_FLOW_OK.

Definition accept_event (log : list GstEvent) (ev : GstEvent) : bool := true.

(** No tags. *)
Definition user_tags : option GstTagList := None.
Definition tag_list_merge (a b : option GstTagList) : GstTagList := [].
Definition tag_list_insert (a b : GstTagList) : GstTagList := a ++ b.
Definition comments (l : GstTagList) : list (string * string) := l.

(** The element as [g_object_new] leaves it before [gst_vorbisenc_init]. *)
Definition blank : GstVorbisEnc :=
  mkGstVorbisEnc [] None [] [] [] [] false 0 0 0 0%float false 0 0 0 0 0 0 0
    None false false None.

(** The element after [gst_vorbisenc_init] and the caps of a stereo stream
    at 44100 Hz: a set-up session waiting for its first buffer. *)
Definition session : GstVorbisEnc :=
  mkGstVorbisEnc [] None [] [] ["last_message"%string]
    [vorbis_block_init; vorbis_analysis_init; vorbis_encode_setup_init;
     vorbis_encode_ctl (OV_ECTL_RATEMANAGE_SET None);
     vorbis_encode_setup_vbr 2 44100 QUALITY_DEFAULT; vorbis_info_init]
    false (-1) (-1) (-1) QUALITY_DEFAULT true 2 44100 0 0 0 0 0
    None true false (Some (encoding_at_quality_level QUALITY_DEFAULT)).

(** Two buffers of two stereo frames each, the first one second into the
    stream. *)
Definition buffer1 : GstBuffer :=
  mkGstBuffer
    [x00; x01; x02; x03; x04; x05; x06; x07; x08; x09; x0a; x0b; x0c; x0d; x0e; x0f]
    0 0 1000000000 45351 false None.

Definition buffer2 : GstBuffer :=
  mkGstBuffer
    [x10; x11; x12; x13; x14; x15; x16; x17; x18; x19; x1a; x1b; x1c; x1d; x1e; x1f]
    0 0 1000045351 45351 false None.

(** The parent class lets every state change through. *)
Definition parent_change_state (transition : GstStateChange) : GstStateChangeReturn :=
  GST_STATE_CHANGE_SUCCESS.

(** A scaling function for the conversions: the plain quotient. *)
Definition uint64_scale_int (val num denom : Z) : Z :=
  if denom <=? 0 then G_MAXUINT64 else val * num / denom.

(** A default query handler and a peer of the sink pad that answer
    nothing. *)
Definition query_default (query : GstQuery) : bool * GstQuery := (false, query).
Definition query_position (format : GstFormat) : bool * GstFormat * Z :=
  (false, format, 0).
Definition query_convert (src_format : GstFormat) (src_value : Z)
    (dest_format : GstFormat) : bool * GstFormat * Z :=
  (false, dest_format, 0).


(** A tag library that knows a date, a track number and titles; every list
    holds the date of the first release of the element and track number 7,
    and the titles it lists. *)
Definition tag_type (tag : string) : GType :=
  if String.eqb tag "date" then GST_TYPE_DATE
  else if String.eqb tag "track-number" then G_TYPE_UINT
  else G_TYPE_STRING.

Definition tag_uint (list_ : GstTagList) (tag : string) (index : Z) : option Z :=
  if String.eqb tag "track-number" && (index =? 0) then Some 7 else None.

Definition tag_date (list_ : GstTagList) (tag : string) (index : Z) : option GDate :=
  if String.eqb tag "date" && (index =? 0) then Some (mk_GDate 2006 3 1) else None.

Definition tag_string (list_ : GstTagList) (tag : string) (index : Z) : option string :=
  snd <$> List.filter (fun tv => String.eqb (fst tv) tag) list_ !! Z.to_nat index.

Definition tag_size (list_ : GstTagList) (tag : string) : Z :=
  Z.of_nat (length (List.filter (fun tv => String.eqb (fst tv) tag) list_)).

Definition tag_to_vorbis_tag (tag : string) : option string :=
  if String.eqb tag "title" then Some "TITLE"%string
  else if String.eqb tag "date" then Some "DATE"%string
  else None.

(** A buffer of two stereo frames and one byte more, and a buffer too short
    for a frame. *)
Definition buffer3 : GstBuffer :=
  mkGstBuffer
    [x00; x01; x02; x03; x04; x05; x06; x07; x08; x09; x0a; x0b; x0c; x0d; x0e; x0f;
     x10]
    0 0 1000000000 45351 false None.

Definition buffer4 : GstBuffer :=
  mkGstBuffer [x00; x01; x02] 0 0 1000000000 0 false None.

End Demo.

(** ** The handlers *)

Section Element.

(** libvorbis: the value the latest call returned, the packet it wrote
    ([vorbis_bitrate_flushpacket]), the three headers it wrote
    ([vorbis_analysis_headerout]), and a bound on the blocks and packets it
    still holds. *)
Variable vorbis_ret : libvorbis -> Z.
Variable vorbis_op : libvorbis -> ogg_packet.
Variable vorbis_headers : libvorbis -> ogg_packet * ogg_packet * ogg_packet.
Variable vorbis_pending : libvorbis -> nat.

(** The peer of the source pad: the flow return of [gst_pad_push] and the
    result of [gst_pad_push_event], given what was pushed before. *)
Variable gst_pad_push : list GstBuffer -> GstBuffer -> GstFlowReturn.
Variable gst_pad_push_event : list GstEvent -> GstEvent -> bool.

(** The tag setter interface and the tag library. *)
Variable gst_tag_setter_get_tag_list : option GstTagList.
Variable gst_tag_list_merge : option GstTagList -> option GstTagList -> GstTagList.
Variable gst_tag_list_insert : GstTagList -> GstTagList -> GstTagList.
(** The (tag, value) pairs [gst_vorbisenc_metadata_set1] adds for a list. *)
Variable vorbis_comments : GstTagList -> list (string * string).

(** A call to libvorbis. *)
Definition vcall (c : vorbis_call) (enc : GstVorbisEnc) : GstVorbisEnc :=
  set_vorbis (c :: vorbis enc) enc.

Definition g_object_notify (name : string) (enc : GstVorbisEnc) : GstVorbisEnc :=
  set_notified (notified enc ++ [name]) enc.

Definition gst_vorbisenc_init (enc : GstVorbisEnc) : GstVorbisEnc :=
  let enc := set_channels (-1) enc in
  let enc := set_frequency (-1) enc in
  let enc := set_managed false enc in
  let enc := set_max_bitrate MAX_BITRATE_DEFAULT enc in
  let enc := set_bitrate BITRATE_DEFAULT enc in
  let enc := set_min_bitrate MIN_BITRATE_DEFAULT enc in
  let enc := set_quality QUALITY_DEFAULT enc in
  let enc := set_quality_set false enc in
  set_last_message None enc.

Definition gst_vorbisenc_set_metadata (enc : GstVorbisEnc) : GstVorbisEnc :=
  let user_tags := gst_tag_setter_get_tag_list in
  match tags enc, user_tags with
  | None, None => enc
  | _, _ =>
      let copy := gst_tag_list_merge user_tags (tags enc) in
      fold_left (fun e tv => vcall (vorbis_comment_add_tag (fst tv) (snd tv)) e)
        (vorbis_comments copy) (vcall vorbis_comment_init enc)
  end.

Definition get_constraints_string (enc : GstVorbisEnc) : constraints_string :=
  let min := min_bitrate enc in
  let max := max_bitrate enc in
  if (0 <? min) && (0 <? max) then min_max min max
  else if 0 <? min then min_no_max min
  else if 0 <? max then no_min_max max
  else no_min_or_max.

Definition update_start_message (enc : GstVorbisEnc) : GstVorbisEnc :=
  let msg :=
    if 0 <? bitrate enc then
      if managed enc then
        encoding_at_average_bitrate (bitrate enc) (get_constraints_string enc)
      else encoding_at_approximate_bitrate (bitrate enc)
    else if quality_set enc then
      if managed enc then
        encoding_at_quality_level_constrained (quality enc) (get_constraints_string enc)
      else encoding_at_quality_level (quality enc)
    else encoding_using_bitrate_management (get_constraints_string enc) in
  g_object_notify "last_message" (set_last_message (Some msg) enc).

(** The tail of [gst_vorbisenc_setup], after the encoding mode is chosen. *)
Definition gst_vorbisenc_setup_finish (enc : GstVorbisEnc) : bool * GstVorbisEnc :=
  let enc :=
    if managed enc && (bitrate enc <? 0) then
      vcall (vorbis_encode_ctl OV_ECTL_RATEMANAGE_AVG) enc
    else if negb (managed enc) then
      (* Turn off management entirely (if it was turned on). *)
      vcall (vorbis_encode_ctl (OV_ECTL_RATEMANAGE_SET None)) enc
    else enc in
  let enc := vcall vorbis_encode_setup_init enc in
  (* set up the analysis state and auxiliary encoding storage *)
  let enc := vcall vorbis_analysis_init enc in
  let enc := vcall vorbis_block_init enc in
  let enc := set_next_ts 0 enc in
  let enc := set_setup true enc in
  (true, enc).

(** The head of [gst_vorbisenc_setup], up to [vorbis_info_init]. *)
Definition gst_vorbisenc_setup_begin (enc : GstVorbisEnc) : GstVorbisEnc :=
  let enc := set_setup false enc in
  let enc :=
    if (bitrate enc <? 0) && (min_bitrate enc <? 0) && (max_bitrate enc <? 0)
    then set_quality_set true enc else enc in
  let enc := update_start_message enc in
  (* choose an encoding mode *)
  vcall vorbis_info_init enc.

(** The branch [if (vorbisenc->quality_set)] of [gst_vorbisenc_setup]. *)
Definition gst_vorbisenc_setup_quality (enc : GstVorbisEnc) : bool * GstVorbisEnc :=
  let enc :=
    vcall (vorbis_encode_setup_vbr (channels enc) (frequency enc) (quality enc)) enc in
  if negb (vorbis_ret (vorbis enc) =? 0) then
    (false, vcall vorbis_info_clear enc)
  else
    (* do we have optional hard quality restrictions? *)
    let enc :=
      if (0 <? max_bitrate enc) || (0 <? min_bitrate enc) then
        let enc := vcall (vorbis_encode_ctl OV_ECTL_RATEMANAGE_GET) enc in
        let ai := mk_ratemanage_arg (min_bitrate enc) (max_bitrate enc) 1 in
        vcall (vorbis_encode_ctl (OV_ECTL_RATEMANAGE_SET (Some ai))) enc
      else enc in
    gst_vorbisenc_setup_finish enc.

(** The [else] branch of [gst_vorbisenc_setup]. *)
Definition gst_vorbisenc_setup_bitrate (enc : GstVorbisEnc) : bool * GstVorbisEnc :=
  let min_bitrate_ := if 0 <? min_bitrate enc then min_bitrate enc else -1 in
  let max_bitrate_ := if 0 <? max_bitrate enc then max_bitrate enc else -1 in
  let enc :=
    vcall (vorbis_encode_setup_managed (channels enc) (frequency enc)
             max_bitrate_ (bitrate enc) min_bitrate_) enc in
  if negb (vorbis_ret (vorbis enc) =? 0) then
    (false, vcall vorbis_info_clear enc)
  else gst_vorbisenc_setup_finish enc.

Definition gst_vorbisenc_setup (enc : GstVorbisEnc) : bool * GstVorbisEnc :=
  let enc := gst_vorbisenc_setup_begin enc in
  if quality_set enc then gst_vorbisenc_setup_quality enc
  else gst_vorbisenc_setup_bitrate enc.

(** [caps_channels] and [caps_rate] are what [gst_structure_get_int] finds
    in the caps ([None]: the field is absent and the member is left as it
    is). *)
Definition gst_vorbisenc_sink_setcaps (enc : GstVorbisEnc)
    (caps_channels caps_rate : option Z) : bool * GstVorbisEnc :=
  let enc := set_setup false enc in
  let enc := match caps_channels with Some c => set_channels c enc | None => enc end in
  let enc := match caps_rate with Some r => set_frequency r enc | None => enc end in
  let '(_, enc) := gst_vorbisenc_setup enc in
  (setup enc, enc).

(** Push out the buffer and do internal bookkeeping. *)
Definition gst_vorbisenc_push_buffer (enc : GstVorbisEnc) (buffer : GstBuffer)
  : GstFlowReturn * GstVorbisEnc :=
  let enc := set_bytes_out (guint64 (bytes_out enc + GST_BUFFER_SIZE buffer)) enc in
  (gst_pad_push (srcpad enc) buffer, set_srcpad (srcpad enc ++ [buffer]) enc).

Definition gst_vorbisenc_push_packet (enc : GstVorbisEnc) (op : ogg_packet)
  : GstFlowReturn * GstVorbisEnc :=
  let '(outbuf, enc) := gst_vorbisenc_buffer_from_packet enc op in
  gst_vorbisenc_push_buffer enc outbuf.

(** [while (vorbis_bitrate_flushpacket (&vd, &op)) ...], at most [fuel]
    iterations. *)
Fixpoint flush_packets (fuel : nat) (enc : GstVorbisEnc) : GstFlowReturn * GstVorbisEnc :=
  match fuel with
  | O => (GST_FLOW_OK, enc)
  | S fuel' =>
      let enc := vcall vorbis_bitrate_flushpacket enc in
      if vorbis_ret (vorbis enc) =? 0 then (GST_FLOW_OK, enc)
      else
        let '(ret, enc) := gst_vorbisenc_push_packet enc (vorbis_op (vorbis enc)) in
        if flow_is_ok ret then flush_packets fuel' enc else (ret, enc)
  end.

(** [while (vorbis_analysis_blockout (&vd, &vb) == 1) ...], at most [fuel]
    iterations. *)
Fixpoint output_blocks (fuel : nat) (enc : GstVorbisEnc) : GstFlowReturn * GstVorbisEnc :=
  match fuel with
  | O => (GST_FLOW_OK, enc)
  | S fuel' =>
      let enc := vcall vorbis_analysis_blockout enc in
      if vorbis_ret (vorbis enc) =? 1 then
        (* analysis *)
        let enc := vcall vorbis_analysis enc in
        let enc := vcall vorbis_bitrate_addblock enc in
        let '(ret, enc) := flush_packets (S (vorbis_pending (vorbis enc))) enc in
        if flow_is_ok ret then output_blocks fuel' enc else (ret, enc)
      else (GST_FLOW_OK, enc)
  end.

Definition gst_vorbisenc_output_buffers (enc : GstVorbisEnc)
  : GstFlowReturn * GstVorbisEnc :=
  output_blocks (S (vorbis_pending (vorbis enc))) enc.

Definition gst_vorbisenc_clear (enc : GstVorbisEnc) : GstFlowReturn * GstVorbisEnc :=
  let '(ret, enc) :=
    if setup enc then
      let enc := vcall (vorbis_analysis_wrote [] 0) enc in
      let '(ret, enc) := gst_vorbisenc_output_buffers enc in
      (ret, set_setup false enc)
    else (GST_FLOW_OK, enc) in
  (* clean up and exit.  vorbis_info_clear() must be called last *)
  let enc := vcall vorbis_block_clear enc in
  let enc := vcall vorbis_dsp_clear enc in
  let enc := vcall vorbis_info_clear enc in
  (ret, set_header_sent false enc).

Definition push_event (enc : GstVorbisEnc) (event : GstEvent) : bool * GstVorbisEnc :=
  (gst_pad_push_event (srcpad_events enc) event,
   set_srcpad_events (srcpad_events enc ++ [event]) enc).

(** [None]: the handler ran into [g_assert_not_reached]. *)
Definition gst_vorbisenc_sink_event (enc : GstVorbisEnc) (event : GstEvent)
  : option (bool * GstVorbisEnc) :=
  match event with
  | GST_EVENT_EOS =>
      (* Tell the library we're at end of stream so that it can handle the
         last frame and mark end of stream in the output properly *)
      let '(_, enc) := gst_vorbisenc_clear enc in
      Some (push_event enc event)
  | GST_EVENT_TAG list_ =>
      match tags enc with
      | Some t =>
          Some (push_event (set_tags (Some (gst_tag_list_insert t list_)) enc) event)
      | None => None
      end
  | GST_EVENT_OTHER _ => Some (push_event enc event)
  end.

(** The header handshake of [gst_vorbisenc_chain]: the block under
    [if (!vorbisenc->header_sent)].  A flow return other than
    [GST_FLOW_OK] is the jump to [failed_header_push]. *)
Definition gst_vorbisenc_chain_headers (enc : GstVorbisEnc) (buffer : GstBuffer)
  : GstFlowReturn * GstVorbisEnc :=
  (* first, make sure header buffers get timestamp == 0 *)
  let enc := set_next_ts 0 enc in
  let enc := set_granulepos_offset 0 enc in
  let enc := set_subgranule_offset 0 enc in
  let enc := gst_vorbisenc_set_metadata enc in
  let enc := vcall vorbis_analysis_headerout enc in
  let '(header, header_comm, header_code) := vorbis_headers (vorbis enc) in
  let enc := vcall vorbis_comment_clear enc in
  (* create header buffers *)
  let buf1 := gst_vorbisenc_buffer_from_header_packet enc header in
  let buf2 := gst_vorbisenc_buffer_from_header_packet enc header_comm in
  let buf3 := gst_vorbisenc_buffer_from_header_packet enc header_code in
  (* mark and put on caps *)
  let '(caps, (buf1, buf2, buf3)) :=
    gst_vorbisenc_set_header_on_caps vorbis_caps_factory buf1 buf2 buf3 in
  (* negotiate with these caps *)
  let enc := set_srcpad_caps (Some caps) enc in
  let buf1 := gst_buffer_set_caps buf1 caps in
  let buf2 := gst_buffer_set_caps buf2 caps in
  let buf3 := gst_buffer_set_caps buf3 caps in
  (* push out buffers *)
  let '(ret, enc) := gst_vorbisenc_push_buffer enc buf1 in
  if negb (flow_is_ok ret) then (ret, enc) else
  let '(ret, enc) := gst_vorbisenc_push_buffer enc buf2 in
  if negb (flow_is_ok ret) then (ret, enc) else
  let '(ret, enc) := gst_vorbisenc_push_buffer enc buf3 in
  if negb (flow_is_ok ret) then (ret, enc) else
  (* now adjust starting granulepos accordingly if the buffer's timestamp is
     nonzero *)
  let enc := set_next_ts (GST_BUFFER_TIMESTAMP buffer) enc in
  let enc :=
    set_granulepos_offset
      (gst_util_uint64_scale (GST_BUFFER_TIMESTAMP buffer)
         (guint64 (frequency enc)) GST_SECOND) enc in
  let enc := set_subgranule_offset 0 enc in
  let enc :=
    set_subgranule_offset
      (guint64 (next_ts enc - granulepos_to_timestamp_offset enc 0)) enc in
  (GST_FLOW_OK, set_header_sent true enc).

(** The frame count of a buffer:
    [GST_BUFFER_SIZE (buffer) / (vorbisenc->channels * sizeof (float))]. *)
Definition chain_size (enc : GstVorbisEnc) (buffer : GstBuffer) : Z :=
  GST_BUFFER_SIZE buffer / guint64 (guint64 (channels enc) * 4).

(** The rows of [vorbis_buffer] after the deinterleaving loops. *)
Definition chain_vorbis_buffer (enc : GstVorbisEnc) (buffer : GstBuffer)
  : list (list gfloat) :=
  let size := Z.to_nat (chain_size enc buffer) in
  let nchannels := Z.to_nat (guint64 (channels enc)) in
  fst (deinterleave size 0 nchannels
         (analysis_buffer nchannels size, GST_BUFFER_DATA buffer)).

(** The part of [gst_vorbisenc_chain] under "data to encode". *)
Definition gst_vorbisenc_chain_data (enc : GstVorbisEnc) (buffer : GstBuffer)
  : GstFlowReturn * GstVorbisEnc :=
  let size := chain_size enc buffer in
  (* expose the buffer to submit data *)
  let enc := vcall (vorbis_analysis_buffer size) enc in
  (* deinterleave samples, write the buffer data *)
  let vorbis_buffer := chain_vorbis_buffer enc buffer in
  (* tell the library how much we actually submitted *)
  let enc := vcall (vorbis_analysis_wrote vorbis_buffer size) enc in
  let enc := set_samples_in (guint64 (samples_in enc + size)) enc in
  gst_vorbisenc_output_buffers enc.

Definition gst_vorbisenc_chain (enc : GstVorbisEnc) (buffer : GstBuffer)
  : GstFlowReturn * GstVorbisEnc :=
  if negb (setup enc) then
    (* not_setup *)
    (GST_FLOW_UNEXPECTED,
     set_bus (bus enc ++
              [GST_MESSAGE_ERROR CORE NEGOTIATION
                 "encoder not initialized (input is not audio?)"]) enc)
  else if negb (header_sent enc) then
    let '(ret, enc) := gst_vorbisenc_chain_headers enc buffer in
    if negb (flow_is_ok ret) then (ret, enc)
    else gst_vorbisenc_chain_data enc buffer
  else gst_vorbisenc_chain_data enc buffer.

Definition gst_vorbisenc_set_property (enc : GstVorbisEnc) (prop : property)
  : GstVorbisEnc :=
  match prop with
  | ARG_MAX_BITRATE v =>
      let old_value := managed enc in
      let enc := set_max_bitrate v enc in
      let enc :=
        if (0 <=? max_bitrate enc) && (max_bitrate enc <? LOWEST_BITRATE)
        then set_max_bitrate LOWEST_BITRATE enc else enc in
      let enc :=
        if (0 <? min_bitrate enc) && (0 <? max_bitrate enc)
        then set_managed true enc else set_managed false enc in
      if negb (eqb old_value (managed enc)) then g_object_notify "managed" enc
      else enc
  | ARG_BITRATE v =>
      let enc := set_bitrate v enc in
      if (0 <=? bitrate enc) && (bitrate enc <? LOWEST_BITRATE)
      then set_bitrate LOWEST_BITRATE enc else enc
  | ARG_MIN_BITRATE v =>
      let old_value := managed enc in
      let enc := set_min_bitrate v enc in
      let enc :=
        if (0 <=? min_bitrate enc) && (min_bitrate enc <? LOWEST_BITRATE)
        then set_min_bitrate LOWEST_BITRATE enc else enc in
      let enc :=
        if (0 <? min_bitrate enc) && (0 <? max_bitrate enc)
        then set_managed true enc else set_managed false enc in
      if negb (eqb old_value (managed enc)) then g_object_notify "managed" enc
      else enc
  | ARG_QUALITY v =>
      let enc := set_quality v enc in
      if (0 <=? quality enc)%float then set_quality_set true enc
      else set_quality_set false enc
  | ARG_MANAGED v => set_managed v enc
  | ARG_LAST_MESSAGE => enc
  end.

(** [READY_TO_PAUSED] in [gst_vorbisenc_change_state]. *)
Definition gst_vorbisenc_change_state_ready_to_paused (enc : GstVorbisEnc)
  : GstVorbisEnc :=
  set_header_sent false (set_setup false enc).

(** The chain function called on the buffers of a list, one after the
    other. *)
Definition chain_all (enc : GstVorbisEnc) (buffers : list GstBuffer) : GstVorbisEnc :=
  fold_left (fun e b => snd (gst_vorbisenc_chain e b)) buffers enc.

(** [gst_util_uint64_scale_int] of the GStreamer core library, left
    opaque: val, num, denom. *)
Variable gst_util_uint64_scale_int : Z -> Z -> Z -> Z.

(** [None]: the function returns [FALSE] and [*dest_value] is not written.
    [bytes_out * frequency] is a product of a [guint64] and a [gint],
    computed as [guint64]; [avg] is a [gint64] and is passed for a [gint]. *)
Definition gst_vorbisenc_convert_src (enc : GstVorbisEnc) (src_format : GstFormat)
    (src_value : Z) (dest_format : GstFormat) : option Z :=
  if (samples_in enc =? 0) || (bytes_out enc =? 0) || (frequency enc =? 0) then None
  else
    let avg :=
      gint64 (guint64 (bytes_out enc * guint64 (frequency enc)) / samples_in enc) in
    match src_format with
    | GST_FORMAT_BYTES =>
        match dest_format with
        | GST_FORMAT_TIME =>
            Some (gint64 (gst_util_uint64_scale_int (guint64 src_value)
                            GST_SECOND (gint avg)))
        | _ => None
        end
    | GST_FORMAT_TIME =>
        match dest_format with
        | GST_FORMAT_BYTES =>
            Some (gint64 (gst_util_uint64_scale_int (guint64 src_value)
                            (gint avg) GST_SECOND))
        | _ => None
        end
    | _ => None
    end.

(** [None]: the function returns [FALSE] and [*dest_value] is not written.
    The quotient is the one of C, rounded towards zero; [scale] is a
    [guint], so [scale * frequency] is computed as [guint] and passed for a
    [gint]. *)
Definition gst_vorbisenc_convert_sink (enc : GstVorbisEnc) (src_format : GstFormat)
    (src_value : Z) (dest_format : GstFormat) : option Z :=
  let bytes_per_sample := gint (channels enc * 2) in
  match src_format with
  | GST_FORMAT_BYTES =>
      match dest_format with
      | GST_FORMAT_DEFAULT =>
          if bytes_per_sample =? 0 then None
          else Some (gint64 (Z.quot src_value bytes_per_sample))
      | GST_FORMAT_TIME =>
          let byterate := gint (bytes_per_sample * frequency enc) in
          if byterate =? 0 then None
          else
            Some (gint64 (gst_util_uint64_scale_int (guint64 src_value)
                            GST_SECOND byterate))
      | _ => None
      end
  | GST_FORMAT_DEFAULT =>
      match dest_format with
      | GST_FORMAT_BYTES => Some (gint64 (src_value * bytes_per_sample))
      | GST_FORMAT_TIME =>
          if frequency enc =? 0 then None
          else
            Some (gint64 (gst_util_uint64_scale_int (guint64 src_value)
                            GST_SECOND (frequency enc)))
      | _ => None
      end
  | GST_FORMAT_TIME =>
      match dest_format with
      | GST_FORMAT_BYTES =>
          let scale := guint bytes_per_sample in
          Some (gint64 (gst_util_uint64_scale_int (guint64 src_value)
                          (gint (guint (scale * guint (frequency enc)))) GST_SECOND))
      | GST_FORMAT_DEFAULT =>
          let scale := 1 in
          Some (gint64 (gst_util_uint64_scale_int (guint64 src_value)
                          (gint (guint (scale * guint (frequency enc)))) GST_SECOND))
      | _ => None
      end
  | _ => None
  end.

(** [None]: the [default] branch, which warns and leaves the [GValue] as it
    is. *)
Definition gst_vorbisenc_get_property (enc : GstVorbisEnc) (prop_id_ : Z)
  : option GValue :=
  match prop_id_ with
  | 1 => Some (G_VALUE_INT (max_bitrate enc))
  | 2 => Some (G_VALUE_INT (bitrate enc))
  | 3 => Some (G_VALUE_INT (min_bitrate enc))
  | 4 => Some (G_VALUE_FLOAT (quality enc))
  | 5 => Some (G_VALUE_BOOLEAN (managed enc))
  | 6 => Some (G_VALUE_STRING (last_message enc))
  | _ => None
  end.

(** The state change function of the parent class, left opaque: it does
    not reach the members of the element. *)
Variable parent_change_state : GstStateChange -> GstStateChangeReturn.

Definition gst_vorbisenc_change_state (enc : GstVorbisEnc) (transition : GstStateChange)
  : GstStateChangeReturn * GstVorbisEnc :=
  let enc :=
    match transition with
    | GST_STATE_CHANGE_NULL_TO_READY => set_tags (Some []) enc
    | GST_STATE_CHANGE_READY_TO_PAUSED =>
        gst_vorbisenc_change_state_ready_to_paused enc
    | _ => enc
    end in
  let res := parent_change_state transition in
  let enc :=
    match transition with
    | GST_STATE_CHANGE_PAUSED_TO_READY =>
        let enc := vcall vorbis_block_clear enc in
        let enc := vcall vorbis_dsp_clear enc in
        let enc := vcall vorbis_info_clear enc in
        set_last_message None enc
    | GST_STATE_CHANGE_READY_TO_NULL => set_tags None enc
    | _ => enc
    end in
  (res, enc).

(** The properties [gst_vorbisenc_class_init] installs, each under its
    number in the enumeration. *)
Definition gst_vorbisenc_class_init : list (Z * GParamSpec) :=
  [(1, g_param_spec_int "max-bitrate" (-1) HIGHEST_BITRATE MAX_BITRATE_DEFAULT
         G_PARAM_READWRITE);
   (2, g_param_spec_int "bitrate" (-1) HIGHEST_BITRATE BITRATE_DEFAULT
         G_PARAM_READWRITE);
   (3, g_param_spec_int "min_bitrate" (-1) HIGHEST_BITRATE MIN_BITRATE_DEFAULT
         G_PARAM_READWRITE);
   (4, g_param_spec_float "quality" (-0x1.99999ap-4)%float 1%float QUALITY_DEFAULT
         G_PARAM_READWRITE);
   (5, g_param_spec_boolean "managed" false G_PARAM_READWRITE);
   (6, g_param_spec_string "last-message" None G_PARAM_READABLE)].

Definition gst_vorbisenc_get_query_types : list GstQueryType :=
  [GST_QUERY_POSITION; GST_QUERY_DURATION; GST_QUERY_CONVERT].

(** The default query handler of the pad, and the queries to the peer of
    the sink pad: what each returns, with the format and the value it
    leaves in the variables passed by reference. *)
Variable gst_pad_query_default : GstQuery -> bool * GstQuery.
Variable gst_pad_query_position : GstFormat -> bool * GstFormat * Z.
Variable gst_pad_query_duration : GstFormat -> bool * GstFormat * Z.
Variable gst_pad_query_convert : GstFormat -> Z -> GstFormat -> bool * GstFormat * Z.

Definition gst_vorbisenc_src_query (enc : GstVorbisEnc) (query : GstQuery)
  : bool * GstQuery :=
  match GST_QUERY_TYPE query with
  | GST_QUERY_POSITION =>
      let req_fmt := query_format query in
      let '(res, req_fmt, val) := gst_pad_query_position req_fmt in
      if res then (res, gst_query_set_position query req_fmt val)
      else
        let fmt := GST_FORMAT_TIME in
        let '(res, fmt, pos) := gst_pad_query_position fmt in
        if negb res then (res, query)
        else
          let '(res, req_fmt, val) := gst_pad_query_convert fmt pos req_fmt in
          if res then (res, gst_query_set_position query req_fmt val)
          else (res, query)
  | GST_QUERY_DURATION =>
      let req_fmt := query_format query in
      let '(res, req_fmt, val) := gst_pad_query_duration req_fmt in
      if res then (res, gst_query_set_duration query req_fmt val)
      else
        let fmt := GST_FORMAT_TIME in
        let '(res, fmt, dur) := gst_pad_query_duration fmt in
        if negb res then (res, query)
        else
          let '(res, req_fmt, val) := gst_pad_query_convert fmt dur req_fmt in
          if res then (res, gst_query_set_duration query req_fmt val)
          else (res, query)
  | GST_QUERY_CONVERT =>
      let src_fmt := query_format query in
      let src_val := query_value query in
      let dest_fmt := query_dest_format query in
      match gst_vorbisenc_convert_src enc src_fmt src_val dest_fmt with
      | None => (false, query)
      | Some dest_val =>
          (true, gst_query_set_convert query src_fmt src_val dest_fmt dest_val)
      end
  | _ => gst_pad_query_default query
  end.

Definition gst_vorbisenc_sink_query (enc : GstVorbisEnc) (query : GstQuery)
  : bool * GstQuery :=
  match GST_QUERY_TYPE query with
  | GST_QUERY_CONVERT =>
      let src_fmt := query_format query in
      let src_val := query_value query in
      let dest_fmt := query_dest_format query in
      match gst_vorbisenc_convert_sink enc src_fmt src_val dest_fmt with
      | None => (false, query)
      | Some dest_val =>
          (true, gst_query_set_convert query src_fmt src_val dest_fmt dest_val)
      end
  | _ => gst_pad_query_default query
  end.

(** The tag library: the names of the numbered tags, the type a tag is
    registered with, the values a list holds for a tag, and the Vorbis
    comment name of a tag. *)
Variable GST_TAG_TRACK_NUMBER : string.
Variable GST_TAG_TRACK_COUNT : string.
Variable GST_TAG_ALBUM_VOLUME_NUMBER : string.
Variable GST_TAG_ALBUM_VOLUME_COUNT : string.
Variable gst_tag_get_type : string -> GType.
Variable gst_tag_list_get_uint_index : GstTagList -> string -> Z -> option Z.
Variable gst_tag_list_get_date_index : GstTagList -> string -> Z -> option GDate.
Variable gst_tag_list_get_string_index : GstTagList -> string -> Z -> option string.
Variable gst_tag_list_get_tag_size : GstTagList -> string -> Z.
Variable gst_tag_to_vorbis_tag : string -> option string.

(** [None] is [NULL], also where the function runs into
    [g_return_val_if_reached]. *)
Definition gst_vorbisenc_get_tag_value (list_ : GstTagList) (tag : option string)
    (index : Z) : option string :=
  match tag with
  | None => None
  | Some tag =>
      let tag_type := gst_tag_get_type tag in
      (* get tag name right *)
      if String.eqb tag GST_TAG_TRACK_NUMBER
         || String.eqb tag GST_TAG_ALBUM_VOLUME_NUMBER
         || String.eqb tag GST_TAG_TRACK_COUNT
         || String.eqb tag GST_TAG_ALBUM_VOLUME_COUNT then
        match gst_tag_list_get_uint_index list_ tag index with
        | None => None
        | Some track_no => Some (printf_u track_no)
        end
      else
        match tag_type with
        | GST_TYPE_DATE =>
            match gst_tag_list_get_date_index list_ tag index with
            | None => None
            | Some date =>
                Some (printf_0d 4 (g_date_get_year date) ++ "-"
                      ++ printf_0d 2 (g_date_get_month date) ++ "-"
                      ++ printf_0d 2 (g_date_get_day date))%string
            end
        | G_TYPE_STRING => gst_tag_list_get_string_index list_ tag index
        | _ => None
        end
  end.

(** [for (i = ...; i < count; i++)] of [gst_vorbisenc_metadata_set1], with
    [n] iterations left. *)
Fixpoint metadata_set1_loop (n : nat) (i : Z) (list_ : GstTagList) (tag vorbistag : string)
    (enc : GstVorbisEnc) : GstVorbisEnc :=
  match n with
  | O => enc
  | S n' =>
      let enc :=
        match gst_vorbisenc_get_tag_value list_ (Some tag) i with
        | Some vorbisvalue => vcall (vorbis_comment_add_tag vorbistag vorbisvalue) enc
        | None => enc
        end in
      metadata_set1_loop n' (i + 1) list_ tag vorbistag enc
  end.

Definition gst_vorbisenc_metadata_set1 (list_ : GstTagList) (tag : string)
    (enc : GstVorbisEnc) : GstVorbisEnc :=
  match gst_tag_to_vorbis_tag tag with
  | None => enc
  | Some vorbistag =>
      let count := gst_tag_list_get_tag_size list_ tag in
      metadata_set1_loop (Z.to_nat count) 0 list_ tag vorbistag enc
  end.

(** The entry points of the element, as the pipeline and the application
    call them. *)
Inductive invocation : Type :=
| call_chain (buffer : GstBuffer)
| call_sink_event (event : GstEvent)
| call_sink_setcaps (caps_channels caps_rate : option Z)
| call_set_property (prop : property)
| call_change_state (transition : GstStateChange).

(** [None]: the call ran into [g_assert_not_reached]. *)
Definition invoke (enc : GstVorbisEnc) (c : invocation) : option GstVorbisEnc :=
  match c with
  | call_chain buffer => Some (snd (gst_vorbisenc_chain enc buffer))
  | call_sink_event event => option_map snd (gst_vorbisenc_sink_event enc event)
  | call_sink_setcaps caps_channels caps_rate =>
      Some (snd (gst_vorbisenc_sink_setcaps enc caps_channels caps_rate))
  | call_set_property prop => Some (gst_vorbisenc_set_property enc prop)
  | call_change_state transition => Some (snd (gst_vorbisenc_change_state enc transition))
  end.

Fixpoint invoke_all (enc : GstVorbisEnc) (calls : list invocation)
  : option GstVorbisEnc :=
  match calls with
  | [] => Some enc
  | c :: calls' =>
      match invoke enc c with
      | Some enc' => invoke_all enc' calls'
      | None => None
      end
  end.

(** The packets [vorbis_bitrate_flushpacket] has handed out since
    [vorbis_analysis_init], the oldest first. *)
Fixpoint packets_of (h : libvorbis) : list ogg_packet :=
  match h with
  | [] => []
  | c :: h' =>
      match c with
      | vorbis_analysis_init => []
      | vorbis_bitrate_flushpacket =>
          if vorbis_ret h =? 0 then packets_of h'
          else packets_of h' ++ [vorbis_op h]
      | _ => packets_of h'
      end
  end.

(** The data unit of a packet whose predecessor had granule position
    [prev]: [gst_vorbisenc_buffer_from_packet] with the tracker at the
    corrected time of [prev]. *)
Definition stamp (enc : GstVorbisEnc) (prev : Z) (op : ogg_packet) : GstBuffer :=
  fst (gst_vorbisenc_buffer_from_packet
         (set_next_ts (granulepos_to_timestamp_offset enc prev) enc) op).

Fixpoint stamps (enc : GstVorbisEnc) (prev : Z) (ops : list ogg_packet)
  : list GstBuffer :=
  match ops with
  | [] => []
  | op :: ops' => stamp enc prev op :: stamps enc (granulepos op) ops'
  end.

(** The granule position of the last packet of a list, [prev] when the list
    is empty. *)
Definition last_granulepos (prev : Z) (ops : list ogg_packet) : Z :=
  fold_left (fun _ op => granulepos op) ops prev.

(** ** The vocabulary of the properties *)

(** The members the drain loops leave alone: all but the log of the source
    pad, the library handle, [bytes_out] and [next_ts]. *)
Record drain_keeps (e e' : GstVorbisEnc) : Prop := mk_drain_keeps {
  dk_srcpad_caps : srcpad_caps e' = srcpad_caps e;
  dk_srcpad_events : srcpad_events e' = srcpad_events e;
  dk_bus : bus e' = bus e;
  dk_notified : notified e' = notified e;
  dk_managed : managed e' = managed e;
  dk_bitrate : bitrate e' = bitrate e;
  dk_min_bitrate : min_bitrate e' = min_bitrate e;
  dk_max_bitrate : max_bitrate e' = max_bitrate e;
  dk_quality : quality e' = quality e;
  dk_quality_set : quality_set e' = quality_set e;
  dk_channels : channels e' = channels e;
  dk_frequency : frequency e' = frequency e;
  dk_samples_in : samples_in e' = samples_in e;
  dk_granulepos_offset : granulepos_offset e' = granulepos_offset e;
  dk_subgranule_offset : subgranule_offset e' = subgranule_offset e;
  dk_tags : tags e' = tags e;
  dk_setup : setup e' = setup e;
  dk_header_sent : header_sent e' = header_sent e;
  dk_last_message : last_message e' = last_message e
}.

(** The granule clock: the members both conversions read. *)
Definition same_clock (e e' : GstVorbisEnc) : Prop :=
  frequency e' = frequency e /\
  granulepos_offset e' = granulepos_offset e /\
  subgranule_offset e' = subgranule_offset e.

(** What a drain does to the session: the packets the library handed out,
    their stamps appended to the log in order, the tracker at the corrected
    time of the last one, the submitted blocks as they were. *)
Record drain_spec (prev : Z) (e e' : GstVorbisEnc) (ops : list ogg_packet) : Prop :=
  mk_drain_spec {
  ds_keeps : drain_keeps e e';
  ds_wrote : wrote_calls (vorbis e') = wrote_calls (vorbis e);
  ds_packets : packets_of (vorbis e') = packets_of (vorbis e) ++ ops;
  ds_srcpad : srcpad e' = srcpad e ++ stamps e prev ops;
  ds_next_ts : next_ts e' = granulepos_to_timestamp_offset e (last_granulepos prev ops)
}.

(** Calls that neither hand out a packet, nor submit samples, nor start a
    new analysis state. *)
Definition inert_call (c : vorbis_call) : bool :=
  match c with
  | vorbis_analysis_init | vorbis_bitrate_flushpacket | vorbis_analysis_wrote _ _ => false
  | _ => true
  end.

(** The calls [gst_vorbisenc_set_metadata] makes, the latest first. *)
Definition metadata_calls (enc : GstVorbisEnc) : list vorbis_call :=
  match tags enc, gst_tag_setter_get_tag_list with
  | None, None => []
  | _, _ =>
      rev (map (fun tv => vorbis_comment_add_tag (fst tv) (snd tv))
             (vorbis_comments
                (gst_tag_list_merge gst_tag_setter_get_tag_list (tags enc))))
      ++ [vorbis_comment_init]
  end.

(** The history of the library when the handshake is over. *)
Definition header_history (enc : GstVorbisEnc) : libvorbis :=
  vorbis_comment_clear :: vorbis_analysis_headerout :: metadata_calls enc ++ vorbis enc.

(** The three header packets the library writes for a session in state
    [enc]: identification, comment, codebook. *)
Definition header_packets (enc : GstVorbisEnc) : ogg_packet * ogg_packet * ogg_packet :=
  vorbis_headers (vorbis_analysis_headerout :: metadata_calls enc ++ vorbis enc).

Definition header_caps (enc : GstVorbisEnc) : GstCaps :=
  let '(header, header_comm, header_code) := header_packets enc in
  mkGstCaps "audio/x-vorbis" [packet header; packet header_comm; packet header_code].

(** A header unit as it is pushed. *)
Definition header_unit (enc : GstVorbisEnc) (op : ogg_packet) : GstBuffer :=
  mkGstBuffer (packet op) (bytes_out enc) 0 GST_CLOCK_TIME_NONE GST_CLOCK_TIME_NONE
    true (Some (header_caps enc)).

Definition header_units (enc : GstVorbisEnc) : list GstBuffer :=
  let '(header, header_comm, header_code) := header_packets enc in
  [header_unit enc header; header_unit enc header_comm; header_unit enc header_code].

(** The members the handshake leaves alone. *)
Record handshake_keeps (e e' : GstVorbisEnc) : Prop := mk_handshake_keeps {
  hk_srcpad_events : srcpad_events e' = srcpad_events e;
  hk_bus : bus e' = bus e;
  hk_notified : notified e' = notified e;
  hk_managed : managed e' = managed e;
  hk_bitrate : bitrate e' = bitrate e;
  hk_min_bitrate : min_bitrate e' = min_bitrate e;
  hk_max_bitrate : max_bitrate e' = max_bitrate e;
  hk_quality : quality e' = quality e;
  hk_quality_set : quality_set e' = quality_set e;
  hk_channels : channels e' = channels e;
  hk_frequency : frequency e' = frequency e;
  hk_samples_in : samples_in e' = samples_in e;
  hk_tags : tags e' = tags e;
  hk_setup : setup e' = setup e;
  hk_last_message : last_message e' = last_message e;
  hk_vorbis : vorbis e' = header_history e
}.

(** The outcome of the handshake: the header units pushed, up to the first
    one the peer does not take; the granule clock set from the buffer when
    all three were taken, and at zero otherwise. *)
Record handshake_spec (e : GstVorbisEnc) (buffer : GstBuffer)
    (ret : GstFlowReturn) (e' : GstVorbisEnc) : Prop := mk_handshake_spec {
  hs_keeps : handshake_keeps e e';
  hs_srcpad :
    exists n, (1 <= n <= 3)%nat /\ srcpad e' = srcpad e ++ take n (header_units e) /\
              (flow_is_ok ret = true -> n = 3%nat);
  hs_done :
    flow_is_ok ret = true ->
    header_sent e' = true /\
    next_ts e' = GST_BUFFER_TIMESTAMP buffer /\
    granulepos_offset e' =
      gst_util_uint64_scale (GST_BUFFER_TIMESTAMP buffer)
        (guint64 (frequency e)) GST_SECOND /\
    subgranule_offset e' =
      guint64 (GST_BUFFER_TIMESTAMP buffer -
               guint64 (gst_util_uint64_scale
                          (guint64 (guint64 0 + granulepos_offset e'))
                          GST_SECOND (guint64 (frequency e)) + 0));
  hs_failed :
    flow_is_ok ret = false ->
    header_sent e' = header_sent e /\ next_ts e' = 0 /\
    granulepos_offset e' = 0 /\ subgranule_offset e' = 0
}.

(** The session as [gst_vorbisenc_chain] hands it to the drain: the samples
    of the buffer submitted and counted. *)
Definition chain_ingest (e : GstVorbisEnc) (buffer : GstBuffer) : GstVorbisEnc :=
  set_samples_in (guint64 (samples_in e + chain_size e buffer))
    (vcall (vorbis_analysis_wrote (chain_vorbis_buffer e buffer) (chain_size e buffer))
       (vcall (vorbis_analysis_buffer (chain_size e buffer)) e)).

(** [n0] is the length of the log of the source pad when the session began.
    Before the handshake is over no data unit was pushed and no packet
    drained; afterwards the data units are the stamps of the drained
    packets, the first one stamped from granule position 0, and the tracker
    is at the corrected time of the last packet; the offsets of the clock
    are 64-bit values. *)
Definition session_inv (n0 : nat) (e : GstVorbisEnc) : Prop :=
  (n0 <= length (srcpad e))%nat /\
  if header_sent e then
    data_units (pushed_since n0 (srcpad e)) = stamps e 0 (packets_of (vorbis e)) /\
    next_ts e =
      granulepos_to_timestamp_offset e (last_granulepos 0 (packets_of (vorbis e))) /\
    is_guint64 (granulepos_offset e) /\ is_guint64 (subgranule_offset e)
  else
    data_units (pushed_since n0 (srcpad e)) = [] /\ packets_of (vorbis e) = [].

(** The members no chain call changes. *)
Record chain_keeps (e e' : GstVorbisEnc) : Prop := mk_chain_keeps {
  ck_srcpad_events : srcpad_events e' = srcpad_events e;
  ck_notified : notified e' = notified e;
  ck_managed : managed e' = managed e;
  ck_bitrate : bitrate e' = bitrate e;
  ck_min_bitrate : min_bitrate e' = min_bitrate e;
  ck_max_bitrate : max_bitrate e' = max_bitrate e;
  ck_quality : quality e' = quality e;
  ck_quality_set : quality_set e' = quality_set e;
  ck_channels : channels e' = channels e;
  ck_frequency : frequency e' = frequency e;
  ck_tags : tags e' = tags e;
  ck_setup : setup e' = setup e;
  ck_last_message : last_message e' = last_message e
}.

(** From [e] to [e'] only data units were pushed. *)
Definition pushes_data (e e' : GstVorbisEnc) : Prop :=
  exists ds, srcpad e' = srcpad e ++ ds /\ Forall (fun u => is_data_unit u = true) ds.

Definition drain_call (c : vorbis_call) : bool :=
  match c with
  | vorbis_analysis_blockout | vorbis_analysis | vorbis_bitrate_addblock
  | vorbis_bitrate_flushpacket => true
  | _ => false
  end.

(** From [e] to [e'] the library saw drain calls only. *)
Definition calls_drain (e e' : GstVorbisEnc) : Prop :=
  exists calls, vorbis e' = calls ++ vorbis e /\ forallb drain_call calls = true.

(** The calls of [vorbis_analysis_headerout] in a history. *)
Definition headerout_calls (h : libvorbis) : nat :=
  length (List.filter (fun c => match c with vorbis_analysis_headerout => true
                                        | _ => false end) h).

(** Element [m] of the buffer read as an array of [gfloat]. *)
Definition sample (data : list byte) (m : nat) : gfloat := take 4 (drop (4 * m) data).

(** The loop invariant: [nchannels] rows of [vals] samples; the samples of
    the frames before [i], and of the channels before [j] in frame [i], are
    in place. *)
Definition deinterleaved (nchannels vals : nat) (data : list byte) (i j : nat)
    (vorbis_buffer : list (list gfloat)) : Prop :=
  length vorbis_buffer = nchannels /\
  forall j', (j' < nchannels)%nat ->
    exists row, vorbis_buffer !! j' = Some row /\ length row = vals /\
      forall i', (i' < i \/ (i' = i /\ j' < j))%nat ->
        row !! i' = Some (sample data (i' * nchannels + j')).

(** The bitrate, and both bounds, are unset. *)
Definition bitrates_unset (e : GstVorbisEnc) : bool :=
  (bitrate e <? 0) && (min_bitrate e <? 0) && (max_bitrate e <? 0).

(** The [vorbis_encode_setup_*] call [gst_vorbisenc_setup] makes. *)
Definition chosen_setup_call (e : GstVorbisEnc) : vorbis_call :=
  if quality_set e || bitrates_unset e then
    vorbis_encode_setup_vbr (channels e) (frequency e) (quality e)
  else
    vorbis_encode_setup_managed (channels e) (frequency e)
      (if 0 <? max_bitrate e then max_bitrate e else -1)
      (bitrate e)
      (if 0 <? min_bitrate e then min_bitrate e else -1).

(** The floor of the bitrate properties. *)
Definition bitrate_floor (v : Z) : Z :=
  if (0 <=? v) && (v <? LOWEST_BITRATE) then LOWEST_BITRATE else v.

Definition notify_managed (old_value : bool) (e : GstVorbisEnc) : GstVorbisEnc :=
  if eqb old_value (managed e) then e else g_object_notify "managed" e.

(** The total size of the buffers of a list. *)
Definition total_size (units : list GstBuffer) : Z :=
  foldr (fun u acc => GST_BUFFER_SIZE u + acc) 0 units.

(** The frames submitted by the [vorbis_analysis_wrote] calls of a list of
    calls. *)
Definition submitted_samples (calls : list vorbis_call) : Z :=
  foldr (fun pv acc => snd pv + acc) 0 (wrote_calls calls).

(** From [e] to [e'] both counters follow the logs: [bytes_out] advanced by
    the size of the buffers pushed, [samples_in] by the frames submitted,
    in 64-bit arithmetic. *)
Record accounts (e e' : GstVorbisEnc) : Prop := mk_accounts {
  ac_srcpad :
    exists units, srcpad e' = srcpad e ++ units /\
      guint64 (bytes_out e') = guint64 (bytes_out e + total_size units);
  ac_vorbis :
    exists calls, vorbis e' = calls ++ vorbis e /\
      guint64 (samples_in e') = guint64 (samples_in e + submitted_samples calls);
  ac_bytes_out : is_guint64 (bytes_out e) -> is_guint64 (bytes_out e');
  ac_samples_in : is_guint64 (samples_in e) -> is_guint64 (samples_in e')
}.

(** The members [gst_vorbisenc_setup] leaves alone. *)
Record setup_keeps (e e' : GstVorbisEnc) : Prop := mk_setup_keeps {
  sk_srcpad : srcpad e' = srcpad e;
  sk_srcpad_caps : srcpad_caps e' = srcpad_caps e;
  sk_srcpad_events : srcpad_events e' = srcpad_events e;
  sk_bus : bus e' = bus e;
  sk_managed : managed e' = managed e;
  sk_bitrate : bitrate e' = bitrate e;
  sk_min_bitrate : min_bitrate e' = min_bitrate e;
  sk_max_bitrate : max_bitrate e' = max_bitrate e;
  sk_quality : quality e' = quality e;
  sk_channels : channels e' = channels e;
  sk_frequency : frequency e' = frequency e;
  sk_samples_in : samples_in e' = samples_in e;
  sk_bytes_out : bytes_out e' = bytes_out e;
  sk_granulepos_offset : granulepos_offset e' = granulepos_offset e;
  sk_subgranule_offset : subgranule_offset e' = subgranule_offset e;
  sk_tags : tags e' = tags e;
  sk_header_sent : header_sent e' = header_sent e
}.

(** The history of the library when [gst_vorbisenc_setup] has made its
    [vorbis_encode_setup_*] call. *)
Definition setup_history (e : GstVorbisEnc) : libvorbis :=
  chosen_setup_call e :: vorbis_info_init :: vorbis e.

Definition encode_ctl_call (c : vorbis_call) : bool :=
  match c with vorbis_encode_ctl _ => true | _ => false end.

(** The outcome of [gst_vorbisenc_setup]: it succeeds exactly when the
    library takes the [vorbis_encode_setup_*] call. *)
Record setup_spec (e : GstVorbisEnc) (res : bool) (e' : GstVorbisEnc) : Prop :=
  mk_setup_spec {
  ss_keeps : setup_keeps e e';
  ss_res : res = (vorbis_ret (setup_history e) =? 0);
  ss_setup : setup e' = res;
  ss_notified : notified e' = notified e ++ ["last_message"%string];
  ss_quality_set : quality_set e' = quality_set e || bitrates_unset e;
  ss_last_message :
    last_message e' =
    last_message
      (update_start_message (set_quality_set (quality_set e || bitrates_unset e) e));
  ss_done :
    res = true ->
    next_ts e' = 0 /\
    exists ctl,
      vorbis e' =
        vorbis_block_init :: vorbis_analysis_init :: vorbis_encode_setup_init
        :: ctl ++ setup_history e /\
      forallb encode_ctl_call ctl = true;
  ss_failed :
    res = false ->
    next_ts e' = next_ts e /\ vorbis e' = vorbis_info_clear :: setup_history e
}.

(** The kinds of start message. *)
Definition names_bitrate (m : start_message) : bool :=
  match m with
  | encoding_at_average_bitrate _ _ | encoding_at_approximate_bitrate _ => true
  | _ => false
  end.

Definition names_quality (m : start_message) : bool :=
  match m with
  | encoding_at_quality_level_constrained _ _ | encoding_at_quality_level _ => true
  | _ => false
  end.

(** From [e] to [e'] nothing was pushed and the tracker stayed, or the
    first unit pushed carries the tracker of [e] for its timestamp. *)
Definition first_stamped (e e' : GstVorbisEnc) : Prop :=
  (srcpad e' = srcpad e /\ next_ts e' = next_ts e) \/
  exists u units, srcpad e' = srcpad e ++ u :: units /\
                  GST_BUFFER_TIMESTAMP u = next_ts e.

(** The peer took every buffer of [units], pushed one after the other on
    a source pad whose log was [log]. *)
Definition all_taken (log units : list GstBuffer) : Prop :=
  forall k u, units !! k = Some u -> gst_pad_push (log ++ take k units) u = GST_FLOW_OK.

(** From [e] to [e'] buffers were pushed until the peer refused one: with
    [ret] GST_FLOW_OK all were taken, and otherwise the last one pushed is
    the one refused, with [ret]. *)
Definition pushed_until_refused (e : GstVorbisEnc) (ret : GstFlowReturn)
    (e' : GstVorbisEnc) : Prop :=
  exists units, srcpad e' = srcpad e ++ units /\
    if flow_is_ok ret then all_taken (srcpad e) units
    else exists units0 u, units = units0 ++ [u] /\ all_taken (srcpad e) units0 /\
           gst_pad_push (srcpad e ++ units0) u = ret.

(** The buffer cut after its last whole frame, all else as it is. *)
Definition whole_frames (e : GstVorbisEnc) (buffer : GstBuffer) : GstBuffer :=
  mkGstBuffer
    (take (Z.to_nat (chain_size e buffer * (channels e * 4))) (GST_BUFFER_DATA buffer))
    (GST_BUFFER_OFFSET buffer) (GST_BUFFER_OFFSET_END buffer)
    (GST_BUFFER_TIMESTAMP buffer) (GST_BUFFER_DURATION buffer)
    (GST_BUFFER_FLAG_IN_CAPS buffer) (GST_BUFFER_CAPS buffer).

(** The value [g_param_value_set_default] gives for a specification. *)
Definition g_param_value_set_default (pspec : GParamSpec) : GValue :=
  match pspec with
  | g_param_spec_int _ _ _ default_value _ => G_VALUE_INT default_value
  | g_param_spec_float _ _ _ default_value _ => G_VALUE_FLOAT default_value
  | g_param_spec_boolean _ default_value _ => G_VALUE_BOOLEAN default_value
  | g_param_spec_string _ default_value _ => G_VALUE_STRING default_value
  end.

(** A bitrate that is disabled, or not below the lowest and not above the
    highest the element allows. *)
Definition valid_bitrate (v : Z) : Prop :=
  v = -1 \/ LOWEST_BITRATE <= v <= HIGHEST_BITRATE.

Definition valid_bitrates (e : GstVorbisEnc) : Prop :=
  valid_bitrate (bitrate e) /\ valid_bitrate (min_bitrate e) /\
  valid_bitrate (max_bitrate e).

(** A call the property system lets through: a bitrate or a bound written
    lies in the range of the integer specifications. *)
Definition in_spec_range (c : invocation) : Prop :=
  match c with
  | call_set_property (ARG_MAX_BITRATE v)
  | call_set_property (ARG_BITRATE v)
  | call_set_property (ARG_MIN_BITRATE v) => -1 <= v <= HIGHEST_BITRATE
  | _ => True
  end.

(** The number a string of decimal digits stands for, continuing from
    [acc]; [None] for a character that is no digit. *)
Fixpoint decimal_value_from (acc : Z) (s : string) : option Z :=
  match s with
  | EmptyString => Some acc
  | String c s' =>
      let d := Z.of_nat (nat_of_ascii c) - 48 in
      if (0 <=? d) && (d <? 10) then decimal_value_from (acc * 10 + d) s' else None
  end.

(** The comments [gst_vorbisenc_metadata_set1] hands to the library for the
    values of a tag at the indices [i], [i + 1], ..., [n] of them, the
    latest first. *)
Fixpoint tag_comments (n : nat) (i : Z) (list_ : GstTagList) (tag vorbistag : string)
  : list vorbis_call :=
  match n with
  | O => []
  | S n' =>
      tag_comments n' (i + 1) list_ tag vorbistag ++
      match gst_vorbisenc_get_tag_value list_ (Some tag) i with
      | Some vorbisvalue => [vorbis_comment_add_tag vorbistag vorbisvalue]
      | None => []
      end
  end.

(** ** Arithmetic of the 64-bit values *)

Lemma guint64_id (z : Z) : is_guint64 z -> guint64 z = z.
Proof.
  unfold is_guint64, guint64, G_MAXUINT64. intros Hz.
  apply Z.mod_small. lia.
Qed.

Lemma guint64_range (z : Z) : is_guint64 (guint64 z).
Proof.
  unfold is_guint64, guint64, G_MAXUINT64.
  pose proof (Z.mod_pos_bound z (2 ^ 64) ltac:(lia)). lia.
Qed.

Lemma guint64_add_sub (a b : Z) : is_guint64 a -> guint64 (b + guint64 (a - b)) = a.
Proof.
  intros Ha. unfold guint64.
  rewrite Zplus_mod_idemp_r.
  replace (b + (a - b)) with a by lia.
  apply (guint64_id a Ha).
Qed.

Lemma gint64_id (z : Z) : is_gint64 z -> gint64 z = z.
Proof.
  unfold is_gint64, gint64. intros Hz.
  destruct (Z.ltb_spec (z mod 2 ^ 64) (2 ^ 63)) as [Hlt | Hge].
  - destruct (Z.lt_ge_cases z 0) as [Hneg | Hpos].
    + replace z with (z + 2 ^ 64 - 1 * 2 ^ 64) in Hlt by lia.
      rewrite Zminus_mod, Z_mod_mult, Z.sub_0_r, Z.mod_mod in Hlt by lia.
      rewrite Z.mod_small in Hlt by lia. lia.
    + apply Z.mod_small. lia.
  - destruct (Z.lt_ge_cases z 0) as [Hneg | Hpos].
    + replace z with (z + 2 ^ 64 - 1 * 2 ^ 64) in Hge |- * at 1 by lia.
      rewrite Zminus_mod, Z_mod_mult, Z.sub_0_r, Z.mod_mod by lia.
      rewrite Z.mod_small by lia. lia.
    + rewrite Z.mod_small in Hge by lia. lia.
Qed.

Lemma gst_util_uint64_scale_exact (val num denom : Z) :
  0 < denom -> val * num / denom <= G_MAXUINT64 ->
  gst_util_uint64_scale val num denom = val * num / denom.
Proof.
  intros Hd Hfit. unfold gst_util_uint64_scale.
  destruct (Z.eqb_spec denom 0) as [-> | _]; [lia |].
  apply Z.min_l, Hfit.
Qed.

Lemma gst_util_uint64_scale_range (val num denom : Z) :
  0 <= val -> 0 <= num -> 0 <= denom ->
  is_guint64 (gst_util_uint64_scale val num denom).
Proof.
  intros Hv Hn Hd. unfold gst_util_uint64_scale, is_guint64.
  destruct (Z.eqb_spec denom 0) as [-> | Hne].
  - unfold G_MAXUINT64. lia.
  - assert (0 <= val * num / denom) by (apply Z.div_pos; nia).
    unfold G_MAXUINT64 in *. lia.
Qed.

Lemma GST_CLOCK_TIME_NONE_nonzero : GST_CLOCK_TIME_NONE <> 0.
Proof. unfold GST_CLOCK_TIME_NONE, G_MAXUINT64. lia. Qed.

(** C8.  A negative granule position (in particular -1) maps to
    [GST_CLOCK_TIME_NONE], and so never to 0, in the direct and in the
    offset-corrected conversion; for a non-negative granule position the
    direct conversion is [granulepos * GST_SECOND / frequency] (the sample
    rate positive, the quotient a 64-bit value). *)
Theorem granulepos_to_timestamp_unknown_or_scaled (enc : GstVorbisEnc) (g : Z) :
  (g < 0 ->
   granulepos_to_timestamp enc g = GST_CLOCK_TIME_NONE /\
   granulepos_to_timestamp_offset enc g = GST_CLOCK_TIME_NONE /\
   granulepos_to_timestamp enc g <> 0 /\
   granulepos_to_timestamp_offset enc g <> 0) /\
  (0 <= g -> is_gint64 g -> 0 < frequency enc -> is_gint (frequency enc) ->
   g * GST_SECOND / frequency enc <= G_MAXUINT64 ->
   granulepos_to_timestamp enc g = g * GST_SECOND / frequency enc).
Proof.
  split.
  - intros Hneg. unfold granulepos_to_timestamp, granulepos_to_timestamp_offset.
    destruct (Z.leb_spec 0 g) as [Hle | _]; [lia |].
    repeat split; auto using GST_CLOCK_TIME_NONE_nonzero.
  - intros Hpos Hg Hf Hfi Hfit. unfold granulepos_to_timestamp.
    destruct (Z.leb_spec 0 g) as [_ | Hlt]; [| lia].
    unfold is_gint64, is_gint in *.
    rewrite !guint64_id by (unfold is_guint64, G_MAXUINT64; lia).
    apply gst_util_uint64_scale_exact; assumption.
Qed.

(** ** What the drain loops keep and what they emit *)

Lemma drain_keeps_refl (e : GstVorbisEnc) : drain_keeps e e.
Proof. by constructor. Qed.

Lemma drain_keeps_trans (e1 e2 e3 : GstVorbisEnc) :
  drain_keeps e1 e2 -> drain_keeps e2 e3 -> drain_keeps e1 e3.
Proof. intros [] []. constructor; congruence. Qed.

Lemma drain_keeps_same_clock (e e' : GstVorbisEnc) : drain_keeps e e' -> same_clock e e'.
Proof. intros []. by repeat split. Qed.

Lemma granulepos_to_timestamp_offset_same_clock (e e' : GstVorbisEnc) (g : Z) :
  same_clock e e' ->
  granulepos_to_timestamp_offset e' g = granulepos_to_timestamp_offset e g.
Proof.
  intros (Hf & Hg & Hs). unfold granulepos_to_timestamp_offset.
  by rewrite Hf, Hg, Hs.
Qed.

Lemma stamp_same_clock (e e' : GstVorbisEnc) (prev : Z) (op : ogg_packet) :
  same_clock e e' -> stamp e' prev op = stamp e prev op.
Proof.
  intros Hc. pose proof Hc as (Hf & Hg & Hs).
  unfold stamp, gst_vorbisenc_buffer_from_packet; simpl.
  unfold granulepos_to_timestamp, granulepos_to_timestamp_offset; simpl.
  by rewrite Hf, Hg, Hs.
Qed.

Lemma stamps_same_clock (e e' : GstVorbisEnc) (ops : list ogg_packet) (prev : Z) :
  same_clock e e' -> stamps e' prev ops = stamps e prev ops.
Proof.
  intros Hc. revert prev.
  induction ops as [| op ops IH]; intros prev; simpl; [done |].
  by rewrite IH, (stamp_same_clock e e').
Qed.

Lemma stamps_app (e : GstVorbisEnc) (ops1 ops2 : list ogg_packet) (prev : Z) :
  stamps e prev (ops1 ++ ops2) =
  stamps e prev ops1 ++ stamps e (last_granulepos prev ops1) ops2.
Proof.
  revert prev. induction ops1 as [| op ops1 IH]; intros prev; simpl; [done |].
  by rewrite IH.
Qed.

Lemma last_granulepos_app (ops1 ops2 : list ogg_packet) (prev : Z) :
  last_granulepos prev (ops1 ++ ops2) = last_granulepos (last_granulepos prev ops1) ops2.
Proof. unfold last_granulepos. by rewrite fold_left_app. Qed.

Lemma stamps_data_units (e : GstVorbisEnc) (ops : list ogg_packet) (prev : Z) :
  data_units (stamps e prev ops) = stamps e prev ops.
Proof.
  revert prev. induction ops as [| op ops IH]; intros prev; simpl; [done |].
  unfold data_units in *. simpl. by rewrite IH.
Qed.


(** One packet pushed: the unit is the stamp of the packet, and the tracker
    moves to the corrected time of its granule position. *)
Lemma gst_vorbisenc_push_packet_spec (e : GstVorbisEnc) (op : ogg_packet) (prev : Z) :
  next_ts e = granulepos_to_timestamp_offset e prev ->
  let e' := snd (gst_vorbisenc_push_packet e op) in
  drain_keeps e e' /\
  vorbis e' = vorbis e /\
  srcpad e' = srcpad e ++ [stamp e prev op] /\
  next_ts e' = granulepos_to_timestamp_offset e (granulepos op) /\
  fst (gst_vorbisenc_push_packet e op) = gst_pad_push (srcpad e) (stamp e prev op).
Proof.
  intros Hts. unfold gst_vorbisenc_push_packet, gst_vorbisenc_push_buffer,
    gst_vorbisenc_buffer_from_packet, stamp; simpl.
  rewrite <- Hts.
  repeat split; reflexivity.
Qed.

Lemma drain_spec_vcall (prev : Z) (e : GstVorbisEnc) (c : vorbis_call) :
  next_ts e = granulepos_to_timestamp_offset e prev ->
  match c with
  | vorbis_analysis_init | vorbis_bitrate_flushpacket | vorbis_analysis_wrote _ _ => False
  | _ => True
  end ->
  drain_spec prev e (vcall c e) [].
Proof.
  intros Hts Hc. constructor; simpl.
  - by constructor.
  - by destruct c.
  - rewrite app_nil_r. by destruct c.
  - by rewrite app_nil_r.
  - exact Hts.
Qed.

Lemma drain_spec_trans (prev : Z) (e1 e2 e3 : GstVorbisEnc) (ops1 ops2 : list ogg_packet) :
  drain_spec prev e1 e2 ops1 ->
  drain_spec (last_granulepos prev ops1) e2 e3 ops2 ->
  drain_spec prev e1 e3 (ops1 ++ ops2).
Proof.
  intros [K1 W1 P1 S1 T1] [K2 W2 P2 S2 T2].
  pose proof (drain_keeps_same_clock _ _ K1) as Hc.
  constructor.
  - eapply drain_keeps_trans; eassumption.
  - congruence.
  - rewrite P2, P1. by rewrite app_assoc.
  - rewrite S2, S1, stamps_app, (stamps_same_clock e1 e2) by done.
    by rewrite app_assoc.
  - rewrite T2, last_granulepos_app.
    by apply granulepos_to_timestamp_offset_same_clock.
Qed.

Lemma drain_spec_flush_step (prev : Z) (e : GstVorbisEnc) :
  next_ts e = granulepos_to_timestamp_offset e prev ->
  vorbis_ret (vorbis_bitrate_flushpacket :: vorbis e) <> 0 ->
  let e1 := vcall vorbis_bitrate_flushpacket e in
  let op := vorbis_op (vorbis e1) in
  drain_spec prev e (snd (gst_vorbisenc_push_packet e1 op)) [op].
Proof.
  intros Hts Hret e1 op.
  destruct (gst_vorbisenc_push_packet_spec e1 op prev Hts) as (K & V & S & T & _).
  constructor.
  - destruct K. by constructor.
  - by rewrite V.
  - rewrite V. simpl.
    by destruct (Z.eqb_spec (vorbis_ret (vorbis_bitrate_flushpacket :: vorbis e)) 0).
  - exact S.
  - exact T.
Qed.

Lemma drain_spec_nil (prev : Z) (e : GstVorbisEnc) :
  next_ts e = granulepos_to_timestamp_offset e prev -> drain_spec prev e e [].
Proof.
  intros Hts. constructor; rewrite ?app_nil_r; auto using drain_keeps_refl.
Qed.

Lemma drain_spec_next (prev : Z) (e e' : GstVorbisEnc) (ops : list ogg_packet) :
  drain_spec prev e e' ops ->
  next_ts e' = granulepos_to_timestamp_offset e' (last_granulepos prev ops).
Proof.
  intros H. rewrite (ds_next_ts _ _ _ _ H). symmetry.
  apply granulepos_to_timestamp_offset_same_clock, drain_keeps_same_clock,
    (ds_keeps _ _ _ _ H).
Qed.

Lemma flush_packets_spec (fuel : nat) (e : GstVorbisEnc) (prev : Z) :
  next_ts e = granulepos_to_timestamp_offset e prev ->
  exists ops, drain_spec prev e (snd (flush_packets fuel e)) ops.
Proof.
  revert e prev. induction fuel as [| fuel IH]; intros e prev Hts; cbn [flush_packets].
  - exists []. by apply drain_spec_nil.
  - cbn [vorbis vcall set_vorbis].
    destruct (Z.eqb_spec (vorbis_ret (vorbis_bitrate_flushpacket :: vorbis e)) 0)
      as [Hz | Hnz].
    + exists []. constructor; cbn [snd]; rewrite ?app_nil_r; try done.
      simpl. by rewrite Hz.
    + pose proof (drain_spec_flush_step prev e Hts Hnz) as Hstep.
      cbn zeta in Hstep. cbn [vorbis vcall set_vorbis] in Hstep.
      destruct (gst_vorbisenc_push_packet (vcall vorbis_bitrate_flushpacket e)
                  (vorbis_op (vorbis_bitrate_flushpacket :: vorbis e)))
        as [ret e2].
      cbn [snd] in Hstep.
      destruct (flow_is_ok ret).
      * destruct (IH e2 (granulepos (vorbis_op (vorbis_bitrate_flushpacket :: vorbis e))))
          as [ops Hops].
        { exact (drain_spec_next _ _ _ _ Hstep). }
        eexists. eapply drain_spec_trans; [exact Hstep | exact Hops].
      * eexists. exact Hstep.
Qed.

Lemma output_blocks_spec (fuel : nat) (e : GstVorbisEnc) (prev : Z) :
  next_ts e = granulepos_to_timestamp_offset e prev ->
  exists ops, drain_spec prev e (snd (output_blocks fuel e)) ops.
Proof.
  revert e prev. induction fuel as [| fuel IH]; intros e prev Hts; cbn [output_blocks].
  - exists []. by apply drain_spec_nil.
  - destruct (vorbis_ret (vorbis (vcall vorbis_analysis_blockout e)) =? 1).
    + set (e2 := vcall vorbis_bitrate_addblock _).
      assert (H2 : drain_spec prev e e2 []).
      { by constructor; simpl; rewrite ?app_nil_r. }
      destruct (flush_packets_spec (S (vorbis_pending (vorbis e2))) e2 prev Hts)
        as [ops1 H3].
      destruct (flush_packets (S (vorbis_pending (vorbis e2))) e2) as [ret e3].
      cbn [snd] in H3.
      pose proof (drain_spec_trans prev e e2 e3 [] ops1 H2 H3) as H13.
      cbn [app] in H13.
      destruct (flow_is_ok ret).
      * destruct (IH e3 (last_granulepos prev ops1)) as [ops2 H4].
        { exact (drain_spec_next _ _ _ _ H13). }
        eexists. eapply drain_spec_trans; [exact H13 | exact H4].
      * eexists. exact H13.
    + exists []. by constructor; simpl; rewrite ?app_nil_r.
Qed.

Lemma gst_vorbisenc_output_buffers_spec (e : GstVorbisEnc) (prev : Z) :
  next_ts e = granulepos_to_timestamp_offset e prev ->
  exists ops, drain_spec prev e (snd (gst_vorbisenc_output_buffers e)) ops.
Proof. apply output_blocks_spec. Qed.

(** ** The header handshake *)

Lemma packets_of_inert (calls : list vorbis_call) (h : libvorbis) :
  forallb inert_call calls = true -> packets_of (calls ++ h) = packets_of h.
Proof.
  induction calls as [| c calls IH]; simpl; [done |].
  intros [Hc Hcalls]%andb_prop. destruct c; try discriminate Hc; auto.
Qed.

Lemma wrote_calls_inert (calls : list vorbis_call) (h : libvorbis) :
  forallb inert_call calls = true -> wrote_calls (calls ++ h) = wrote_calls h.
Proof.
  induction calls as [| c calls IH]; simpl; [done |].
  intros [Hc Hcalls]%andb_prop. destruct c; try discriminate Hc; auto.
Qed.

Lemma set_vorbis_same (e : GstVorbisEnc) : set_vorbis (vorbis e) e = e.
Proof. by destruct e. Qed.

Lemma fold_vcall (l : list (string * string)) (e : GstVorbisEnc) :
  fold_left (fun e tv => vcall (vorbis_comment_add_tag (fst tv) (snd tv)) e) l e =
  set_vorbis
    (rev (map (fun tv => vorbis_comment_add_tag (fst tv) (snd tv)) l) ++ vorbis e) e.
Proof.
  revert e. induction l as [| tv l IH]; intros e; simpl.
  - by rewrite set_vorbis_same.
  - rewrite IH. unfold vcall; simpl. by rewrite <- app_assoc.
Qed.

Lemma gst_vorbisenc_set_metadata_calls (e : GstVorbisEnc) :
  gst_vorbisenc_set_metadata e = set_vorbis (metadata_calls e ++ vorbis e) e.
Proof.
  unfold gst_vorbisenc_set_metadata, metadata_calls.
  destruct (tags e) as [t |] eqn:Ht, gst_tag_setter_get_tag_list as [u |];
    rewrite ?fold_vcall; simpl; rewrite <- ?app_assoc; simpl;
    auto using set_vorbis_same.
Qed.

Lemma metadata_calls_inert (e : GstVorbisEnc) :
  forallb inert_call (metadata_calls e) = true.
Proof.
  unfold metadata_calls.
  assert (H : forall l : list (string * string),
             forallb inert_call
               (rev (map (fun tv => vorbis_comment_add_tag (fst tv) (snd tv)) l)
                ++ [vorbis_comment_init]) = true).
  { intros l. rewrite forallb_app. simpl. rewrite andb_true_r.
    rewrite forallb_forall. intros c Hc. apply in_rev, in_map_iff in Hc.
    by destruct Hc as (tv & <- & _). }
  destruct (tags e), gst_tag_setter_get_tag_list; auto.
Qed.

Lemma gst_vorbisenc_chain_headers_spec (e : GstVorbisEnc) (buffer : GstBuffer) :
  handshake_spec e buffer (fst (gst_vorbisenc_chain_headers e buffer))
    (snd (gst_vorbisenc_chain_headers e buffer)).
Proof.
  unfold gst_vorbisenc_chain_headers.
  rewrite gst_vorbisenc_set_metadata_calls.
  cbn [vorbis vcall set_vorbis set_next_ts set_granulepos_offset set_subgranule_offset
       tags].
  change (metadata_calls (set_subgranule_offset 0 (set_granulepos_offset 0 (set_next_ts 0 e))))
    with (metadata_calls e).
  destruct (vorbis_headers
              (vorbis_analysis_headerout :: metadata_calls e ++ vorbis e))
    as [[header header_comm] header_code] eqn:Hhdr.
  unfold gst_vorbisenc_set_header_on_caps, gst_vorbisenc_push_buffer,
    gst_vorbisenc_buffer_from_header_packet, gst_buffer_set_caps,
    GST_BUFFER_FLAG_SET_IN_CAPS, vorbis_caps_factory.
  cbn -[guint64 gst_util_uint64_scale GST_SECOND GST_CLOCK_TIME_NONE Z.add Z.sub
        Z.of_nat].
  repeat match goal with
         | |- context [flow_is_ok ?r] =>
             let H := fresh "Hpush" in destruct (flow_is_ok r) eqn:H
         end;
    cbn -[guint64 gst_util_uint64_scale GST_SECOND GST_CLOCK_TIME_NONE Z.add Z.sub
          Z.of_nat];
    (constructor;
     [ constructor; reflexivity
     | unfold header_units, header_unit, header_caps, header_packets;
       rewrite Hhdr;
       cbn -[guint64 gst_util_uint64_scale GST_SECOND GST_CLOCK_TIME_NONE Z.add
             Z.sub Z.of_nat];
       first [ exists 3%nat; split; [lia |]; split;
               [by rewrite <- !app_assoc | done]
             | exists 2%nat; split; [lia |]; split;
               [by rewrite <- !app_assoc | congruence]
             | exists 1%nat; split; [lia |]; split; [done | congruence] ]
     | intros Hok; first [discriminate Hok | congruence | repeat split; reflexivity]
     | intros Hko; first [discriminate Hko | congruence | repeat split; reflexivity] ]).
Qed.

(** ** The data block of the chain function *)

Lemma gst_vorbisenc_chain_data_ingest (e : GstVorbisEnc) (buffer : GstBuffer) :
  gst_vorbisenc_chain_data e buffer =
  gst_vorbisenc_output_buffers (chain_ingest e buffer).
Proof. reflexivity. Qed.

Lemma gst_vorbisenc_chain_data_spec (e : GstVorbisEnc) (buffer : GstBuffer) (prev : Z) :
  next_ts e = granulepos_to_timestamp_offset e prev ->
  exists ops,
    drain_spec prev (chain_ingest e buffer)
      (snd (gst_vorbisenc_chain_data e buffer)) ops.
Proof.
  intros Hts. rewrite gst_vorbisenc_chain_data_ingest.
  apply gst_vorbisenc_output_buffers_spec. exact Hts.
Qed.

(** ** The session invariant *)

Lemma data_units_app (l1 l2 : list GstBuffer) :
  data_units (l1 ++ l2) = data_units l1 ++ data_units l2.
Proof. apply List.filter_app. Qed.

Lemma pushed_since_app (n0 : nat) (l1 l2 : list GstBuffer) :
  (n0 <= length l1)%nat -> pushed_since n0 (l1 ++ l2) = pushed_since n0 l1 ++ l2.
Proof.
  intros Hn. unfold pushed_since. rewrite drop_app.
  replace (n0 - length l1)%nat with 0%nat by lia. done.
Qed.

Lemma header_units_not_data (e : GstVorbisEnc) (n : nat) :
  data_units (take n (header_units e)) = [].
Proof.
  unfold header_units. destruct (header_packets e) as [[h1 h2] h3].
  by destruct n as [| [| [| [| n]]]].
Qed.

Lemma header_history_packets (e : GstVorbisEnc) :
  packets_of (header_history e) = packets_of (vorbis e).
Proof.
  unfold header_history.
  change (vorbis_comment_clear :: vorbis_analysis_headerout :: metadata_calls e ++ vorbis e)
    with (([vorbis_comment_clear; vorbis_analysis_headerout] ++ metadata_calls e)
          ++ vorbis e).
  apply packets_of_inert. rewrite forallb_app. simpl. apply metadata_calls_inert.
Qed.

Lemma header_history_wrote (e : GstVorbisEnc) :
  wrote_calls (header_history e) = wrote_calls (vorbis e).
Proof.
  unfold header_history.
  change (vorbis_comment_clear :: vorbis_analysis_headerout :: metadata_calls e ++ vorbis e)
    with (([vorbis_comment_clear; vorbis_analysis_headerout] ++ metadata_calls e)
          ++ vorbis e).
  apply wrote_calls_inert. rewrite forallb_app. simpl. apply metadata_calls_inert.
Qed.

(** The handshake sets the clock so that granule position 0 is the
    timestamp of the buffer. *)
Lemma handshake_round_trip (e : GstVorbisEnc) (buffer : GstBuffer)
    (ret : GstFlowReturn) (e' : GstVorbisEnc) :
  handshake_spec e buffer ret e' -> flow_is_ok ret = true ->
  is_guint64 (GST_BUFFER_TIMESTAMP buffer) ->
  granulepos_to_timestamp_offset e' 0 = GST_BUFFER_TIMESTAMP buffer.
Proof.
  intros H Hok Hts.
  destruct (hs_done _ _ _ _ H Hok) as (_ & _ & Hg & Hs).
  unfold granulepos_to_timestamp_offset.
  rewrite (hk_frequency _ _ (hs_keeps _ _ _ _ H)).
  rewrite Hs. cbn [Z.leb Z.compare].
  set (b := gst_util_uint64_scale _ _ _).
  assert (Hb : is_guint64 b).
  { apply gst_util_uint64_scale_range; try apply guint64_range.
    unfold GST_SECOND. lia. }
  rewrite Z.add_0_r, (guint64_id b) by exact Hb.
  by apply guint64_add_sub.
Qed.

Lemma chain_data_session_inv (n0 : nat) (e : GstVorbisEnc) (buffer : GstBuffer) :
  header_sent e = true -> session_inv n0 e ->
  session_inv n0 (snd (gst_vorbisenc_chain_data e buffer)) /\
  header_sent (snd (gst_vorbisenc_chain_data e buffer)) = true.
Proof.
  intros Hsent [Hn Hinv]. rewrite Hsent in Hinv.
  destruct Hinv as (Hunits & Hts & Hgpo & Hsub).
  destruct (gst_vorbisenc_chain_data_spec e buffer _ Hts) as [ops H].
  set (e' := snd (gst_vorbisenc_chain_data e buffer)) in *.
  pose proof (drain_keeps_same_clock _ _ (ds_keeps _ _ _ _ H)) as Hclock.
  assert (Hclock' : same_clock e e') by exact Hclock.
  assert (Hsent' : header_sent e' = true).
  { rewrite (dk_header_sent _ _ (ds_keeps _ _ _ _ H)). exact Hsent. }
  split; [| exact Hsent'].
  pose proof (ds_srcpad _ _ _ _ H) as Hlog.
  pose proof (ds_packets _ _ _ _ H) as Hpk.
  pose proof (ds_next_ts _ _ _ _ H) as Hnext.
  change (srcpad (chain_ingest e buffer)) with (srcpad e) in Hlog.
  change (packets_of (vorbis (chain_ingest e buffer))) with (packets_of (vorbis e)) in Hpk.
  unfold session_inv. rewrite Hsent', Hlog, Hpk.
  rewrite (dk_granulepos_offset _ _ (ds_keeps _ _ _ _ H)),
    (dk_subgranule_offset _ _ (ds_keeps _ _ _ _ H)).
  split; [| split; [| split; [| done]]].
  - rewrite length_app. lia.
  - rewrite pushed_since_app, data_units_app, stamps_data_units, Hunits by done.
    rewrite (stamps_same_clock e e'), stamps_app by done.
    f_equal. by apply stamps_same_clock.
  - rewrite Hnext, last_granulepos_app. symmetry.
    by apply granulepos_to_timestamp_offset_same_clock.
Qed.

Lemma gst_vorbisenc_chain_session_inv (n0 : nat) (e : GstVorbisEnc) (buffer : GstBuffer) :
  is_guint64 (GST_BUFFER_TIMESTAMP buffer) ->
  session_inv n0 e -> session_inv n0 (snd (gst_vorbisenc_chain e buffer)).
Proof.
  intros Hts Hinv. unfold gst_vorbisenc_chain.
  destruct (setup e); cbn [negb].
  - destruct (header_sent e) eqn:Hsent; cbn [negb].
    + by apply chain_data_session_inv.
    + pose proof (gst_vorbisenc_chain_headers_spec e buffer) as H.
      destruct (gst_vorbisenc_chain_headers e buffer) as [ret e1].
      cbn [fst snd] in H.
      destruct Hinv as [Hn Hinv]. rewrite Hsent in Hinv. destruct Hinv as [Hunits Hpk].
      destruct (hs_srcpad _ _ _ _ H) as (n & _ & Hlog & _).
      pose proof (hk_vorbis _ _ (hs_keeps _ _ _ _ H)) as Hv.
      assert (Hunits1 : data_units (pushed_since n0 (srcpad e1)) = []).
      { by rewrite Hlog, pushed_since_app, data_units_app, Hunits,
          header_units_not_data. }
      assert (Hpk1 : packets_of (vorbis e1) = []).
      { by rewrite Hv, header_history_packets. }
      assert (Hn1 : (n0 <= length (srcpad e1))%nat).
      { rewrite Hlog, length_app. lia. }
      destruct (flow_is_ok ret) eqn:Hok; cbn [negb snd].
      * destruct (hs_done _ _ _ _ H Hok) as (Hsent1 & Hnext & Hgpo & Hsub).
        apply chain_data_session_inv; [exact Hsent1 |].
        split; [exact Hn1 |]. rewrite Hsent1, Hunits1, Hpk1. split; [done |].
        split; [| split].
        -- cbn [last_granulepos fold_left]. rewrite Hnext. symmetry.
           by eapply handshake_round_trip.
        -- rewrite Hgpo. destruct Hts.
           apply gst_util_uint64_scale_range; [done | apply guint64_range |].
           unfold GST_SECOND. lia.
        -- rewrite Hsub. apply guint64_range.
      * destruct (hs_failed _ _ _ _ H Hok) as (Hsent1 & _).
        split; [exact Hn1 |]. by rewrite Hsent1, Hsent.
  - cbn [snd]. unfold session_inv in *.
    cbn [srcpad header_sent vorbis next_ts granulepos_offset subgranule_offset set_bus].
    rewrite (stamps_same_clock e (set_bus _ e)) by done.
    exact Hinv.
Qed.

Lemma chain_all_session_inv (n0 : nat) (buffers : list GstBuffer) (e : GstVorbisEnc) :
  Forall (fun b => is_guint64 (GST_BUFFER_TIMESTAMP b)) buffers ->
  session_inv n0 e -> session_inv n0 (chain_all e buffers).
Proof.
  intros Hts. revert e. induction Hts as [| b buffers Hb _ IH]; intros e Hinv.
  - exact Hinv.
  - apply IH. by apply gst_vorbisenc_chain_session_inv.
Qed.

(** ** Timestamps of the data units *)

Lemma stamp_timestamp (e : GstVorbisEnc) (prev : Z) (op : ogg_packet) :
  GST_BUFFER_TIMESTAMP (stamp e prev op) = granulepos_to_timestamp_offset e prev.
Proof. reflexivity. Qed.

Lemma stamp_duration (e : GstVorbisEnc) (prev : Z) (op : ogg_packet) :
  GST_BUFFER_DURATION (stamp e prev op) =
  guint64 (granulepos_to_timestamp_offset e (granulepos op)
           - granulepos_to_timestamp_offset e prev).
Proof. reflexivity. Qed.






Lemma chain_keeps_trans (e1 e2 e3 : GstVorbisEnc) :
  chain_keeps e1 e2 -> chain_keeps e2 e3 -> chain_keeps e1 e3.
Proof. intros [] []. constructor; congruence. Qed.

Lemma drain_keeps_chain_keeps (e e' : GstVorbisEnc) : drain_keeps e e' -> chain_keeps e e'.
Proof. intros []. by constructor. Qed.

Lemma handshake_keeps_chain_keeps (e e' : GstVorbisEnc) :
  handshake_keeps e e' -> chain_keeps e e'.
Proof. intros []. by constructor. Qed.

Lemma flush_packets_keeps (fuel : nat) (e : GstVorbisEnc) :
  drain_keeps e (snd (flush_packets fuel e)).
Proof.
  revert e. induction fuel as [| fuel IH]; intros e; cbn [flush_packets].
  - apply drain_keeps_refl.
  - destruct (vorbis_ret (vorbis (vcall vorbis_bitrate_flushpacket e)) =? 0).
    + by constructor.
    + destruct (gst_vorbisenc_push_packet (vcall vorbis_bitrate_flushpacket e)
                  (vorbis_op (vorbis (vcall vorbis_bitrate_flushpacket e))))
        as [ret e2] eqn:Hpush.
      assert (K : drain_keeps e e2).
      { replace e2 with
          (snd (gst_vorbisenc_push_packet (vcall vorbis_bitrate_flushpacket e)
                  (vorbis_op (vorbis (vcall vorbis_bitrate_flushpacket e)))))
          by (by rewrite Hpush).
        by constructor. }
      destruct (flow_is_ok ret); [| exact K].
      eapply drain_keeps_trans; [exact K | apply IH].
Qed.

Lemma output_blocks_keeps (fuel : nat) (e : GstVorbisEnc) :
  drain_keeps e (snd (output_blocks fuel e)).
Proof.
  revert e. induction fuel as [| fuel IH]; intros e; cbn [output_blocks].
  - apply drain_keeps_refl.
  - destruct (vorbis_ret (vorbis (vcall vorbis_analysis_blockout e)) =? 1).
    + set (e2 := vcall vorbis_bitrate_addblock _).
      pose proof (flush_packets_keeps (S (vorbis_pending (vorbis e2))) e2) as K.
      destruct (flush_packets (S (vorbis_pending (vorbis e2))) e2) as [ret e3].
      cbn [snd] in K.
      assert (K' : drain_keeps e e3).
      { eapply drain_keeps_trans; [| exact K]. by constructor. }
      destruct (flow_is_ok ret); [| exact K'].
      eapply drain_keeps_trans; [exact K' | apply IH].
    + by constructor.
Qed.

Lemma gst_vorbisenc_output_buffers_keeps (e : GstVorbisEnc) :
  drain_keeps e (snd (gst_vorbisenc_output_buffers e)).
Proof. apply output_blocks_keeps. Qed.

Lemma gst_vorbisenc_chain_data_keeps (e : GstVorbisEnc) (buffer : GstBuffer) :
  chain_keeps e (snd (gst_vorbisenc_chain_data e buffer)) /\
  header_sent (snd (gst_vorbisenc_chain_data e buffer)) = header_sent e /\
  granulepos_offset (snd (gst_vorbisenc_chain_data e buffer)) = granulepos_offset e /\
  subgranule_offset (snd (gst_vorbisenc_chain_data e buffer)) = subgranule_offset e /\
  bus (snd (gst_vorbisenc_chain_data e buffer)) = bus e.
Proof.
  rewrite gst_vorbisenc_chain_data_ingest.
  pose proof (gst_vorbisenc_output_buffers_keeps (chain_ingest e buffer)) as K.
  destruct K. repeat split; assumption.
Qed.

Lemma gst_vorbisenc_chain_keeps (e : GstVorbisEnc) (buffer : GstBuffer) :
  chain_keeps e (snd (gst_vorbisenc_chain e buffer)).
Proof.
  unfold gst_vorbisenc_chain.
  destruct (setup e); cbn [negb]; [| by constructor].
  destruct (header_sent e); cbn [negb].
  - apply gst_vorbisenc_chain_data_keeps.
  - pose proof (gst_vorbisenc_chain_headers_spec e buffer) as H.
    destruct (gst_vorbisenc_chain_headers e buffer) as [ret e1]. cbn [fst snd] in H.
    pose proof (handshake_keeps_chain_keeps _ _ (hs_keeps _ _ _ _ H)) as K.
    destruct (flow_is_ok ret); cbn [negb snd]; [| exact K].
    eapply chain_keeps_trans; [exact K | apply gst_vorbisenc_chain_data_keeps].
Qed.


Lemma session_inv_start (e : GstVorbisEnc) :
  header_sent e = false -> packets_of (vorbis e) = [] ->
  session_inv (length (srcpad e)) e.
Proof.
  intros Hsent Hpk. split; [done |]. rewrite Hsent.
  unfold pushed_since. by rewrite drop_all.
Qed.



(** ** What the chain function pushes *)

Lemma pushes_data_refl (e e' : GstVorbisEnc) : srcpad e' = srcpad e -> pushes_data e e'.
Proof. intros H. exists []. by rewrite app_nil_r. Qed.

Lemma pushes_data_trans (e1 e2 e3 : GstVorbisEnc) :
  pushes_data e1 e2 -> pushes_data e2 e3 -> pushes_data e1 e3.
Proof.
  intros (ds1 & H1 & D1) (ds2 & H2 & D2). exists (ds1 ++ ds2). split.
  - by rewrite H2, H1, app_assoc.
  - by apply Forall_app_2.
Qed.

Lemma gst_vorbisenc_push_packet_pushes_data (e : GstVorbisEnc) (op : ogg_packet) :
  pushes_data e (snd (gst_vorbisenc_push_packet e op)).
Proof. eexists. split; [reflexivity |]. by constructor. Qed.

Lemma flush_packets_pushes_data (fuel : nat) (e : GstVorbisEnc) :
  pushes_data e (snd (flush_packets fuel e)).
Proof.
  revert e. induction fuel as [| fuel IH]; intros e; cbn [flush_packets].
  - by apply pushes_data_refl.
  - destruct (vorbis_ret (vorbis (vcall vorbis_bitrate_flushpacket e)) =? 0).
    + by apply pushes_data_refl.
    + pose proof (gst_vorbisenc_push_packet_pushes_data
                    (vcall vorbis_bitrate_flushpacket e)
                    (vorbis_op (vorbis (vcall vorbis_bitrate_flushpacket e)))) as K.
      destruct (gst_vorbisenc_push_packet (vcall vorbis_bitrate_flushpacket e)
                  (vorbis_op (vorbis (vcall vorbis_bitrate_flushpacket e))))
        as [ret e2].
      cbn [snd] in K.
      destruct (flow_is_ok ret); [| exact K].
      eapply pushes_data_trans; [exact K | apply IH].
Qed.

Lemma output_blocks_pushes_data (fuel : nat) (e : GstVorbisEnc) :
  pushes_data e (snd (output_blocks fuel e)).
Proof.
  revert e. induction fuel as [| fuel IH]; intros e; cbn [output_blocks].
  - by apply pushes_data_refl.
  - destruct (vorbis_ret (vorbis (vcall vorbis_analysis_blockout e)) =? 1).
    + set (e2 := vcall vorbis_bitrate_addblock _).
      pose proof (flush_packets_pushes_data (S (vorbis_pending (vorbis e2))) e2) as K.
      destruct (flush_packets (S (vorbis_pending (vorbis e2))) e2) as [ret e3].
      cbn [snd] in K.
      destruct (flow_is_ok ret); [| exact K].
      eapply pushes_data_trans; [exact K | apply IH].
    + by apply pushes_data_refl.
Qed.

Lemma gst_vorbisenc_chain_data_pushes_data (e : GstVorbisEnc) (buffer : GstBuffer) :
  pushes_data e (snd (gst_vorbisenc_chain_data e buffer)).
Proof.
  rewrite gst_vorbisenc_chain_data_ingest.
  apply (pushes_data_trans e (chain_ingest e buffer)); [by apply pushes_data_refl |].
  apply output_blocks_pushes_data.
Qed.

(** Once [header_sent] is set, a chain call keeps it and pushes data units
    only. *)
Lemma gst_vorbisenc_chain_after_headers (e : GstVorbisEnc) (buffer : GstBuffer) :
  header_sent e = true ->
  header_sent (snd (gst_vorbisenc_chain e buffer)) = true /\
  pushes_data e (snd (gst_vorbisenc_chain e buffer)).
Proof.
  intros Hsent. unfold gst_vorbisenc_chain. rewrite Hsent.
  destruct (setup e); cbn [negb snd].
  - split; [| apply gst_vorbisenc_chain_data_pushes_data].
    destruct (gst_vorbisenc_chain_data_keeps e buffer) as (_ & -> & _). exact Hsent.
  - split; [exact Hsent | by apply pushes_data_refl].
Qed.

Lemma chain_all_after_headers (buffers : list GstBuffer) (e : GstVorbisEnc) :
  header_sent e = true ->
  header_sent (chain_all e buffers) = true /\ pushes_data e (chain_all e buffers).
Proof.
  revert e. induction buffers as [| b buffers IH]; intros e Hsent.
  - split; [exact Hsent | by apply pushes_data_refl].
  - destruct (gst_vorbisenc_chain_after_headers e b Hsent) as [Hsent1 Hpush1].
    destruct (IH _ Hsent1) as [Hsent2 Hpush2].
    split; [exact Hsent2 |]. eapply pushes_data_trans; eassumption.
Qed.

(** The first chain call of a session: the handshake and, when the peer
    took the three headers, the data block. *)
Lemma gst_vorbisenc_chain_first (e : GstVorbisEnc) (buffer : GstBuffer) :
  setup e = true -> header_sent e = false ->
  let ret := fst (gst_vorbisenc_chain e buffer) in
  let e' := snd (gst_vorbisenc_chain e buffer) in
  if flow_is_ok (fst (gst_vorbisenc_chain_headers e buffer)) then
    header_sent e' = true /\
    exists ds, srcpad e' = srcpad e ++ header_units e ++ ds /\
               Forall (fun u => is_data_unit u = true) ds
  else
    header_sent e' = false /\ flow_is_ok ret = false /\
    exists n, (1 <= n <= 3)%nat /\ srcpad e' = srcpad e ++ take n (header_units e).
Proof.
  intros Hsetup Hsent. unfold gst_vorbisenc_chain. rewrite Hsetup, Hsent. cbn [negb].
  pose proof (gst_vorbisenc_chain_headers_spec e buffer) as H.
  destruct (gst_vorbisenc_chain_headers e buffer) as [ret e1]. cbn [fst snd] in H |- *.
  destruct (hs_srcpad _ _ _ _ H) as (n & Hn & Hlog & Hn3).
  destruct (flow_is_ok ret) eqn:Hok; cbn [negb fst snd].
  - destruct (hs_done _ _ _ _ H Hok) as (Hsent1 & _).
    destruct (gst_vorbisenc_chain_data_keeps e1 buffer) as (_ & Hsent2 & _).
    split; [by rewrite Hsent2 |].
    destruct (gst_vorbisenc_chain_data_pushes_data e1 buffer) as (ds & Hds & Hdata).
    exists ds. split; [| exact Hdata].
    rewrite Hds, Hlog, (Hn3 eq_refl), <- app_assoc. do 2 f_equal.
    unfold header_units. by destruct (header_packets e) as [[h1 h2] h3].
  - destruct (hs_failed _ _ _ _ H Hok) as (Hsent1 & _).
    split; [by rewrite Hsent1 |]. split; [exact Hok |]. by exists n.
Qed.

(** C1, amended.  In a set-up session that has not sent its headers, the
    chain function pushes the header units first: identification, comment,
    codebook, each with timestamp and duration [GST_CLOCK_TIME_NONE] and
    [OFFSET_END] 0.  When the peer takes the three of them on the first
    buffer, they are the first three units of the session and every later
    unit is a data unit, whatever the buffers.  When a header push is
    refused, the call pushed header units only (no data unit), it returns
    the refusal, the session stays set up and [header_sent] stays unset, so
    that the next call starts the handshake over.  Once [header_sent] is set, a
    chain call skips the handshake, keeps the flag and pushes data units
    only. *)
Theorem header_units_first (e : GstVorbisEnc) (buffer : GstBuffer)
    (buffers : list GstBuffer) :
  setup e = true -> header_sent e = false ->
  let ret := fst (gst_vorbisenc_chain e buffer) in
  let e' := snd (gst_vorbisenc_chain e buffer) in
  map GST_BUFFER_DATA (header_units e) =
    [packet (header_packets e).1.1; packet (header_packets e).1.2;
     packet (header_packets e).2] /\
  Forall (fun u => GST_BUFFER_TIMESTAMP u = GST_CLOCK_TIME_NONE /\
                   GST_BUFFER_DURATION u = GST_CLOCK_TIME_NONE /\
                   GST_BUFFER_OFFSET_END u = 0 /\
                   is_header_unit u = true) (header_units e) /\
  setup e' = true /\
  (if flow_is_ok (fst (gst_vorbisenc_chain_headers e buffer)) then
     header_sent e' = true /\
     (exists ds, srcpad e' = srcpad e ++ header_units e ++ ds /\
                 Forall (fun u => is_data_unit u = true) ds) /\
     (exists ds, srcpad (chain_all e (buffer :: buffers)) =
                   srcpad e ++ header_units e ++ ds /\
                 Forall (fun u => is_data_unit u = true) ds)
   else
     header_sent e' = false /\ flow_is_ok ret = false /\
     exists n, (1 <= n <= 3)%nat /\ srcpad e' = srcpad e ++ take n (header_units e)) /\
  (forall enc b, setup enc = true -> header_sent enc = true ->
     gst_vorbisenc_chain enc b = gst_vorbisenc_chain_data enc b /\
     header_sent (snd (gst_vorbisenc_chain enc b)) = true /\
     exists ds, srcpad (snd (gst_vorbisenc_chain enc b)) = srcpad enc ++ ds /\
                Forall (fun u => is_data_unit u = true) ds).
Proof.
  intros Hsetup Hsent ret e'.
  split; [| split; [| split; [| split]]].
  - unfold header_units. by destruct (header_packets e) as [[h1 h2] h3].
  - unfold header_units. destruct (header_packets e) as [[h1 h2] h3].
    by repeat constructor.
  - subst e'. by rewrite (ck_setup _ _ (gst_vorbisenc_chain_keeps e buffer)).
  - pose proof (gst_vorbisenc_chain_first e buffer Hsetup Hsent) as H.
    cbn zeta in H. fold e' ret in H.
    destruct (flow_is_ok (fst (gst_vorbisenc_chain_headers e buffer))); [| exact H].
    destruct H as (Hsent' & ds & Hlog & Hdata).
    split; [exact Hsent' |]. split; [by exists ds |].
    destruct (chain_all_after_headers buffers e' Hsent') as (_ & ds' & Hlog' & Hdata').
    exists (ds ++ ds'). split.
    + change (chain_all e (buffer :: buffers)) with (chain_all e' buffers).
      by rewrite Hlog', Hlog, <- !app_assoc.
    + by apply Forall_app_2.
  - intros enc b Hs Hh. split.
    + unfold gst_vorbisenc_chain. by rewrite Hs, Hh.
    + apply (gst_vorbisenc_chain_after_headers enc b Hh).
Qed.

(** C7.  A buffer delivered to a session that is not set up: the chain
    function returns [GST_FLOW_UNEXPECTED] after posting an error of the
    core domain with code negotiation; nothing is submitted to the library,
    nothing is pushed, and the granule clock, [header_sent] and [samples_in]
    are as before. *)
Theorem chain_not_setup (e : GstVorbisEnc) (buffer : GstBuffer) :
  setup e = false ->
  let ret := fst (gst_vorbisenc_chain e buffer) in
  let e' := snd (gst_vorbisenc_chain e buffer) in
  ret = GST_FLOW_UNEXPECTED /\ flow_is_ok ret = false /\
  bus e' = bus e ++ [GST_MESSAGE_ERROR CORE NEGOTIATION
                       "encoder not initialized (input is not audio?)"] /\
  vorbis e' = vorbis e /\ wrote_calls (vorbis e') = wrote_calls (vorbis e) /\
  srcpad e' = srcpad e /\
  next_ts e' = next_ts e /\
  granulepos_offset e' = granulepos_offset e /\
  subgranule_offset e' = subgranule_offset e /\
  header_sent e' = header_sent e /\
  samples_in e' = samples_in e /\
  bytes_out e' = bytes_out e /\
  setup e' = false.
Proof.
  intros Hsetup ret e'. subst ret e'. unfold gst_vorbisenc_chain.
  rewrite Hsetup. cbn [negb fst snd]. by repeat split.
Qed.


(** ** The library calls of a drain *)

Lemma calls_drain_refl (e e' : GstVorbisEnc) : vorbis e' = vorbis e -> calls_drain e e'.
Proof. intros H. by exists []. Qed.

Lemma calls_drain_trans (e1 e2 e3 : GstVorbisEnc) :
  calls_drain e1 e2 -> calls_drain e2 e3 -> calls_drain e1 e3.
Proof.
  intros (c1 & H1 & D1) (c2 & H2 & D2). exists (c2 ++ c1). split.
  - by rewrite H2, H1, app_assoc.
  - by rewrite forallb_app, D1, D2.
Qed.

Lemma calls_drain_vcall (e : GstVorbisEnc) (c : vorbis_call) :
  drain_call c = true -> calls_drain e (vcall c e).
Proof. intros H. exists [c]. split; [done |]. simpl. by rewrite H. Qed.

Lemma flush_packets_calls (fuel : nat) (e : GstVorbisEnc) :
  calls_drain e (snd (flush_packets fuel e)).
Proof.
  revert e. induction fuel as [| fuel IH]; intros e; cbn [flush_packets].
  - by apply calls_drain_refl.
  - destruct (vorbis_ret (vorbis (vcall vorbis_bitrate_flushpacket e)) =? 0).
    + by apply calls_drain_vcall.
    + destruct (gst_vorbisenc_push_packet (vcall vorbis_bitrate_flushpacket e)
                  (vorbis_op (vorbis (vcall vorbis_bitrate_flushpacket e))))
        as [ret e2] eqn:Hpush.
      assert (K : calls_drain e e2).
      { replace e2 with
          (snd (gst_vorbisenc_push_packet (vcall vorbis_bitrate_flushpacket e)
                  (vorbis_op (vorbis (vcall vorbis_bitrate_flushpacket e)))))
          by (by rewrite Hpush).
        by exists [vorbis_bitrate_flushpacket]. }
      destruct (flow_is_ok ret); [| exact K].
      eapply calls_drain_trans; [exact K | apply IH].
Qed.

Lemma output_blocks_calls (fuel : nat) (e : GstVorbisEnc) :
  calls_drain e (snd (output_blocks fuel e)).
Proof.
  revert e. induction fuel as [| fuel IH]; intros e; cbn [output_blocks].
  - by apply calls_drain_refl.
  - destruct (vorbis_ret (vorbis (vcall vorbis_analysis_blockout e)) =? 1).
    + set (e2 := vcall vorbis_bitrate_addblock _).
      pose proof (flush_packets_calls (S (vorbis_pending (vorbis e2))) e2) as K.
      destruct (flush_packets (S (vorbis_pending (vorbis e2))) e2) as [ret e3].
      cbn [snd] in K.
      assert (K' : calls_drain e e3).
      { eapply calls_drain_trans; [| exact K].
        by exists [vorbis_bitrate_addblock; vorbis_analysis; vorbis_analysis_blockout]. }
      destruct (flow_is_ok ret); [| exact K'].
      eapply calls_drain_trans; [exact K' | apply IH].
    + by apply calls_drain_vcall.
Qed.

Lemma calls_drain_wrote (e e' : GstVorbisEnc) :
  calls_drain e e' -> wrote_calls (vorbis e') = wrote_calls (vorbis e).
Proof.
  intros (calls & -> & Hc). induction calls as [| c calls IH]; [done |].
  simpl in Hc. apply andb_prop in Hc as [Hc Hcs].
  destruct c; try discriminate Hc; simpl; auto.
Qed.

Lemma calls_drain_headerout (e e' : GstVorbisEnc) :
  calls_drain e e' -> headerout_calls (vorbis e') = headerout_calls (vorbis e).
Proof.
  intros (calls & -> & Hc). induction calls as [| c calls IH]; [done |].
  simpl in Hc. apply andb_prop in Hc as [Hc Hcs].
  destruct c; try discriminate Hc; unfold headerout_calls in *; simpl; auto.
Qed.


(** ** Deinterleaving *)

Lemma deinterleaved_init (nchannels vals : nat) (data : list byte) :
  deinterleaved nchannels vals data 0 0 (analysis_buffer nchannels vals).
Proof.
  unfold deinterleaved, analysis_buffer. split; [apply length_replicate |].
  intros j' Hj'. eexists. split; [by apply lookup_replicate_2 |].
  split; [apply length_replicate |]. intros i' Hi'. lia.
Qed.

Lemma deinterleaved_store (nchannels vals : nat) (data : list byte) (i j : nat)
    (vorbis_buffer : list (list gfloat)) :
  (i < vals)%nat -> (j < nchannels)%nat ->
  deinterleaved nchannels vals data i j vorbis_buffer ->
  deinterleaved nchannels vals data i (S j)
    (vorbis_buffer_store vorbis_buffer j i (sample data (i * nchannels + j))).
Proof.
  intros Hi Hj [Hlen Hrows].
  destruct (Hrows j Hj) as (row & Hrow & Hrowlen & Hfilled).
  unfold vorbis_buffer_store. rewrite Hrow. split; [by rewrite length_insert |].
  intros j' Hj'. destruct (decide (j' = j)) as [-> | Hne].
  - eexists. split; [apply list_lookup_insert_eq; lia |].
    split; [by rewrite length_insert |].
    intros i' Hi'. destruct (decide (i' = i)) as [-> | Hnei].
    + apply list_lookup_insert_eq. lia.
    + rewrite list_lookup_insert_ne by done. apply Hfilled. lia.
  - destruct (Hrows j' Hj') as (row' & Hrow' & Hrowlen' & Hfilled').
    exists row'. split; [by rewrite list_lookup_insert_ne |].
    split; [done |]. intros i' Hi'. apply Hfilled'. lia.
Qed.

Lemma deinterleave_frame_spec (nchannels vals : nat) (data : list byte) (i : nat)
    (k j : nat) (vorbis_buffer : list (list gfloat)) :
  (i < vals)%nat -> (j + k = nchannels)%nat ->
  deinterleaved nchannels vals data i j vorbis_buffer ->
  let r := deinterleave_frame k j i
             (vorbis_buffer, drop (4 * (i * nchannels + j)) data) in
  deinterleaved nchannels vals data i nchannels (fst r) /\
  snd r = drop (4 * (i * nchannels + nchannels)) data.
Proof.
  intros Hi. revert j vorbis_buffer.
  induction k as [| k IH]; intros j vb Hjk Hinv; cbn [deinterleave_frame].
  - replace j with nchannels in * by lia. by split.
  - cbn [read_gfloat fst snd].
    rewrite drop_drop.
    replace (4 * (i * nchannels + j) + 4)%nat with (4 * (i * nchannels + S j))%nat by lia.
    apply (IH (S j)); [lia |].
    apply (deinterleaved_store nchannels vals data i j vb); [done | lia | done].
Qed.

Lemma deinterleave_spec (nchannels vals : nat) (data : list byte)
    (k i : nat) (vorbis_buffer : list (list gfloat)) :
  (i + k = vals)%nat ->
  deinterleaved nchannels vals data i 0 vorbis_buffer ->
  deinterleaved nchannels vals data vals 0
    (fst (deinterleave k i nchannels
            (vorbis_buffer, drop (4 * (i * nchannels)) data))).
Proof.
  revert i vorbis_buffer.
  induction k as [| k IH]; intros i vb Hik Hinv; cbn [deinterleave].
  - replace i with vals in * by lia. exact Hinv.
  - pose proof (deinterleave_frame_spec nchannels vals data i nchannels 0 vb
                  ltac:(lia) ltac:(lia) Hinv) as [Hframe Hdata].
    rewrite Nat.add_0_r in Hframe, Hdata.
    destruct (deinterleave_frame nchannels 0 i
                (vb, drop (4 * (i * nchannels)) data)) as [vb' data'].
    cbn [fst snd] in Hframe, Hdata. subst data'.
    replace (i * nchannels + nchannels)%nat with (S i * nchannels)%nat by lia.
    apply (IH (S i)); [lia |].
    destruct Hframe as [Hlen Hrows]. split; [done |].
    intros j' Hj'. destruct (Hrows j' Hj') as (row & Hrow & Hrowlen & Hfilled).
    exists row. split; [done |]. split; [done |].
    intros i' Hi'. apply Hfilled. lia.
Qed.

(** The rows the chain function submits: sample [i] of channel [j] is
    element [i * channels + j] of the buffer. *)
Lemma chain_vorbis_buffer_spec (e : GstVorbisEnc) (buffer : GstBuffer) :
  0 < channels e -> is_gint (channels e) ->
  let nchannels := Z.to_nat (channels e) in
  let vals := Z.to_nat (GST_BUFFER_SIZE buffer / (channels e * 4)) in
  chain_size e buffer = GST_BUFFER_SIZE buffer / (channels e * 4) /\
  deinterleaved nchannels vals (GST_BUFFER_DATA buffer) vals 0
    (chain_vorbis_buffer e buffer).
Proof.
  intros Hc Hgint nchannels vals. unfold is_gint in Hgint.
  assert (Hsize : chain_size e buffer = GST_BUFFER_SIZE buffer / (channels e * 4)).
  { unfold chain_size.
    rewrite (guint64_id (channels e)) by (unfold is_guint64, G_MAXUINT64; lia).
    by rewrite guint64_id by (unfold is_guint64, G_MAXUINT64; lia). }
  split; [exact Hsize |].
  unfold chain_vorbis_buffer. rewrite Hsize.
  rewrite (guint64_id (channels e)) by (unfold is_guint64, G_MAXUINT64; lia).
  fold nchannels vals.
  apply (deinterleave_spec nchannels vals (GST_BUFFER_DATA buffer) vals 0);
    [lia | apply deinterleaved_init].
Qed.

Lemma chain_ingest_channels (e e1 : GstVorbisEnc) (buffer : GstBuffer) :
  channels e1 = channels e ->
  chain_vorbis_buffer e1 buffer = chain_vorbis_buffer e buffer /\
  chain_size e1 buffer = chain_size e buffer.
Proof. intros H. unfold chain_vorbis_buffer, chain_size. by rewrite H. Qed.

Lemma gst_vorbisenc_chain_data_submits (e : GstVorbisEnc) (buffer : GstBuffer) :
  let e' := snd (gst_vorbisenc_chain_data e buffer) in
  wrote_calls (vorbis e') =
    (chain_vorbis_buffer e buffer, chain_size e buffer) :: wrote_calls (vorbis e) /\
  samples_in e' = guint64 (samples_in e + chain_size e buffer).
Proof.
  intros e'. subst e'. rewrite gst_vorbisenc_chain_data_ingest. split.
  - rewrite (calls_drain_wrote (chain_ingest e buffer)) by apply output_blocks_calls.
    reflexivity.
  - by rewrite (dk_samples_in _ _ (gst_vorbisenc_output_buffers_keeps _)).
Qed.

(** C9, amended.  A buffer in a set-up session with [channels] > 0, on a
    call that reaches the data block (the headers were sent before, or the
    peer takes the three header pushes of this call): the frame count is the
    byte length over [channels * 4]; sample [i] of channel [j] of the block
    is element [i * channels + j] of the buffer; that block and frame count
    are submitted in one [vorbis_analysis_wrote] call; and [samples_in]
    grows by the frame count, in 64-bit arithmetic. *)
Theorem chain_submits_deinterleaved (e : GstVorbisEnc) (buffer : GstBuffer) :
  setup e = true -> 0 < channels e -> is_gint (channels e) ->
  header_sent e = true \/
    flow_is_ok (fst (gst_vorbisenc_chain_headers e buffer)) = true ->
  let frames := GST_BUFFER_SIZE buffer / (channels e * 4) in
  let e' := snd (gst_vorbisenc_chain e buffer) in
  let vorbis_buffer := chain_vorbis_buffer e buffer in
  chain_size e buffer = frames /\
  wrote_calls (vorbis e') = (vorbis_buffer, frames) :: wrote_calls (vorbis e) /\
  samples_in e' = guint64 (samples_in e + frames) /\
  length vorbis_buffer = Z.to_nat (channels e) /\
  forall i j, 0 <= i < frames -> 0 <= j < channels e ->
    exists row, vorbis_buffer !! Z.to_nat j = Some row /\
      length row = Z.to_nat frames /\
      row !! Z.to_nat i =
        Some (sample (GST_BUFFER_DATA buffer) (Z.to_nat (i * channels e + j))).
Proof.
  intros Hsetup Hc Hgint Hpath frames e' vbuf.
  destruct (chain_vorbis_buffer_spec e buffer Hc Hgint) as [Hsize [Hlen Hrows]].
  fold frames in Hsize. fold vbuf in Hlen, Hrows.
  split; [exact Hsize |].
  assert (Hsub : wrote_calls (vorbis e') = (vbuf, frames) :: wrote_calls (vorbis e) /\
                 samples_in e' = guint64 (samples_in e + frames)).
  { subst e'. unfold gst_vorbisenc_chain. rewrite Hsetup. cbn [negb].
    destruct (header_sent e) eqn:Hsent; cbn [negb].
    - rewrite <- Hsize. apply gst_vorbisenc_chain_data_submits.
    - destruct Hpath as [Hpath | Hok]; [discriminate |].
      pose proof (gst_vorbisenc_chain_headers_spec e buffer) as H.
      destruct (gst_vorbisenc_chain_headers e buffer) as [ret e1].
      cbn [fst snd] in H, Hok. rewrite Hok. cbn [negb].
      destruct (gst_vorbisenc_chain_data_submits e1 buffer) as [Hw Hs].
      pose proof (hs_keeps _ _ _ _ H) as K.
      destruct (chain_ingest_channels e e1 buffer (hk_channels _ _ K)) as [Hvb Hcs].
      rewrite Hw, Hs, Hvb, Hcs, Hsize, (hk_samples_in _ _ K), (hk_vorbis _ _ K),
        header_history_wrote.
      by split. }
  destruct Hsub as [Hw Hs]. split; [exact Hw |]. split; [exact Hs |].
  split; [exact Hlen |].
  intros i j Hi Hj.
  destruct (Hrows (Z.to_nat j) ltac:(lia)) as (row & Hrow & Hrowlen & Hfilled).
  exists row. split; [exact Hrow |]. split; [exact Hrowlen |].
  rewrite (Hfilled (Z.to_nat i)) by (fold frames; lia).
  do 2 f_equal. lia.
Qed.

(** ** Properties and the choice of the encoding mode *)

Lemma float_ltb_zero_not_leb (q : float) :
  (q <? 0)%float = true -> (0 <=? q)%float = false.
Proof.
  rewrite ltb_spec, leb_spec. unfold SFltb, SFleb.
  change (Prim2SF 0) with (S754_zero false).
  by destruct (Prim2SF q) as [[] | [] | | [] m ex].
Qed.

Lemma gst_vorbisenc_setup_finish_call (e : GstVorbisEnc) :
  setup_call (vorbis (snd (gst_vorbisenc_setup_finish e))) = setup_call (vorbis e) /\
  quality_set (snd (gst_vorbisenc_setup_finish e)) = quality_set e.
Proof.
  unfold gst_vorbisenc_setup_finish, vcall.
  destruct (managed e && (bitrate e <? 0)); [by split |].
  by destruct (negb (managed e)).
Qed.

Lemma gst_vorbisenc_setup_begin_spec (e : GstVorbisEnc) :
  let e1 := gst_vorbisenc_setup_begin e in
  quality_set e1 = quality_set e || bitrates_unset e /\
  vorbis e1 = vorbis_info_init :: vorbis e /\
  channels e1 = channels e /\ frequency e1 = frequency e /\ quality e1 = quality e /\
  bitrate e1 = bitrate e /\ min_bitrate e1 = min_bitrate e /\
  max_bitrate e1 = max_bitrate e.
Proof.
  unfold gst_vorbisenc_setup_begin, bitrates_unset, update_start_message,
    g_object_notify, vcall.
  cbn [bitrate min_bitrate max_bitrate set_setup].
  destruct ((bitrate e <? 0) && (min_bitrate e <? 0) && (max_bitrate e <? 0)).
  - rewrite orb_true_r. by repeat split.
  - rewrite orb_false_r. by repeat split.
Qed.

Lemma gst_vorbisenc_setup_call (e : GstVorbisEnc) :
  setup_call (vorbis (snd (gst_vorbisenc_setup e))) = Some (chosen_setup_call e) /\
  quality_set (snd (gst_vorbisenc_setup e)) = quality_set e || bitrates_unset e.
Proof.
  unfold gst_vorbisenc_setup, chosen_setup_call.
  destruct (gst_vorbisenc_setup_begin_spec e)
    as (Hq & Hv & Hc & Hf & Hqu & Hb & Hmin & Hmax).
  set (e1 := gst_vorbisenc_setup_begin e) in *.
  rewrite <- Hq.
  destruct (quality_set e1) eqn:Hq1.
  - unfold gst_vorbisenc_setup_quality.
    cbn [vorbis vcall set_vorbis max_bitrate min_bitrate].
    destruct (negb _); [by rewrite Hc, Hf, Hqu |].
    match goal with
    | |- context [gst_vorbisenc_setup_finish ?x] =>
        destruct (gst_vorbisenc_setup_finish_call x) as [-> ->]
    end.
    destruct ((0 <? max_bitrate e1) || (0 <? min_bitrate e1));
      cbn [vorbis vcall set_vorbis quality_set setup_call]; by rewrite Hc, Hf, Hqu.
  - unfold gst_vorbisenc_setup_bitrate.
    cbn [vorbis vcall set_vorbis].
    destruct (negb _).
    + cbn [snd vorbis vcall set_vorbis quality_set setup_call].
      by rewrite Hc, Hf, Hb, Hmin, Hmax.
    + match goal with
      | |- context [gst_vorbisenc_setup_finish ?x] =>
          destruct (gst_vorbisenc_setup_finish_call x) as [-> ->]
      end.
      cbn [vorbis vcall set_vorbis quality_set setup_call].
      by rewrite Hc, Hf, Hb, Hmin, Hmax.
Qed.


Lemma set_property_min_bitrate (e : GstVorbisEnc) (v : Z) :
  gst_vorbisenc_set_property e (ARG_MIN_BITRATE v) =
  notify_managed (managed e)
    (set_managed ((0 <? bitrate_floor v) && (0 <? max_bitrate e))
       (set_min_bitrate (bitrate_floor v) e)).
Proof.
  unfold gst_vorbisenc_set_property, notify_managed, bitrate_floor.
  cbn [min_bitrate set_min_bitrate].
  destruct ((0 <=? v) && (v <? LOWEST_BITRATE));
    cbn [min_bitrate max_bitrate set_min_bitrate];
    match goal with
    | |- context [(0 <? ?a) && (0 <? ?b)] => destruct ((0 <? a) && (0 <? b))
    end;
    cbn [managed set_managed]; by destruct (managed e).
Qed.

Lemma set_property_max_bitrate (e : GstVorbisEnc) (v : Z) :
  gst_vorbisenc_set_property e (ARG_MAX_BITRATE v) =
  notify_managed (managed e)
    (set_managed ((0 <? min_bitrate e) && (0 <? bitrate_floor v))
       (set_max_bitrate (bitrate_floor v) e)).
Proof.
  unfold gst_vorbisenc_set_property, notify_managed, bitrate_floor.
  cbn [max_bitrate set_max_bitrate].
  destruct ((0 <=? v) && (v <? LOWEST_BITRATE));
    cbn [min_bitrate max_bitrate set_max_bitrate];
    match goal with
    | |- context [(0 <? ?a) && (0 <? ?b)] => destruct ((0 <? a) && (0 <? b))
    end;
    cbn [managed set_managed]; by destruct (managed e).
Qed.

Lemma set_property_bitrate (e : GstVorbisEnc) (v : Z) :
  gst_vorbisenc_set_property e (ARG_BITRATE v) = set_bitrate (bitrate_floor v) e.
Proof.
  unfold gst_vorbisenc_set_property, bitrate_floor. cbn [bitrate set_bitrate].
  by destruct ((0 <=? v) && (v <? LOWEST_BITRATE)).
Qed.

Lemma bitrate_floor_spec (v : Z) :
  (0 <= v < LOWEST_BITRATE -> bitrate_floor v = LOWEST_BITRATE) /\
  (~ (0 <= v < LOWEST_BITRATE) -> bitrate_floor v = v).
Proof.
  unfold bitrate_floor.
  destruct (Z.leb_spec 0 v), (Z.ltb_spec v LOWEST_BITRATE); cbn [andb]; split; intros; lia.
Qed.

Lemma notify_managed_spec (old_value : bool) (e : GstVorbisEnc) :
  min_bitrate (notify_managed old_value e) = min_bitrate e /\
  max_bitrate (notify_managed old_value e) = max_bitrate e /\
  managed (notify_managed old_value e) = managed e /\
  notified (notify_managed old_value e) =
    (if eqb old_value (managed e) then notified e else notified e ++ ["managed"%string]).
Proof. unfold notify_managed. by destruct (eqb old_value (managed e)). Qed.

(** C6.  Assigning [min_bitrate] or [max_bitrate]: a value from 0 up to,
    not including, 6000 is stored as 6000 and any other value as it is;
    afterwards [managed] is ([min_bitrate] > 0 and [max_bitrate] > 0); and
    "managed" is notified exactly when the assignment changed the flag.  The
    same floor applies to [bitrate], whose assignment touches neither the
    flag nor the notifications. *)
Theorem bitrate_properties_floor (e : GstVorbisEnc) (v : Z) :
  let emin := gst_vorbisenc_set_property e (ARG_MIN_BITRATE v) in
  let emax := gst_vorbisenc_set_property e (ARG_MAX_BITRATE v) in
  let eb := gst_vorbisenc_set_property e (ARG_BITRATE v) in
  (0 <= v < LOWEST_BITRATE ->
   min_bitrate emin = LOWEST_BITRATE /\ max_bitrate emax = LOWEST_BITRATE /\
   bitrate eb = LOWEST_BITRATE) /\
  (~ (0 <= v < LOWEST_BITRATE) ->
   min_bitrate emin = v /\ max_bitrate emax = v /\ bitrate eb = v) /\
  max_bitrate emin = max_bitrate e /\ min_bitrate emax = min_bitrate e /\
  managed emin = (0 <? min_bitrate emin) && (0 <? max_bitrate emin) /\
  managed emax = (0 <? min_bitrate emax) && (0 <? max_bitrate emax) /\
  notified emin =
    (if eqb (managed e) (managed emin) then notified e else notified e ++ ["managed"%string]) /\
  notified emax =
    (if eqb (managed e) (managed emax) then notified e else notified e ++ ["managed"%string]) /\
  managed eb = managed e /\ notified eb = notified e.
Proof.
  intros emin emax eb. subst emin emax eb.
  rewrite set_property_min_bitrate, set_property_max_bitrate, set_property_bitrate.
  destruct (bitrate_floor_spec v) as [Hlow Hkeep].
  repeat match goal with
         | |- context [notify_managed ?o ?x] =>
             let H := fresh in
             destruct (notify_managed_spec o x) as (-> & -> & -> & ->)
         end.
  cbn [min_bitrate max_bitrate managed notified bitrate
       set_min_bitrate set_max_bitrate set_managed set_bitrate].
  repeat split; auto.
Qed.

(** C10.  Assigning the quality stores it and sets [quality_set] exactly
    when the value is at least 0.0.  With a value below 0.0 the flag is
    cleared: if the bitrate or one of the bounds is set (not negative),
    [gst_vorbisenc_setup] then takes the managed bitrate path; if all three
    are unset, it forces [quality_set] and takes the VBR path with that
    negative quality. *)
Theorem quality_property_sets_flag (e : GstVorbisEnc) (q : float) :
  let e1 := gst_vorbisenc_set_property e (ARG_QUALITY q) in
  let h := vorbis (snd (gst_vorbisenc_setup e1)) in
  quality e1 = q /\
  quality_set e1 = (0 <=? q)%float /\
  ((q <? 0)%float = true ->
   quality_set e1 = false /\
   (0 <= bitrate e \/ 0 <= min_bitrate e \/ 0 <= max_bitrate e ->
    setup_mode h = Some ManagedBitrate /\
    setup_call h =
      Some (vorbis_encode_setup_managed (channels e) (frequency e)
              (if 0 <? max_bitrate e then max_bitrate e else -1)
              (bitrate e)
              (if 0 <? min_bitrate e then min_bitrate e else -1))) /\
   (bitrate e < 0 /\ min_bitrate e < 0 /\ max_bitrate e < 0 ->
    setup_mode h = Some QualityVBR /\
    setup_call h = Some (vorbis_encode_setup_vbr (channels e) (frequency e) q) /\
    quality_set (snd (gst_vorbisenc_setup e1)) = true)).
Proof.
  intros e1 h.
  assert (Hq : quality e1 = q) by (subst e1; cbn; by destruct ((0 <=? q)%float)).
  assert (Hqs : quality_set e1 = (0 <=? q)%float)
    by (subst e1; cbn; by destruct ((0 <=? q)%float)).
  assert (Hsame : channels e1 = channels e /\ frequency e1 = frequency e /\
                  bitrate e1 = bitrate e /\ min_bitrate e1 = min_bitrate e /\
                  max_bitrate e1 = max_bitrate e)
    by (subst e1; cbn; by destruct ((0 <=? q)%float)).
  destruct Hsame as (Hc & Hf & Hb & Hmin & Hmax).
  split; [exact Hq |]. split; [exact Hqs |].
  intros Hneg. apply float_ltb_zero_not_leb in Hneg. rewrite Hneg in Hqs.
  split; [exact Hqs |].
  destruct (gst_vorbisenc_setup_call e1) as [Hcall Hset]. fold h in Hcall.
  unfold chosen_setup_call, bitrates_unset in Hcall, Hset.
  rewrite Hqs, Hc, Hf, Hb, Hmin, Hmax, Hq in Hcall. rewrite Hqs, Hb, Hmin, Hmax in Hset.
  cbn [orb] in Hcall, Hset.
  split.
  - intros Hknob.
    assert (Hu : (bitrate e <? 0) && (min_bitrate e <? 0) && (max_bitrate e <? 0) = false).
    { rewrite !andb_false_iff, !Z.ltb_ge. destruct Hknob as [? | [? | ?]]; auto. }
    rewrite Hu in Hcall. unfold setup_mode. by rewrite Hcall.
  - intros (H1 & H2 & H3).
    assert (Hu : (bitrate e <? 0) && (min_bitrate e <? 0) && (max_bitrate e <? 0) = true).
    { rewrite !andb_true_iff, !Z.ltb_lt. auto. }
    rewrite Hu in Hcall, Hset. unfold setup_mode. by rewrite Hcall.
Qed.

(** ** The counters of the element *)

Lemma guint64_add_l (a b : Z) : guint64 (guint64 a + b) = guint64 (a + b).
Proof. unfold guint64. apply Zplus_mod_idemp_l. Qed.

Lemma guint64_idemp (a : Z) : guint64 (guint64 a) = guint64 a.
Proof. unfold guint64. apply Z.mod_mod. lia. Qed.

Lemma guint64_eq_add (a a' b : Z) :
  guint64 a' = guint64 a -> guint64 (a' + b) = guint64 (a + b).
Proof. intros H. by rewrite <- (guint64_add_l a'), H, guint64_add_l. Qed.

Lemma total_size_app (l1 l2 : list GstBuffer) :
  total_size (l1 ++ l2) = total_size l1 + total_size l2.
Proof. unfold total_size. induction l1 as [| u l1 IH]; cbn; [done | lia]. Qed.

Lemma wrote_calls_app (calls h : libvorbis) :
  wrote_calls (calls ++ h) = wrote_calls calls ++ wrote_calls h.
Proof.
  induction calls as [| c calls IH]; [done |].
  destruct c; cbn; by rewrite ?IH.
Qed.

Lemma submitted_samples_app (calls1 calls2 : list vorbis_call) :
  submitted_samples (calls1 ++ calls2) =
  submitted_samples calls1 + submitted_samples calls2.
Proof.
  unfold submitted_samples. rewrite wrote_calls_app.
  induction (wrote_calls calls1) as [| pv l IH]; cbn; [done | lia].
Qed.

Lemma accounts_same (e e' : GstVorbisEnc) :
  srcpad e' = srcpad e -> bytes_out e' = bytes_out e ->
  vorbis e' = vorbis e -> samples_in e' = samples_in e -> accounts e e'.
Proof.
  intros Hs Hb Hv Hn. constructor.
  - exists []. rewrite app_nil_r, Hb. cbn. by rewrite Z.add_0_r.
  - exists []. rewrite Hn. cbn. by rewrite Z.add_0_r.
  - by rewrite Hb.
  - by rewrite Hn.
Qed.

Lemma accounts_trans (e1 e2 e3 : GstVorbisEnc) :
  accounts e1 e2 -> accounts e2 e3 -> accounts e1 e3.
Proof.
  intros [(u1 & Hs1 & Hb1) (c1 & Hv1 & Hn1) Hr1 Hq1]
         [(u2 & Hs2 & Hb2) (c2 & Hv2 & Hn2) Hr2 Hq2].
  constructor.
  - exists (u1 ++ u2). split; [by rewrite Hs2, Hs1, app_assoc |].
    rewrite Hb2, total_size_app, Z.add_assoc. by apply guint64_eq_add.
  - exists (c2 ++ c1). split; [by rewrite Hv2, Hv1, app_assoc |].
    rewrite Hn2, submitted_samples_app.
    replace (samples_in e1 + (submitted_samples c2 + submitted_samples c1))
      with (samples_in e1 + submitted_samples c1 + submitted_samples c2) by lia.
    by apply guint64_eq_add.
  - auto.
  - auto.
Qed.

(** A call that submits no frame. *)
Lemma accounts_vcall (e : GstVorbisEnc) (c : vorbis_call) :
  submitted_samples [c] = 0 -> accounts e (vcall c e).
Proof.
  intros Hc. constructor; cbn.
  - exists []. by rewrite app_nil_r, Z.add_0_r.
  - exists [c]. by rewrite Hc, Z.add_0_r.
  - done.
  - done.
Qed.

Lemma accounts_push_buffer (e : GstVorbisEnc) (buffer : GstBuffer) :
  accounts e (snd (gst_vorbisenc_push_buffer e buffer)).
Proof.
  constructor; cbn -[guint64].
  - exists [buffer]. split; [done |]. cbn -[guint64 GST_BUFFER_SIZE].
    by rewrite Z.add_0_r, guint64_idemp.
  - exists []. by rewrite Z.add_0_r.
  - intros _. apply guint64_range.
  - done.
Qed.

Lemma accounts_push_packet (e : GstVorbisEnc) (op : ogg_packet) :
  accounts e (snd (gst_vorbisenc_push_packet e op)).
Proof.
  unfold gst_vorbisenc_push_packet, gst_vorbisenc_buffer_from_packet.
  cbv zeta. cbn [fst snd].
  eapply accounts_trans; [| apply accounts_push_buffer].
  by apply accounts_same.
Qed.

Lemma accounts_flush_packets (fuel : nat) (e : GstVorbisEnc) :
  accounts e (snd (flush_packets fuel e)).
Proof.
  revert e. induction fuel as [| fuel IH]; intros e; cbn [flush_packets].
  - by apply accounts_same.
  - pose proof (accounts_vcall e vorbis_bitrate_flushpacket eq_refl) as H1.
    destruct (vorbis_ret (vorbis (vcall vorbis_bitrate_flushpacket e)) =? 0); [exact H1 |].
    pose proof (accounts_push_packet (vcall vorbis_bitrate_flushpacket e)
                  (vorbis_op (vorbis (vcall vorbis_bitrate_flushpacket e)))) as H2.
    destruct (gst_vorbisenc_push_packet _ _) as [ret e2]. cbn [snd] in H2.
    pose proof (accounts_trans _ _ _ H1 H2) as H3.
    destruct (flow_is_ok ret); [| exact H3].
    exact (accounts_trans _ _ _ H3 (IH e2)).
Qed.

Lemma accounts_output_blocks (fuel : nat) (e : GstVorbisEnc) :
  accounts e (snd (output_blocks fuel e)).
Proof.
  revert e. induction fuel as [| fuel IH]; intros e; cbn [output_blocks].
  - by apply accounts_same.
  - pose proof (accounts_vcall e vorbis_analysis_blockout eq_refl) as H1.
    destruct (vorbis_ret (vorbis (vcall vorbis_analysis_blockout e)) =? 1); [| exact H1].
    set (e2 := vcall vorbis_bitrate_addblock _).
    assert (H2 : accounts e e2).
    { eapply accounts_trans; [exact H1 |].
      eapply accounts_trans; by apply accounts_vcall. }
    pose proof (accounts_flush_packets (S (vorbis_pending (vorbis e2))) e2) as H3.
    destruct (flush_packets _ e2) as [ret e3]. cbn [snd] in H3.
    pose proof (accounts_trans _ _ _ H2 H3) as H4.
    destruct (flow_is_ok ret); [| exact H4].
    exact (accounts_trans _ _ _ H4 (IH e3)).
Qed.

Lemma accounts_output_buffers (e : GstVorbisEnc) :
  accounts e (snd (gst_vorbisenc_output_buffers e)).
Proof. apply accounts_output_blocks. Qed.

Lemma accounts_chain_ingest (e : GstVorbisEnc) (buffer : GstBuffer) :
  accounts e (chain_ingest e buffer).
Proof.
  constructor; cbn -[guint64 chain_size chain_vorbis_buffer].
  - exists []. by rewrite app_nil_r, Z.add_0_r.
  - eexists [_; _]. split; [reflexivity |].
    unfold submitted_samples. cbn -[guint64 chain_size chain_vorbis_buffer].
    by rewrite Z.add_0_r, guint64_idemp.
  - done.
  - intros _. apply guint64_range.
Qed.

Lemma accounts_chain_data (e : GstVorbisEnc) (buffer : GstBuffer) :
  accounts e (snd (gst_vorbisenc_chain_data e buffer)).
Proof.
  rewrite gst_vorbisenc_chain_data_ingest.
  eapply accounts_trans; [apply accounts_chain_ingest | apply accounts_output_buffers].
Qed.

Lemma submitted_samples_inert (calls : list vorbis_call) :
  forallb inert_call calls = true -> submitted_samples calls = 0.
Proof.
  intros H. unfold submitted_samples.
  rewrite <- (app_nil_r calls), (wrote_calls_inert calls [] H). done.
Qed.

(** The handshake: the counters, and the caps set on the source pad. *)
Lemma accounts_chain_headers (e : GstVorbisEnc) (buffer : GstBuffer) :
  accounts e (snd (gst_vorbisenc_chain_headers e buffer)) /\
  srcpad_caps (snd (gst_vorbisenc_chain_headers e buffer)) = Some (header_caps e).
Proof.
  pose proof (submitted_samples_inert _ (metadata_calls_inert e)) as Hmeta.
  unfold gst_vorbisenc_chain_headers.
  rewrite gst_vorbisenc_set_metadata_calls.
  cbn [vorbis vcall set_vorbis set_next_ts set_granulepos_offset set_subgranule_offset
       tags].
  change (metadata_calls (set_subgranule_offset 0 (set_granulepos_offset 0 (set_next_ts 0 e))))
    with (metadata_calls e).
  unfold header_caps, header_packets.
  destruct (vorbis_headers
              (vorbis_analysis_headerout :: metadata_calls e ++ vorbis e))
    as [[header header_comm] header_code] eqn:Hhdr.
  unfold gst_vorbisenc_set_header_on_caps, gst_vorbisenc_push_buffer,
    gst_vorbisenc_buffer_from_header_packet, gst_buffer_set_caps,
    GST_BUFFER_FLAG_SET_IN_CAPS, vorbis_caps_factory.
  cbn -[guint64 gst_util_uint64_scale GST_SECOND GST_CLOCK_TIME_NONE Z.add Z.sub
        Z.of_nat].
  repeat match goal with
         | |- context [flow_is_ok ?r] =>
             let H := fresh "Hpush" in destruct (flow_is_ok r) eqn:H
         end;
    cbn -[guint64 gst_util_uint64_scale GST_SECOND GST_CLOCK_TIME_NONE Z.add Z.sub
          Z.of_nat];
    (split; [| reflexivity]);
    (constructor;
     cbn -[guint64 gst_util_uint64_scale GST_SECOND GST_CLOCK_TIME_NONE Z.add Z.sub
           Z.of_nat];
     [ eexists; split; [rewrite <- ?app_assoc; reflexivity |];
       cbn -[guint64 Z.add Z.of_nat];
       rewrite ?guint64_idemp;
       repeat (rewrite guint64_add_l || rewrite <- Z.add_assoc); f_equal; lia
     | exists (vorbis_comment_clear :: vorbis_analysis_headerout :: metadata_calls e);
       split; [reflexivity |];
       change (vorbis_comment_clear :: vorbis_analysis_headerout :: metadata_calls e)
         with ([vorbis_comment_clear; vorbis_analysis_headerout] ++ metadata_calls e);
       rewrite submitted_samples_app, Hmeta; cbn; by rewrite Z.add_0_r
     | intros _; apply guint64_range
     | done ]).
Qed.

Lemma accounts_chain (e : GstVorbisEnc) (buffer : GstBuffer) :
  accounts e (snd (gst_vorbisenc_chain e buffer)).
Proof.
  unfold gst_vorbisenc_chain.
  destruct (setup e); cbn [negb]; [| by apply accounts_same].
  destruct (header_sent e); cbn [negb]; [apply accounts_chain_data |].
  pose proof (proj1 (accounts_chain_headers e buffer)) as H1.
  destruct (gst_vorbisenc_chain_headers e buffer) as [ret e1]. cbn [snd] in H1.
  destruct (flow_is_ok ret); cbn [negb snd]; [| exact H1].
  exact (accounts_trans _ _ _ H1 (accounts_chain_data e1 buffer)).
Qed.

Lemma accounts_clear (e : GstVorbisEnc) :
  accounts e (snd (gst_vorbisenc_clear e)).
Proof.
  unfold gst_vorbisenc_clear.
  assert (Htail : forall x, accounts x
            (set_header_sent false
               (vcall vorbis_info_clear (vcall vorbis_dsp_clear (vcall vorbis_block_clear x))))).
  { intros x. constructor; cbn.
    - exists []. by rewrite app_nil_r, Z.add_0_r.
    - eexists [_; _; _]. split; [reflexivity |]. cbn. by rewrite Z.add_0_r.
    - done.
    - done. }
  destruct (setup e).
  - pose proof (accounts_output_buffers (vcall (vorbis_analysis_wrote [] 0) e)) as H1.
    destruct (gst_vorbisenc_output_buffers _) as [ret e1]. cbn [snd] in H1 |- *.
    eapply accounts_trans; [apply (accounts_vcall e (vorbis_analysis_wrote [] 0) eq_refl) |].
    eapply accounts_trans; [exact H1 |].
    eapply accounts_trans; [| apply Htail].
    by apply accounts_same.
  - cbn [snd]. apply Htail.
Qed.

(** Solves [accounts e x] for a state [x] built from [e] by assignments
    to the other members and calls that submit no frame. *)
Ltac accounts_steps :=
  repeat match goal with
         | |- accounts ?e ?e => by apply accounts_same
         | |- accounts ?e (vcall ?c ?x) =>
             apply (accounts_trans e x); [| by apply accounts_vcall]
         | |- accounts ?e (if ?c then _ else _) => destruct c
         | |- accounts ?e (?f ?v ?x) =>
             apply (accounts_trans e x); [| by apply accounts_same]
         end.

Lemma accounts_setup (e : GstVorbisEnc) :
  accounts e (snd (gst_vorbisenc_setup e)).
Proof.
  assert (Hfinish : forall x, accounts x (snd (gst_vorbisenc_setup_finish x))).
  { intros x. unfold gst_vorbisenc_setup_finish. cbn [snd]. accounts_steps. }
  assert (Hbegin : accounts e (gst_vorbisenc_setup_begin e)).
  { unfold gst_vorbisenc_setup_begin, update_start_message, g_object_notify.
    accounts_steps. }
  unfold gst_vorbisenc_setup.
  eapply accounts_trans; [exact Hbegin |].
  generalize (gst_vorbisenc_setup_begin e). intros x.
  destruct (quality_set x).
  - unfold gst_vorbisenc_setup_quality.
    match goal with |- context [negb ?c] => destruct c end; cbn [negb snd].
    + eapply accounts_trans; [| apply Hfinish]. accounts_steps.
    + accounts_steps.
  - unfold gst_vorbisenc_setup_bitrate.
    match goal with |- context [negb ?c] => destruct c end; cbn [negb snd].
    + eapply accounts_trans; [| apply Hfinish]. accounts_steps.
    + accounts_steps.
Qed.

Lemma accounts_sink_setcaps (e : GstVorbisEnc) (caps_channels caps_rate : option Z) :
  accounts e (snd (gst_vorbisenc_sink_setcaps e caps_channels caps_rate)).
Proof.
  unfold gst_vorbisenc_sink_setcaps.
  match goal with
  | |- context [gst_vorbisenc_setup ?x] =>
      pose proof (accounts_setup x) as H; destruct (gst_vorbisenc_setup x) as [r e1];
      cbn [snd] in H |- *; apply (accounts_trans e x); [| exact H]
  end.
  destruct caps_channels, caps_rate; accounts_steps.
Qed.

Lemma accounts_set_property (e : GstVorbisEnc) (prop : property) :
  accounts e (gst_vorbisenc_set_property e prop).
Proof.
  destruct prop; unfold gst_vorbisenc_set_property, g_object_notify; accounts_steps.
Qed.

Lemma accounts_change_state (e : GstVorbisEnc) (transition : GstStateChange) :
  accounts e (snd (gst_vorbisenc_change_state e transition)).
Proof.
  destruct transition;
    unfold gst_vorbisenc_change_state, gst_vorbisenc_change_state_ready_to_paused;
    cbn [snd]; accounts_steps.
Qed.

Lemma accounts_sink_event (e e' : GstVorbisEnc) (event : GstEvent) (res : bool) :
  gst_vorbisenc_sink_event e event = Some (res, e') -> accounts e e'.
Proof.
  destruct event as [| list_ | name]; cbn [gst_vorbisenc_sink_event].
  - pose proof (accounts_clear e) as H.
    destruct (gst_vorbisenc_clear e) as [ret e1]. cbn [snd] in H.
    unfold push_event. intros [= _ <-].
    eapply accounts_trans; [exact H |]. by apply accounts_same.
  - destruct (tags e); [| discriminate]. unfold push_event. intros [= _ <-].
    by apply accounts_same.
  - unfold push_event. intros [= _ <-]. by apply accounts_same.
Qed.

Lemma accounts_invoke (e e' : GstVorbisEnc) (c : invocation) :
  invoke e c = Some e' -> accounts e e'.
Proof.
  destruct c; cbn [invoke].
  - intros [= <-]. apply accounts_chain.
  - destruct (gst_vorbisenc_sink_event e event) as [[res e1] |] eqn:Hev; [| discriminate].
    cbn. intros [= <-]. exact (accounts_sink_event _ _ _ _ Hev).
  - intros [= <-]. apply accounts_sink_setcaps.
  - intros [= <-]. apply accounts_set_property.
  - intros [= <-]. apply accounts_change_state.
Qed.

Lemma accounts_invoke_all (calls : list invocation) (e e' : GstVorbisEnc) :
  invoke_all e calls = Some e' -> accounts e e'.
Proof.
  revert e. induction calls as [| c calls IH]; intros e; cbn [invoke_all].
  - intros [= <-]. by apply accounts_same.
  - destruct (invoke e c) as [e1 |] eqn:Hc; [| discriminate].
    intros H. exact (accounts_trans _ _ _ (accounts_invoke _ _ _ Hc) (IH _ H)).
Qed.

(** X1.  Over any sequence of calls of the element's entry points,
    [bytes_out] advances by the total size of the buffers handed to
    [gst_pad_push], headers included and whether the peer took them or not,
    in 64-bit arithmetic; no call resets it. *)
Theorem bytes_out_counts_pushed (e e' : GstVorbisEnc) (calls : list invocation) :
  is_guint64 (bytes_out e) ->
  invoke_all e calls = Some e' ->
  exists units, srcpad e' = srcpad e ++ units /\
    bytes_out e' = guint64 (bytes_out e + total_size units).
Proof.
  intros Hb Hrun.
  destruct (accounts_invoke_all _ _ _ Hrun) as [(units & Hs & Hbytes) _ Hr _].
  exists units. split; [exact Hs |].
  by rewrite <- Hbytes, (guint64_id _ (Hr Hb)).
Qed.

(** X2.  Over any sequence of calls of the element's entry points,
    [samples_in] advances by the frame counts of the
    [vorbis_analysis_wrote] calls made to the library, in 64-bit arithmetic;
    no call resets it. *)
Theorem samples_in_counts_submitted (e e' : GstVorbisEnc) (calls : list invocation) :
  is_guint64 (samples_in e) ->
  invoke_all e calls = Some e' ->
  exists calls', vorbis e' = calls' ++ vorbis e /\
    samples_in e' = guint64 (samples_in e + submitted_samples calls').
Proof.
  intros Hn Hrun.
  destruct (accounts_invoke_all _ _ _ Hrun) as [_ (calls' & Hv & Hsamples) _ Hr].
  exists calls'. split; [exact Hv |].
  by rewrite <- Hsamples, (guint64_id _ (Hr Hn)).
Qed.

(** ** Setting up the encoder *)

Lemma setup_keeps_refl (e : GstVorbisEnc) : setup_keeps e e.
Proof. by constructor. Qed.

Lemma setup_keeps_trans (e1 e2 e3 : GstVorbisEnc) :
  setup_keeps e1 e2 -> setup_keeps e2 e3 -> setup_keeps e1 e3.
Proof. intros [] []. constructor; congruence. Qed.

Lemma gst_vorbisenc_setup_finish_spec (x : GstVorbisEnc) :
  let e' := snd (gst_vorbisenc_setup_finish x) in
  fst (gst_vorbisenc_setup_finish x) = true /\
  setup_keeps x e' /\ setup e' = true /\ next_ts e' = 0 /\
  notified e' = notified x /\ quality_set e' = quality_set x /\
  last_message e' = last_message x /\
  exists ctl,
    vorbis e' =
      vorbis_block_init :: vorbis_analysis_init :: vorbis_encode_setup_init
      :: ctl ++ vorbis x /\
    forallb encode_ctl_call ctl = true.
Proof.
  unfold gst_vorbisenc_setup_finish. cbn [fst snd].
  destruct (managed x && (bitrate x <? 0)); [| destruct (negb (managed x))];
    cbn; (split; [done |]); (split; [by constructor |]);
    repeat (split; [done |]).
  - by eexists [_].
  - by eexists [_].
  - by exists [].
Qed.

Lemma gst_vorbisenc_setup_begin_frame (e : GstVorbisEnc) :
  let e1 := gst_vorbisenc_setup_begin e in
  setup_keeps e e1 /\ setup e1 = false /\ next_ts e1 = next_ts e /\
  notified e1 = notified e ++ ["last_message"%string] /\
  last_message e1 =
    last_message
      (update_start_message (set_quality_set (quality_set e || bitrates_unset e) e)).
Proof.
  unfold gst_vorbisenc_setup_begin, bitrates_unset.
  cbn [bitrate min_bitrate max_bitrate set_setup].
  destruct ((bitrate e <? 0) && (min_bitrate e <? 0) && (max_bitrate e <? 0));
    rewrite ?orb_true_r, ?orb_false_r.
  - unfold update_start_message, g_object_notify. cbn.
    repeat split; try reflexivity.
  - unfold update_start_message, g_object_notify. cbn.
    repeat split; try reflexivity; by destruct (quality_set e).
Qed.

Lemma gst_vorbisenc_setup_spec (e : GstVorbisEnc) :
  setup_spec e (fst (gst_vorbisenc_setup e)) (snd (gst_vorbisenc_setup e)).
Proof.
  unfold gst_vorbisenc_setup.
  pose proof (gst_vorbisenc_setup_begin_spec e) as Hspec.
  pose proof (gst_vorbisenc_setup_begin_frame e) as Hframe.
  cbv zeta in Hspec, Hframe.
  destruct Hspec as (Hqs & Hv & Hc & Hf & Hq & Hb & Hmin & Hmax).
  destruct Hframe as (Hk & Hs & Hts & Hn & Hm).
  remember (gst_vorbisenc_setup_begin e) as e1 eqn:He1. clear He1.
  (* the state after the [vorbis_encode_setup_*] call *)
  set (e2 := vcall (chosen_setup_call e) e1).
  assert (Hv2 : vorbis e2 = setup_history e)
    by (unfold e2, setup_history; cbn; by rewrite Hv).
  assert (Hk2 : forall x, setup_keeps e2 x -> setup_keeps e x).
  { intros x Hx. eapply setup_keeps_trans; [exact Hk |].
    eapply setup_keeps_trans; [| exact Hx]. by constructor. }
  (* what is left to do once the call was made *)
  assert (Hrest : forall x : GstVorbisEnc,
    setup_keeps e2 x -> notified x = notified e2 -> quality_set x = quality_set e2 ->
    last_message x = last_message e2 -> next_ts x = next_ts e2 ->
    (exists ctl, vorbis x = ctl ++ vorbis e2 /\ forallb encode_ctl_call ctl = true) ->
    (vorbis_ret (setup_history e) =? 0) = true ->
    setup_spec e (fst (gst_vorbisenc_setup_finish x)) (snd (gst_vorbisenc_setup_finish x))).
  { intros x Hx Hnx Hqx Hmx Htx (ctl0 & Hvx & Hctl0) Hret.
    destruct (gst_vorbisenc_setup_finish_spec x)
      as (Hr & Hkf & Hsf & Htf & Hnf & Hqf & Hmf & ctl & Hvf & Hctl).
    rewrite Hr. constructor.
    - apply Hk2. by eapply setup_keeps_trans.
    - by rewrite Hret.
    - done.
    - by rewrite Hnf, Hnx.
    - by rewrite Hqf, Hqx.
    - by rewrite Hmf, Hmx.
    - intros _. split; [done |]. exists (ctl ++ ctl0).
      split; [by rewrite Hvf, Hvx, Hv2, <- app_assoc |].
      by rewrite forallb_app, Hctl, Hctl0.
    - discriminate. }
  assert (Hfail : (vorbis_ret (setup_history e) =? 0) = false ->
                  setup_spec e false (vcall vorbis_info_clear e2)).
  { intros Hret. constructor.
    - apply Hk2. by constructor.
    - by rewrite Hret.
    - done.
    - done.
    - done.
    - done.
    - discriminate.
    - intros _. split; [done |]. cbn. by rewrite Hv. }
  assert (He2 : chosen_setup_call e =
                if quality_set e1 then
                  vorbis_encode_setup_vbr (channels e1) (frequency e1) (quality e1)
                else
                  vorbis_encode_setup_managed (channels e1) (frequency e1)
                    (if 0 <? max_bitrate e1 then max_bitrate e1 else -1)
                    (bitrate e1)
                    (if 0 <? min_bitrate e1 then min_bitrate e1 else -1))
    by (unfold chosen_setup_call; by rewrite <- Hqs, Hc, Hf, Hq, Hb, Hmin, Hmax).
  destruct (quality_set e1) eqn:Hq1.
  - unfold gst_vorbisenc_setup_quality. rewrite <- He2. fold e2. rewrite Hv2.
    destruct (vorbis_ret (setup_history e) =? 0) eqn:Hret; cbn [negb fst snd].
    + apply Hrest; try done.
      * destruct ((0 <? max_bitrate e2) || (0 <? min_bitrate e2)); by constructor.
      * by destruct ((0 <? max_bitrate e2) || (0 <? min_bitrate e2)).
      * by destruct ((0 <? max_bitrate e2) || (0 <? min_bitrate e2)).
      * by destruct ((0 <? max_bitrate e2) || (0 <? min_bitrate e2)).
      * by destruct ((0 <? max_bitrate e2) || (0 <? min_bitrate e2)).
      * destruct ((0 <? max_bitrate e2) || (0 <? min_bitrate e2));
          [by eexists [_; _] | by exists []].
    + by apply Hfail.
  - unfold gst_vorbisenc_setup_bitrate. cbv zeta. rewrite <- He2. fold e2.
    rewrite Hv2.
    destruct (vorbis_ret (setup_history e) =? 0) eqn:Hret; cbn [negb fst snd].
    + apply Hrest; first [done | by constructor | by exists []].
    + by apply Hfail.
Qed.

Lemma gst_vorbisenc_sink_setcaps_spec (e : GstVorbisEnc)
    (caps_channels caps_rate : option Z) :
  let e0 := set_frequency (default (frequency e) caps_rate)
              (set_channels (default (channels e) caps_channels) e) in
  let res := fst (gst_vorbisenc_sink_setcaps e caps_channels caps_rate) in
  let e' := snd (gst_vorbisenc_sink_setcaps e caps_channels caps_rate) in
  setup_spec e0 res e'.
Proof.
  intros e0 res e'. subst res e'. unfold gst_vorbisenc_sink_setcaps.
  match goal with
  | |- context [gst_vorbisenc_setup ?x] =>
      pose proof (gst_vorbisenc_setup_spec x) as H; set (x0 := x) in *
  end.
  assert (Hhist : setup_history x0 = setup_history e0)
    by (subst x0 e0; destruct caps_channels, caps_rate; reflexivity).
  assert (Hkeep : setup_keeps e0 x0)
    by (subst x0 e0; destruct caps_channels, caps_rate; by constructor).
  assert (Hother : notified x0 = notified e0 /\ quality_set x0 = quality_set e0 /\
                   bitrates_unset x0 = bitrates_unset e0 /\ next_ts x0 = next_ts e0 /\
                   last_message
                     (update_start_message
                        (set_quality_set (quality_set x0 || bitrates_unset x0) x0)) =
                   last_message
                     (update_start_message
                        (set_quality_set (quality_set e0 || bitrates_unset e0) e0)))
    by (subst x0 e0; destruct caps_channels, caps_rate; repeat split; reflexivity).
  destruct Hother as (Hn & Hq & Hu & Ht & Hm).
  destruct (gst_vorbisenc_setup x0) as [r e1]. cbn [fst snd] in H |- *.
  destruct H as [Hk Hr Hs Hnot Hqs Hlm Hdone Hfailed].
  rewrite Hhist in Hr, Hdone, Hfailed. rewrite Hs.
  constructor.
  - by eapply setup_keeps_trans.
  - done.
  - done.
  - by rewrite Hnot, Hn.
  - by rewrite Hqs, Hq, Hu.
  - by rewrite Hlm, Hm.
  - done.
  - intros Hf. rewrite <- Ht. by apply Hfailed.
Qed.

(** X3.  The caps handler stores the channel count and the sample rate the
    caps carry (a missing field leaves the member as it was) and returns
    [TRUE] exactly when the library takes the [vorbis_encode_setup_*] call
    chosen for them.  On success the tracker is at 0 and a fresh analysis
    state has handed out no packet; on failure the last call to the library
    is [vorbis_info_clear], the session is not set up and every buffer is
    refused with [GST_FLOW_UNEXPECTED].  Either way the log of the source
    pad, [header_sent], the counters and the tags are as before. *)
Theorem sink_setcaps_result (e : GstVorbisEnc) (caps_channels caps_rate : option Z) :
  let e0 := set_frequency (default (frequency e) caps_rate)
              (set_channels (default (channels e) caps_channels) e) in
  let res := fst (gst_vorbisenc_sink_setcaps e caps_channels caps_rate) in
  let e' := snd (gst_vorbisenc_sink_setcaps e caps_channels caps_rate) in
  channels e' = default (channels e) caps_channels /\
  frequency e' = default (frequency e) caps_rate /\
  res = (vorbis_ret (chosen_setup_call e0 :: vorbis_info_init :: vorbis e) =? 0) /\
  setup e' = res /\
  (res = true ->
   next_ts e' = 0 /\ packets_of (vorbis e') = [] /\
   exists ctl,
     vorbis e' =
       vorbis_block_init :: vorbis_analysis_init :: vorbis_encode_setup_init
       :: ctl ++ chosen_setup_call e0 :: vorbis_info_init :: vorbis e /\
     forallb encode_ctl_call ctl = true) /\
  (res = false ->
   vorbis e' = vorbis_info_clear :: chosen_setup_call e0 :: vorbis_info_init :: vorbis e /\
   forall buffer,
     fst (gst_vorbisenc_chain e' buffer) = GST_FLOW_UNEXPECTED /\
     srcpad (snd (gst_vorbisenc_chain e' buffer)) = srcpad e) /\
  srcpad e' = srcpad e /\ header_sent e' = header_sent e /\
  samples_in e' = samples_in e /\ bytes_out e' = bytes_out e /\ tags e' = tags e.
Proof.
  intros e0 res e'.
  destruct (gst_vorbisenc_sink_setcaps_spec e caps_channels caps_rate)
    as [Hk Hr Hs _ _ _ Hdone Hfailed].
  fold e0 res e' in Hk, Hr, Hs, Hdone, Hfailed.
  change (setup_history e0)
    with (chosen_setup_call e0 :: vorbis_info_init :: vorbis e) in *.
  destruct Hk.
  repeat split; try done.
  - by destruct (Hdone H).
  - destruct (Hdone H) as (_ & ctl & -> & _). reflexivity.
  - by destruct (Hdone H) as (_ & Hctl).
  - by destruct (Hfailed H).
  - unfold gst_vorbisenc_chain. by rewrite Hs, H.
  - unfold gst_vorbisenc_chain. rewrite Hs, H. cbn. done.
Qed.

(** ** The first unit of a drain *)

Lemma first_stamped_same (e e' : GstVorbisEnc) :
  srcpad e' = srcpad e -> next_ts e' = next_ts e -> first_stamped e e'.
Proof. intros. by left. Qed.

Lemma first_stamped_trans (e1 e2 e3 : GstVorbisEnc) :
  first_stamped e1 e2 -> first_stamped e2 e3 -> first_stamped e1 e3.
Proof.
  intros [[Hs1 Ht1] | (u1 & us1 & Hs1 & Hu1)] [[Hs2 Ht2] | (u2 & us2 & Hs2 & Hu2)].
  - left. split; congruence.
  - right. exists u2, us2. split; congruence.
  - right. exists u1, us1. split; congruence.
  - right. exists u1, (us1 ++ u2 :: us2). split; [| done].
    by rewrite Hs2, Hs1, <- app_assoc.
Qed.

Lemma first_stamped_push_packet (e : GstVorbisEnc) (op : ogg_packet) :
  first_stamped e (snd (gst_vorbisenc_push_packet e op)).
Proof. right. by eexists _, []. Qed.

Lemma first_stamped_flush_packets (fuel : nat) (e : GstVorbisEnc) :
  first_stamped e (snd (flush_packets fuel e)).
Proof.
  revert e. induction fuel as [| fuel IH]; intros e; cbn [flush_packets].
  - by left.
  - assert (H1 : first_stamped e (vcall vorbis_bitrate_flushpacket e)) by by left.
    destruct (vorbis_ret (vorbis (vcall vorbis_bitrate_flushpacket e)) =? 0); [exact H1 |].
    pose proof (first_stamped_push_packet (vcall vorbis_bitrate_flushpacket e)
                  (vorbis_op (vorbis (vcall vorbis_bitrate_flushpacket e)))) as H2.
    destruct (gst_vorbisenc_push_packet _ _) as [ret e2]. cbn [snd] in H2.
    pose proof (first_stamped_trans _ _ _ H1 H2) as H3.
    destruct (flow_is_ok ret); [| exact H3].
    exact (first_stamped_trans _ _ _ H3 (IH e2)).
Qed.

Lemma first_stamped_output_blocks (fuel : nat) (e : GstVorbisEnc) :
  first_stamped e (snd (output_blocks fuel e)).
Proof.
  revert e. induction fuel as [| fuel IH]; intros e; cbn [output_blocks].
  - by left.
  - assert (H1 : first_stamped e (vcall vorbis_analysis_blockout e)) by by left.
    destruct (vorbis_ret (vorbis (vcall vorbis_analysis_blockout e)) =? 1); [| exact H1].
    set (e2 := vcall vorbis_bitrate_addblock _).
    assert (H2 : first_stamped e e2) by by left.
    pose proof (first_stamped_flush_packets (S (vorbis_pending (vorbis e2))) e2) as H3.
    destruct (flush_packets _ e2) as [ret e3]. cbn [snd] in H3.
    pose proof (first_stamped_trans _ _ _ H2 H3) as H4.
    destruct (flow_is_ok ret); [| exact H4].
    exact (first_stamped_trans _ _ _ H4 (IH e3)).
Qed.

Lemma first_stamped_chain_data (e : GstVorbisEnc) (buffer : GstBuffer) :
  first_stamped e (snd (gst_vorbisenc_chain_data e buffer)).
Proof.
  rewrite gst_vorbisenc_chain_data_ingest.
  eapply first_stamped_trans; [| apply first_stamped_output_blocks].
  by left.
Qed.

Lemma headerout_calls_chain_data (e : GstVorbisEnc) (buffer : GstBuffer) :
  headerout_calls (vorbis (snd (gst_vorbisenc_chain_data e buffer))) =
  headerout_calls (vorbis e).
Proof.
  rewrite gst_vorbisenc_chain_data_ingest.
  unfold gst_vorbisenc_output_buffers.
  by rewrite (calls_drain_headerout _ _ (output_blocks_calls _ (chain_ingest e buffer))).
Qed.

(** X4.  The caps handler called again on a stream whose headers went out:
    [header_sent] stays set, so the re-initialised encoder sends no headers
    ([vorbis_analysis_headerout] is not called again and the chain function
    pushes data units only), while the tracker is back at 0 with the
    offsets of the granule clock as they were: the first data unit pushed
    next carries timestamp 0. *)
Theorem setcaps_midstream_sends_no_headers (e : GstVorbisEnc)
    (caps_channels caps_rate : option Z) (buffer : GstBuffer) :
  header_sent e = true ->
  let e1 := snd (gst_vorbisenc_sink_setcaps e caps_channels caps_rate) in
  let e2 := snd (gst_vorbisenc_chain e1 buffer) in
  setup e1 = true ->
  header_sent e1 = true /\ next_ts e1 = 0 /\
  granulepos_offset e1 = granulepos_offset e /\
  subgranule_offset e1 = subgranule_offset e /\
  headerout_calls (vorbis e2) = headerout_calls (vorbis e) /\
  (exists ds, srcpad e2 = srcpad e ++ ds /\
              Forall (fun u => is_data_unit u = true) ds) /\
  (forall u units, srcpad e2 = srcpad e ++ u :: units -> GST_BUFFER_TIMESTAMP u = 0).
Proof.
  intros Hsent e1 e2 Hsetup.
  destruct (gst_vorbisenc_sink_setcaps_spec e caps_channels caps_rate)
    as [Hk _ Hs _ _ _ Hdone _].
  fold e1 in Hk, Hs, Hdone.
  destruct Hk. cbn in sk_srcpad0, sk_header_sent0, sk_granulepos_offset0,
    sk_subgranule_offset0.
  rewrite <- Hs in Hdone. destruct (Hdone Hsetup) as (Hts & ctl & Hv & Hctl).
  assert (Hsent1 : header_sent e1 = true) by congruence.
  assert (Hchain : gst_vorbisenc_chain e1 buffer = gst_vorbisenc_chain_data e1 buffer)
    by (unfold gst_vorbisenc_chain; by rewrite Hsetup, Hsent1).
  subst e2. rewrite Hchain.
  repeat split; try done.
  - rewrite headerout_calls_chain_data, Hv. unfold headerout_calls.
    cbn [List.filter length]. rewrite List.filter_app, length_app.
    assert (Hnone : List.filter
                      (fun c => match c with vorbis_analysis_headerout => true
                                        | _ => false end) ctl = []).
    { clear Hv. induction ctl as [| c ctl IH]; [done |].
      cbn in Hctl. apply andb_true_iff in Hctl as [Hc Hctl].
      destruct c; try discriminate Hc. cbn. by apply IH. }
    rewrite Hnone. unfold setup_history, chosen_setup_call.
    by destruct (_ || _).
  - rewrite <- sk_srcpad0. apply gst_vorbisenc_chain_data_pushes_data.
  - intros u units Hu. rewrite <- sk_srcpad0 in Hu.
    destruct (first_stamped_chain_data e1 buffer) as [[Hsame _] | (u' & us' & Hpush & Hstamp)].
    + rewrite Hsame in Hu. apply (f_equal length) in Hu.
      rewrite length_app in Hu. cbn in Hu. lia.
    + rewrite Hpush in Hu. apply app_inv_head in Hu. injection Hu as <- _.
      by rewrite Hstamp.
Qed.

(** ** State changes, events and the tag list *)

Lemma header_units_head (e : GstVorbisEnc) (n : nat) :
  (1 <= n)%nat ->
  exists rest,
    take n (header_units e) = header_unit e (header_packets e).1.1 :: rest.
Proof.
  intros Hn. unfold header_units.
  destruct (header_packets e) as [[header header_comm] header_code].
  destruct n as [| n]; [lia |]. cbn. by eexists.
Qed.

(** X5.  [READY_TO_PAUSED] clears [setup] and [header_sent] and returns
    what the parent class returns; buffers are then refused until the caps
    handler has set the encoder up, and the session that follows starts
    over: no packet is pending and the first buffer pushed is the
    identification header. *)
Theorem ready_to_paused_restarts_session (e : GstVorbisEnc)
    (caps_channels caps_rate : option Z) (buffer : GstBuffer) :
  let e1 := snd (gst_vorbisenc_change_state e GST_STATE_CHANGE_READY_TO_PAUSED) in
  let e2 := snd (gst_vorbisenc_sink_setcaps e1 caps_channels caps_rate) in
  fst (gst_vorbisenc_change_state e GST_STATE_CHANGE_READY_TO_PAUSED) =
    parent_change_state GST_STATE_CHANGE_READY_TO_PAUSED /\
  setup e1 = false /\ header_sent e1 = false /\
  vorbis e1 = vorbis e /\ srcpad e1 = srcpad e /\
  fst (gst_vorbisenc_chain e1 buffer) = GST_FLOW_UNEXPECTED /\
  (setup e2 = true ->
   header_sent e2 = false /\ packets_of (vorbis e2) = [] /\
   exists rest,
     srcpad (snd (gst_vorbisenc_chain e2 buffer)) =
       srcpad e ++ header_unit e2 (header_packets e2).1.1 :: rest).
Proof.
  intros e1 e2.
  repeat split; try reflexivity.
  - destruct (gst_vorbisenc_sink_setcaps_spec e1 caps_channels caps_rate) as [[] _ _].
    fold e2 in sk_header_sent0. by rewrite sk_header_sent0.
  - destruct (gst_vorbisenc_sink_setcaps_spec e1 caps_channels caps_rate)
      as [_ _ Hs _ _ _ Hdone _].
    fold e2 in Hs, Hdone. rewrite <- Hs in Hdone.
    by destruct (Hdone H) as (_ & ctl & -> & _).
  - destruct (gst_vorbisenc_sink_setcaps_spec e1 caps_channels caps_rate) as [[] _ _].
    fold e2 in sk_header_sent0, sk_srcpad0.
    assert (Hsent : header_sent e2 = false) by by rewrite sk_header_sent0.
    assert (Hpad : srcpad e2 = srcpad e) by by rewrite sk_srcpad0.
    pose proof (gst_vorbisenc_chain_first e2 buffer H Hsent) as Hfirst.
    cbv zeta in Hfirst. rewrite <- Hpad.
    destruct (flow_is_ok (fst (gst_vorbisenc_chain_headers e2 buffer))).
    + destruct Hfirst as (_ & ds & -> & _).
      destruct (header_units_head e2 3 ltac:(lia)) as (rest & Hrest).
      rewrite firstn_all2 in Hrest by (unfold header_units;
        by destruct (header_packets e2) as [[? ?] ?]).
      rewrite Hrest. by eexists.
    + destruct Hfirst as (_ & _ & n & [Hn _] & ->).
      destruct (header_units_head e2 n Hn) as (rest & ->). by eexists.
Qed.

Lemma gst_vorbisenc_clear_tags (e : GstVorbisEnc) :
  tags (snd (gst_vorbisenc_clear e)) = tags e.
Proof.
  unfold gst_vorbisenc_clear. destruct (setup e); [| done].
  pose proof (gst_vorbisenc_output_buffers_keeps (vcall (vorbis_analysis_wrote [] 0) e))
    as [].
  by destruct (gst_vorbisenc_output_buffers _) as [ret e1].
Qed.

Lemma gst_vorbisenc_set_property_tags (e : GstVorbisEnc) (prop : property) :
  tags (gst_vorbisenc_set_property e prop) = tags e.
Proof.
  destruct prop; cbn -[Z.leb Z.ltb PrimFloat.leb];
    repeat match goal with
           | |- context [if ?c then _ else _] => destruct c
           end; reflexivity.
Qed.

Lemma invoke_tags (e : GstVorbisEnc) (c : invocation) :
  c <> call_change_state GST_STATE_CHANGE_READY_TO_NULL ->
  is_Some (tags e) ->
  exists e', invoke e c = Some e' /\ is_Some (tags e').
Proof.
  intros Hc [t Ht]. destruct c; cbn [invoke].
  - eexists. split; [done |].
    destruct (gst_vorbisenc_chain_keeps e buffer). rewrite ck_tags0, Ht. by eexists.
  - destruct event as [| list_ | name]; cbn [gst_vorbisenc_sink_event].
    + pose proof (gst_vorbisenc_clear_tags e) as Hclear.
      destruct (gst_vorbisenc_clear e) as [ret e1]. cbn in Hclear |- *.
      eexists. split; [reflexivity |]. exists t. by rewrite <- Ht, <- Hclear.
    + rewrite Ht. eexists. split; [reflexivity |]. by eexists.
    + eexists. split; [reflexivity |]. by exists t.
  - eexists. split; [done |].
    destruct (gst_vorbisenc_sink_setcaps_spec e caps_channels caps_rate) as [[] _ _].
    rewrite sk_tags0. by exists t.
  - eexists. split; [done |]. rewrite gst_vorbisenc_set_property_tags, Ht. by eexists.
  - eexists. split; [done |].
    destruct transition; first [by exists t | by eexists | done].
Qed.

(** X6.  The tag list made at [NULL_TO_READY] stays in place until
    [READY_TO_NULL]: whatever buffers, events, caps, property writes and
    other state changes come in between, every call returns, so no tag
    event runs into [g_assert_not_reached].  After [READY_TO_NULL] the list
    is gone and a tag event does. *)
Theorem tag_list_kept_until_ready_to_null (e : GstVorbisEnc) (calls : list invocation) :
  (Forall (fun c => c <> call_change_state GST_STATE_CHANGE_READY_TO_NULL) calls ->
   exists e',
     invoke_all (snd (gst_vorbisenc_change_state e GST_STATE_CHANGE_NULL_TO_READY))
       calls = Some e' /\
     is_Some (tags e')) /\
  (forall list_,
     gst_vorbisenc_sink_event
       (snd (gst_vorbisenc_change_state e GST_STATE_CHANGE_READY_TO_NULL))
       (GST_EVENT_TAG list_) = None).
Proof.
  split; [| done].
  assert (Hstart : is_Some
            (tags (snd (gst_vorbisenc_change_state e GST_STATE_CHANGE_NULL_TO_READY))))
    by by eexists.
  revert Hstart.
  generalize (snd (gst_vorbisenc_change_state e GST_STATE_CHANGE_NULL_TO_READY)).
  intros e0 Hstart Hcalls. revert e0 Hstart.
  induction Hcalls as [| c calls Hc _ IH]; intros e0 Hstart; cbn [invoke_all].
  - by exists e0.
  - destruct (invoke_tags e0 c Hc Hstart) as (e1 & -> & Htags). by apply IH.
Qed.

(** X7.  Every event for which the handler returns was pushed on the
    source pad exactly once, and the handler returns the result of that
    push: for end of stream the flow return of the drain plays no part.  An
    event other than end of stream pushes no buffer and leaves the library,
    the flags and the tracker alone; a tag event merges its list into the
    tags of the element.  The handler does not return only for a tag event
    with no tag list in place. *)
Theorem sink_event_forwards (e : GstVorbisEnc) (event : GstEvent) :
  match gst_vorbisenc_sink_event e event with
  | Some (res, e') =>
      res = gst_pad_push_event (srcpad_events e) event /\
      srcpad_events e' = srcpad_events e ++ [event] /\
      (event <> GST_EVENT_EOS ->
       srcpad e' = srcpad e /\ vorbis e' = vorbis e /\ setup e' = setup e /\
       header_sent e' = header_sent e /\ next_ts e' = next_ts e) /\
      (forall list_, event = GST_EVENT_TAG list_ ->
       exists t, tags e = Some t /\ tags e' = Some (gst_tag_list_insert t list_)) /\
      ((forall list_, event <> GST_EVENT_TAG list_) -> tags e' = tags e)
  | None => tags e = None /\ exists list_, event = GST_EVENT_TAG list_
  end.
Proof.
  destruct event as [| list_ | name]; cbn [gst_vorbisenc_sink_event].
  - pose proof (gst_vorbisenc_clear_tags e) as Htags.
    assert (Hev : srcpad_events (snd (gst_vorbisenc_clear e)) = srcpad_events e).
    { unfold gst_vorbisenc_clear. destruct (setup e); [| done].
      pose proof (gst_vorbisenc_output_buffers_keeps
                    (vcall (vorbis_analysis_wrote [] 0) e)) as [].
      by destruct (gst_vorbisenc_output_buffers _) as [ret e1]. }
    destruct (gst_vorbisenc_clear e) as [ret e1]. cbn [snd] in Hev, Htags.
    unfold push_event. rewrite Hev.
    split; [done |]. split; [done |]. split; [done |]. split; [done |].
    intros _. exact Htags.
  - destruct (tags e) as [t |]; [| by eauto].
    unfold push_event.
    split; [done |]. split; [done |]. split; [done |].
    split; [intros l [= <-]; by exists t |].
    intros H. by destruct (H list_).
  - unfold push_event. repeat split; done.
Qed.

(** X8.  End of stream ends the session whatever state it is in: the
    handler returns, [setup] and [header_sent] are cleared and the last
    calls to the library are [vorbis_block_clear], [vorbis_dsp_clear] and
    [vorbis_info_clear], in this order.  A buffer that follows is refused
    with [GST_FLOW_UNEXPECTED] without a push or a call to the library, and
    a second end of stream submits nothing, pushes nothing and clears the
    library once more. *)
Theorem eos_ends_session (e : GstVorbisEnc) (buffer : GstBuffer) :
  exists res e1,
    gst_vorbisenc_sink_event e GST_EVENT_EOS = Some (res, e1) /\
    setup e1 = false /\ header_sent e1 = false /\
    (exists calls,
       vorbis e1 =
         vorbis_info_clear :: vorbis_dsp_clear :: vorbis_block_clear
         :: calls ++ vorbis e) /\
    fst (gst_vorbisenc_chain e1 buffer) = GST_FLOW_UNEXPECTED /\
    srcpad (snd (gst_vorbisenc_chain e1 buffer)) = srcpad e1 /\
    vorbis (snd (gst_vorbisenc_chain e1 buffer)) = vorbis e1 /\
    exists res2 e2,
      gst_vorbisenc_sink_event e1 GST_EVENT_EOS = Some (res2, e2) /\
      srcpad e2 = srcpad e1 /\
      vorbis e2 =
        vorbis_info_clear :: vorbis_dsp_clear :: vorbis_block_clear :: vorbis e1.
Proof.
  cbn [gst_vorbisenc_sink_event].
  assert (Hclear : setup (snd (gst_vorbisenc_clear e)) = false /\
                   header_sent (snd (gst_vorbisenc_clear e)) = false /\
                   exists calls,
                     vorbis (snd (gst_vorbisenc_clear e)) =
                       vorbis_info_clear :: vorbis_dsp_clear :: vorbis_block_clear
                       :: calls ++ vorbis e).
  { unfold gst_vorbisenc_clear. destruct (setup e) eqn:Hs.
    - destruct (accounts_output_buffers (vcall (vorbis_analysis_wrote [] 0) e))
        as [_ (calls & Hv & _) _ _].
      destruct (gst_vorbisenc_output_buffers _) as [ret e1]. cbn in Hv |- *.
      repeat split. exists (calls ++ [vorbis_analysis_wrote [] 0]).
      by rewrite Hv, <- app_assoc.
    - cbn. repeat split; [done |]. by exists []. }
  destruct (gst_vorbisenc_clear e) as [ret e1]. cbn [snd] in Hclear.
  destruct Hclear as (Hs & Hh & Hv).
  eexists _, _. split; [reflexivity |].
  unfold push_event. cbn [setup header_sent vorbis srcpad set_srcpad_events].
  split; [done |]. split; [done |]. split; [done |].
  unfold gst_vorbisenc_chain. cbn [setup set_srcpad_events]. rewrite Hs.
  cbn [negb fst snd]. split; [done |]. split; [done |]. split; [done |].
  unfold gst_vorbisenc_clear. cbn [setup set_srcpad_events]. rewrite Hs.
  eexists _, _. split; [reflexivity |]. done.
Qed.

(** ** Reading the properties back *)

(** X9.  A property read back after it was written gives the stored value:
    the value written, except that a bitrate or bound from 0 up to, not
    including, 6000 reads back as 6000.  A write changes what no other
    property reads, but for a bound, which may change "managed"; a property
    number outside the enumeration reads nothing. *)
Theorem get_property_after_set (e : GstVorbisEnc) (prop : property) :
  gst_vorbisenc_get_property (gst_vorbisenc_set_property e prop) (prop_id prop) =
    Some (match prop with
          | ARG_MAX_BITRATE v | ARG_BITRATE v | ARG_MIN_BITRATE v =>
              G_VALUE_INT (bitrate_floor v)
          | ARG_QUALITY v => G_VALUE_FLOAT v
          | ARG_MANAGED v => G_VALUE_BOOLEAN v
          | ARG_LAST_MESSAGE => G_VALUE_STRING (last_message e)
          end) /\
  (forall id, id <> prop_id prop -> id <> prop_id (ARG_MANAGED true) ->
     gst_vorbisenc_get_property (gst_vorbisenc_set_property e prop) id =
     gst_vorbisenc_get_property e id) /\
  (forall id, id < 1 \/ 6 < id -> gst_vorbisenc_get_property e id = None).
Proof.
  split; [| split].
  - destruct prop as [v | v | v | v | v |].
    + rewrite set_property_max_bitrate. unfold notify_managed.
      by destruct (eqb _ _).
    + by rewrite set_property_bitrate.
    + rewrite set_property_min_bitrate. unfold notify_managed.
      by destruct (eqb _ _).
    + cbn. by destruct ((0 <=? v)%float).
    + done.
    + done.
  - intros id Hid Hman.
    assert (Hget : forall x : GstVorbisEnc,
              (prop_id prop <> 1 -> max_bitrate x = max_bitrate e) ->
              (prop_id prop <> 2 -> bitrate x = bitrate e) ->
              (prop_id prop <> 3 -> min_bitrate x = min_bitrate e) ->
              (prop_id prop <> 4 -> quality x = quality e) ->
              last_message x = last_message e ->
              gst_vorbisenc_get_property x id = gst_vorbisenc_get_property e id).
    { intros x H1 H2 H3 H4 H6. unfold gst_vorbisenc_get_property.
      cbn [prop_id] in Hman.
      destruct id as [| [[[| |] | [| |] |] | [[| |] | [| |] |] |] |]; try reflexivity;
        first [ by rewrite H1 by congruence | by rewrite H2 by congruence
              | by rewrite H3 by congruence | by rewrite H4 by congruence
              | by rewrite H6 | done ]. }
    apply Hget; destruct prop as [v | v | v | v | v |]; cbn [prop_id]; intros;
      rewrite ?set_property_max_bitrate, ?set_property_min_bitrate,
        ?set_property_bitrate;
      unfold notify_managed;
      first [ lia | by destruct (eqb _ _)
            | cbn; by destruct ((0 <=? v)%float) | done ].
  - intros id Hid. unfold gst_vorbisenc_get_property.
    destruct id as [| [[[| |] | [| |] |] | [[| |] | [| |] |] |] |]; try reflexivity; lia.
Qed.

(** X10.  Writing a property twice with the same value leaves the element
    as one write does: the floor is applied once and "managed" is notified
    at most once. *)
Theorem set_property_twice (e : GstVorbisEnc) (prop : property) :
  gst_vorbisenc_set_property (gst_vorbisenc_set_property e prop) prop =
  gst_vorbisenc_set_property e prop.
Proof.
  destruct prop as [v | v | v | v | v |].
  - rewrite !set_property_max_bitrate.
    destruct (notify_managed_spec (managed e)
                (set_managed ((0 <? min_bitrate e) && (0 <? bitrate_floor v))
                   (set_max_bitrate (bitrate_floor v) e))) as (Hmin & _ & Hman & _).
    rewrite Hmin, Hman. cbn [min_bitrate managed set_managed set_max_bitrate].
    unfold notify_managed at 1. cbn [managed set_managed]. rewrite eqb_reflx.
    unfold notify_managed. cbn [managed set_managed].
    by destruct (eqb (managed e) _).
  - rewrite !set_property_bitrate. by destruct e.
  - rewrite !set_property_min_bitrate.
    destruct (notify_managed_spec (managed e)
                (set_managed ((0 <? bitrate_floor v) && (0 <? max_bitrate e))
                   (set_min_bitrate (bitrate_floor v) e))) as (_ & Hmax & Hman & _).
    rewrite Hmax, Hman. cbn [max_bitrate managed set_managed set_min_bitrate].
    unfold notify_managed at 1. cbn [managed set_managed]. rewrite eqb_reflx.
    unfold notify_managed. cbn [managed set_managed].
    by destruct (eqb (managed e) _).
  - cbn. by destruct ((0 <=? v)%float).
  - done.
  - done.
Qed.

(** ** The start message *)

(** X11.  [gst_vorbisenc_setup] leaves a start message and notifies
    "last_message" once, also when the library refuses the parameters.  The
    message names the bitrate exactly when [bitrate] is positive.  With a
    bitrate that is not positive the message names the quality exactly when
    the encoder is set up by quality; with a positive bitrate and the
    quality set it still names the bitrate, though the encoder is set up by
    quality. *)
Theorem setup_start_message (e : GstVorbisEnc) :
  let e' := snd (gst_vorbisenc_setup e) in
  notified e' = notified e ++ ["last_message"%string] /\
  exists m, last_message e' = Some m /\
    (names_bitrate m = true <-> 0 < bitrate e) /\
    (bitrate e <= 0 ->
     (names_quality m = true <-> setup_mode (vorbis e') = Some QualityVBR)) /\
    (0 < bitrate e -> quality_set e = true ->
     names_quality m = false /\ setup_mode (vorbis e') = Some QualityVBR).
Proof.
  intros e'. subst e'.
  destruct (gst_vorbisenc_setup_spec e) as [_ _ _ Hn _ Hm _ _].
  destruct (gst_vorbisenc_setup_call e) as [Hcall _].
  split; [exact Hn |].
  assert (Hmode : setup_mode (vorbis (snd (gst_vorbisenc_setup e))) =
                  Some (if quality_set e || bitrates_unset e
                        then QualityVBR else ManagedBitrate)).
  { unfold setup_mode. rewrite Hcall. unfold chosen_setup_call.
    by destruct (quality_set e || bitrates_unset e). }
  rewrite Hmode, Hm. unfold update_start_message, g_object_notify.
  cbn [last_message set_last_message set_notified bitrate managed quality_set
       set_quality_set quality].
  eexists. split; [reflexivity |].
  destruct (Z.ltb_spec 0 (bitrate e)) as [Hb | Hb].
  - split; [by destruct (managed e) |].
    split; [lia |]. intros _ Hq. rewrite Hq. cbn [orb]. by destruct (managed e).
  - split; [split; [| lia]; by destruct (quality_set e || bitrates_unset e), (managed e) |].
    split; [| lia]. intros _.
    by destruct (quality_set e || bitrates_unset e), (managed e).
Qed.

(** X12.  An element fresh from [gst_vorbisenc_init] that gets caps with a
    channel count and a sample rate is set up by quality at the default
    quality, with no bitrate management: [vorbis_encode_setup_vbr] with
    these parameters is the call made, the start message names that quality
    level, and on success management was turned off before
    [vorbis_encode_setup_init]. *)
Theorem init_defaults_to_quality (enc : GstVorbisEnc) (channels_ rate : Z) :
  let e := gst_vorbisenc_init enc in
  let res := fst (gst_vorbisenc_sink_setcaps e (Some channels_) (Some rate)) in
  let e' := snd (gst_vorbisenc_sink_setcaps e (Some channels_) (Some rate)) in
  setup_call (vorbis e') =
    Some (vorbis_encode_setup_vbr channels_ rate QUALITY_DEFAULT) /\
  last_message e' = Some (encoding_at_quality_level QUALITY_DEFAULT) /\
  managed e' = false /\ quality_set e' = true /\
  res = (vorbis_ret (vorbis_encode_setup_vbr channels_ rate QUALITY_DEFAULT
                     :: vorbis_info_init :: vorbis enc) =? 0) /\
  (res = true ->
   vorbis e' =
     [vorbis_block_init; vorbis_analysis_init; vorbis_encode_setup_init;
      vorbis_encode_ctl (OV_ECTL_RATEMANAGE_SET None);
      vorbis_encode_setup_vbr channels_ rate QUALITY_DEFAULT; vorbis_info_init]
     ++ vorbis enc).
Proof.
  intros e res e'. subst res e'.
  unfold gst_vorbisenc_sink_setcaps, gst_vorbisenc_setup, gst_vorbisenc_setup_begin,
    update_start_message, g_object_notify.
  subst e. unfold gst_vorbisenc_init.
  cbn -[Z.eqb QUALITY_DEFAULT].
  unfold gst_vorbisenc_setup_quality.
  cbn -[Z.eqb QUALITY_DEFAULT].
  destruct (vorbis_ret _ =? 0) eqn:Hret; cbn -[Z.eqb QUALITY_DEFAULT].
  - repeat split.
  - repeat split. discriminate.
Qed.

(** ** The flow return *)

Lemma flow_is_ok_spec (r : GstFlowReturn) : flow_is_ok r = true <-> r = GST_FLOW_OK.
Proof. split; [by destruct r | by intros ->]. Qed.

Lemma all_taken_nil (log : list GstBuffer) : all_taken log [].
Proof. intros k u Hu. by destruct k. Qed.

Lemma all_taken_app (log units1 units2 : list GstBuffer) :
  all_taken log units1 -> all_taken (log ++ units1) units2 ->
  all_taken log (units1 ++ units2).
Proof.
  intros H1 H2 k u Hu.
  destruct (decide (k < length units1)%nat) as [Hk | Hk].
  - rewrite lookup_app_l in Hu by done.
    rewrite take_app_le by lia. by apply H1.
  - rewrite lookup_app_r in Hu by lia.
    rewrite take_app_ge by lia. rewrite app_assoc. by apply H2.
Qed.

Lemma all_taken_one (log : list GstBuffer) (u : GstBuffer) :
  gst_pad_push log u = GST_FLOW_OK -> all_taken log [u].
Proof.
  intros H [| k] u' Hu; [| by destruct k].
  injection Hu as <-. cbn. by rewrite app_nil_r.
Qed.

Lemma pushed_until_refused_same (e e' : GstVorbisEnc) :
  srcpad e' = srcpad e -> pushed_until_refused e GST_FLOW_OK e'.
Proof.
  intros H. exists []. split; [by rewrite app_nil_r |]. apply all_taken_nil.
Qed.

Lemma pushed_until_refused_trans (e1 e2 e3 : GstVorbisEnc) (ret : GstFlowReturn) :
  pushed_until_refused e1 GST_FLOW_OK e2 -> pushed_until_refused e2 ret e3 ->
  pushed_until_refused e1 ret e3.
Proof.
  intros (u1 & Hs1 & H1) (u2 & Hs2 & H2). cbn [flow_is_ok] in H1.
  exists (u1 ++ u2). split; [by rewrite Hs2, Hs1, app_assoc |].
  rewrite Hs1 in H2. destruct (flow_is_ok ret).
  - by apply all_taken_app.
  - destruct H2 as (units0 & u & -> & Htaken & Hret).
    exists (u1 ++ units0), u. split; [by rewrite app_assoc |].
    split; [by apply all_taken_app |]. by rewrite app_assoc.
Qed.

Lemma pushed_until_refused_push_buffer (e : GstVorbisEnc) (buffer : GstBuffer) :
  pushed_until_refused e (fst (gst_vorbisenc_push_buffer e buffer))
    (snd (gst_vorbisenc_push_buffer e buffer)).
Proof.
  exists [buffer]. split; [done |]. cbn [fst gst_vorbisenc_push_buffer srcpad set_bytes_out].
  destruct (flow_is_ok (gst_pad_push (srcpad e) buffer)) eqn:Hok.
  - apply all_taken_one. by apply flow_is_ok_spec.
  - exists [], buffer. split; [done |]. split; [apply all_taken_nil |].
    by rewrite app_nil_r.
Qed.

Lemma pushed_until_refused_push_packet (e : GstVorbisEnc) (op : ogg_packet) :
  pushed_until_refused e (fst (gst_vorbisenc_push_packet e op))
    (snd (gst_vorbisenc_push_packet e op)).
Proof.
  unfold gst_vorbisenc_push_packet, gst_vorbisenc_buffer_from_packet. cbv zeta.
  match goal with
  | |- context [gst_vorbisenc_push_buffer ?x ?b] =>
      exact (pushed_until_refused_push_buffer x b)
  end.
Qed.

Lemma pushed_until_refused_ok (e e' : GstVorbisEnc) (ret : GstFlowReturn) :
  flow_is_ok ret = true -> pushed_until_refused e ret e' ->
  pushed_until_refused e GST_FLOW_OK e'.
Proof. intros Hok H. by apply flow_is_ok_spec in Hok as ->. Qed.

Lemma pushed_until_refused_flush_packets (fuel : nat) (e : GstVorbisEnc) :
  pushed_until_refused e (fst (flush_packets fuel e)) (snd (flush_packets fuel e)).
Proof.
  revert e. induction fuel as [| fuel IH]; intros e; cbn [flush_packets].
  - by apply pushed_until_refused_same.
  - assert (H1 : pushed_until_refused e GST_FLOW_OK (vcall vorbis_bitrate_flushpacket e))
      by by apply pushed_until_refused_same.
    destruct (vorbis_ret (vorbis (vcall vorbis_bitrate_flushpacket e)) =? 0); [exact H1 |].
    pose proof (pushed_until_refused_push_packet (vcall vorbis_bitrate_flushpacket e)
                  (vorbis_op (vorbis (vcall vorbis_bitrate_flushpacket e)))) as H2.
    destruct (gst_vorbisenc_push_packet _ _) as [ret e2]. cbn [fst snd] in H2.
    destruct (flow_is_ok ret) eqn:Hok.
    + eapply pushed_until_refused_trans; [| apply IH].
      eapply pushed_until_refused_trans; [exact H1 |].
      by eapply pushed_until_refused_ok.
    + cbn [fst snd]. by eapply pushed_until_refused_trans.
Qed.

Lemma pushed_until_refused_output_blocks (fuel : nat) (e : GstVorbisEnc) :
  pushed_until_refused e (fst (output_blocks fuel e)) (snd (output_blocks fuel e)).
Proof.
  revert e. induction fuel as [| fuel IH]; intros e; cbn [output_blocks].
  - by apply pushed_until_refused_same.
  - assert (H1 : pushed_until_refused e GST_FLOW_OK (vcall vorbis_analysis_blockout e))
      by by apply pushed_until_refused_same.
    destruct (vorbis_ret (vorbis (vcall vorbis_analysis_blockout e)) =? 1); [| exact H1].
    set (e2 := vcall vorbis_bitrate_addblock _).
    assert (H2 : pushed_until_refused e GST_FLOW_OK e2)
      by by apply pushed_until_refused_same.
    pose proof (pushed_until_refused_flush_packets (S (vorbis_pending (vorbis e2))) e2)
      as H3.
    destruct (flush_packets _ e2) as [ret e3]. cbn [fst snd] in H3.
    destruct (flow_is_ok ret) eqn:Hok.
    + eapply pushed_until_refused_trans; [| apply IH].
      eapply pushed_until_refused_trans; [exact H2 |].
      by eapply pushed_until_refused_ok.
    + cbn [fst snd]. by eapply pushed_until_refused_trans.
Qed.

Lemma pushed_until_refused_chain_data (e : GstVorbisEnc) (buffer : GstBuffer) :
  pushed_until_refused e (fst (gst_vorbisenc_chain_data e buffer))
    (snd (gst_vorbisenc_chain_data e buffer)).
Proof.
  rewrite gst_vorbisenc_chain_data_ingest.
  eapply pushed_until_refused_trans; [| apply pushed_until_refused_output_blocks].
  by apply pushed_until_refused_same.
Qed.

Lemma pushed_until_refused_chain_headers (e : GstVorbisEnc) (buffer : GstBuffer) :
  pushed_until_refused e (fst (gst_vorbisenc_chain_headers e buffer))
    (snd (gst_vorbisenc_chain_headers e buffer)).
Proof.
  unfold gst_vorbisenc_chain_headers.
  rewrite gst_vorbisenc_set_metadata_calls.
  destruct (vorbis_headers _) as [[header header_comm] header_code].
  unfold gst_vorbisenc_set_header_on_caps. cbv zeta.
  match goal with
  | |- context [gst_vorbisenc_push_buffer ?x ?b] =>
      pose proof (pushed_until_refused_push_buffer x b) as H1;
      assert (Hx : srcpad x = srcpad e) by reflexivity;
      destruct (gst_vorbisenc_push_buffer x b) as [ret1 e1]
  end.
  cbn [fst snd] in H1.
  assert (H1' : pushed_until_refused e ret1 e1).
  { destruct H1 as (units & Hs & H). rewrite Hx in Hs, H. by exists units. }
  clear H1 Hx.
  destruct (flow_is_ok ret1) eqn:Hok1; cbn [negb]; [| exact H1'].
  apply (pushed_until_refused_ok _ _ _ Hok1) in H1'.
  match goal with
  | |- context [gst_vorbisenc_push_buffer e1 ?b] =>
      pose proof (pushed_until_refused_push_buffer e1 b) as H2;
      destruct (gst_vorbisenc_push_buffer e1 b) as [ret2 e2]
  end.
  cbn [fst snd] in H2.
  pose proof (pushed_until_refused_trans _ _ _ _ H1' H2) as H2'.
  destruct (flow_is_ok ret2) eqn:Hok2; cbn [negb]; [| exact H2'].
  apply (pushed_until_refused_ok _ _ _ Hok2) in H2'.
  match goal with
  | |- context [gst_vorbisenc_push_buffer e2 ?b] =>
      pose proof (pushed_until_refused_push_buffer e2 b) as H3;
      destruct (gst_vorbisenc_push_buffer e2 b) as [ret3 e3]
  end.
  cbn [fst snd] in H3.
  pose proof (pushed_until_refused_trans _ _ _ _ H2' H3) as H3'.
  destruct (flow_is_ok ret3) eqn:Hok3; cbn [negb]; [| exact H3'].
  apply (pushed_until_refused_ok _ _ _ Hok3) in H3'.
  cbn [fst snd].
  eapply pushed_until_refused_trans; [exact H3' |].
  by apply pushed_until_refused_same.
Qed.

(** X13.  A chain call on a set-up session pushes buffers until the peer
    refuses one.  It returns [GST_FLOW_OK] exactly when the peer returned
    [GST_FLOW_OK] for every buffer it pushed; otherwise the last buffer
    pushed is the one the peer refused, nothing is pushed after it, and the
    call returns the peer's flow return as it is.  The drain at the end of
    the stream stops and returns in the same way. *)
Theorem chain_returns_first_refusal (e : GstVorbisEnc) (buffer : GstBuffer) :
  setup e = true ->
  pushed_until_refused e (fst (gst_vorbisenc_chain e buffer))
    (snd (gst_vorbisenc_chain e buffer)) /\
  pushed_until_refused e (fst (gst_vorbisenc_clear e)) (snd (gst_vorbisenc_clear e)).
Proof.
  intros Hs. split.
  - unfold gst_vorbisenc_chain. rewrite Hs. cbn [negb].
    destruct (header_sent e); cbn [negb]; [apply pushed_until_refused_chain_data |].
    pose proof (pushed_until_refused_chain_headers e buffer) as H1.
    destruct (gst_vorbisenc_chain_headers e buffer) as [ret e1]. cbn [fst snd] in H1.
    destruct (flow_is_ok ret) eqn:Hok; cbn [negb]; [| exact H1].
    eapply pushed_until_refused_trans; [| apply pushed_until_refused_chain_data].
    by eapply pushed_until_refused_ok.
  - unfold gst_vorbisenc_clear. rewrite Hs.
    pose proof (pushed_until_refused_output_blocks
                  (S (vorbis_pending (vorbis (vcall (vorbis_analysis_wrote [] 0) e))))
                  (vcall (vorbis_analysis_wrote [] 0) e)) as H1.
    fold (gst_vorbisenc_output_buffers (vcall (vorbis_analysis_wrote [] 0) e)) in H1.
    destruct (gst_vorbisenc_output_buffers _) as [ret e1]. cbn [fst snd] in H1 |- *.
    destruct H1 as (units & Hpad & H). by exists units.
Qed.

(** ** The caps of the source pad and the offsets of the units *)

Lemma srcpad_caps_chain_data (e : GstVorbisEnc) (buffer : GstBuffer) :
  srcpad_caps (snd (gst_vorbisenc_chain_data e buffer)) = srcpad_caps e.
Proof.
  rewrite gst_vorbisenc_chain_data_ingest.
  by destruct (gst_vorbisenc_output_buffers_keeps (chain_ingest e buffer)).
Qed.

Lemma header_units_elem (e : GstVorbisEnc) (n : nat) (u : GstBuffer) :
  u ∈ take n (header_units e) -> exists op, u = header_unit e op.
Proof.
  intros Hu. apply elem_of_take in Hu as (i & Hi & _). revert Hi.
  unfold header_units.
  destruct (header_packets e) as [[header header_comm] header_code].
  destruct i as [| [| [| i]]]; cbn; intros [= <-]; by eexists.
Qed.

(** X14.  The first chain call of a session sets the caps of the source
    pad: the media type "audio/x-vorbis" with the payloads of the three
    header packets, in order, for "streamheader".  Every header buffer
    pushed carries these very caps, and for its offset the value
    [bytes_out] had before the handshake, the same for all three; this
    holds also when the peer refuses a header. *)
Theorem handshake_sets_streamheader_caps (e : GstVorbisEnc) (buffer : GstBuffer) :
  setup e = true -> header_sent e = false ->
  let e' := snd (gst_vorbisenc_chain e buffer) in
  srcpad_caps e' =
    Some (mkGstCaps "audio/x-vorbis"
            [packet (header_packets e).1.1; packet (header_packets e).1.2;
             packet (header_packets e).2]) /\
  forall u, u ∈ pushed_since (length (srcpad e)) (srcpad e') ->
    is_header_unit u = true ->
    GST_BUFFER_CAPS u = srcpad_caps e' /\ GST_BUFFER_OFFSET u = bytes_out e.
Proof.
  intros Hs Hh e'.
  assert (Hcaps : srcpad_caps e' = Some (header_caps e)).
  { subst e'. unfold gst_vorbisenc_chain. rewrite Hs, Hh. cbn [negb].
    pose proof (proj2 (accounts_chain_headers e buffer)) as H1.
    destruct (gst_vorbisenc_chain_headers e buffer) as [ret e1]. cbn [snd] in H1.
    destruct (flow_is_ok ret); cbn [negb snd]; [| exact H1].
    by rewrite srcpad_caps_chain_data. }
  split.
  { rewrite Hcaps. unfold header_caps.
    by destruct (header_packets e) as [[header header_comm] header_code]. }
  intros u Hu Hflag. rewrite Hcaps.
  pose proof (gst_vorbisenc_chain_first e buffer Hs Hh) as Hfirst.
  cbv zeta in Hfirst. fold e' in Hfirst.
  enough (exists op, u = header_unit e op) as (op & ->) by done.
  unfold pushed_since in Hu.
  destruct (flow_is_ok (fst (gst_vorbisenc_chain_headers e buffer))).
  - destruct Hfirst as (_ & ds & Hpad & Hds).
    rewrite Hpad, drop_app_length in Hu.
    apply elem_of_app in Hu as [Hu | Hu].
    + apply (header_units_elem e 3). rewrite firstn_all2; [done |].
      unfold header_units. by destruct (header_packets e) as [[? ?] ?].
    + rewrite Forall_forall in Hds. specialize (Hds u Hu).
      unfold is_data_unit in Hds. unfold is_header_unit in Hflag.
      rewrite Hflag in Hds. discriminate Hds.
  - destruct Hfirst as (_ & _ & n & _ & Hpad).
    rewrite Hpad, drop_app_length in Hu. by apply (header_units_elem e n).
Qed.

Lemma stamps_lookup (e : GstVorbisEnc) (ops : list ogg_packet) (prev : Z)
    (k : nat) (u : GstBuffer) (op : ogg_packet) :
  stamps e prev ops !! k = Some u -> ops !! k = Some op ->
  exists prev', u = stamp e prev' op.
Proof.
  revert prev k. induction ops as [| op0 ops IH]; intros prev k Hu Hop; [by destruct k |].
  destruct k as [| k].
  - injection Hop as <-. cbn in Hu. change (Some (stamp e prev op0) = Some u) in Hu.
    injection Hu as <-. by exists prev.
  - exact (IH (granulepos op0) k Hu Hop).
Qed.

Lemma granulepos_to_timestamp_offset_range (e : GstVorbisEnc) (g : Z) :
  is_guint64 (granulepos_to_timestamp_offset e g).
Proof.
  unfold granulepos_to_timestamp_offset. destruct (0 <=? g).
  - apply guint64_range.
  - unfold is_guint64, GST_CLOCK_TIME_NONE, G_MAXUINT64. lia.
Qed.

(** X15.  Every data unit of a session carries the payload of its packet
    and no caps, with [OFFSET_END] the granule position of the packet plus
    the granule offset of the session, in 64-bit arithmetic, and [OFFSET] the
    direct conversion of [OFFSET_END] to time.  For a granule position that
    is not negative and a sum below 2^63, [OFFSET_END] is the plain sum, and
    timestamp plus duration is [OFFSET] plus the subgranule offset (modulo
    2^64): a unit ends where the offset-corrected clock puts the end of
    its packet. *)
Theorem data_units_offsets (e0 : GstVorbisEnc) (buffers : list GstBuffer) :
  header_sent e0 = false -> packets_of (vorbis e0) = [] ->
  Forall (fun b => is_guint64 (GST_BUFFER_TIMESTAMP b)) buffers ->
  let e := chain_all e0 buffers in
  let units := data_units (pushed_since (length (srcpad e0)) (srcpad e)) in
  let ops := packets_of (vorbis e) in
  forall k u op, units !! k = Some u -> ops !! k = Some op ->
    GST_BUFFER_DATA u = packet op /\ GST_BUFFER_CAPS u = None /\
    GST_BUFFER_OFFSET_END u = guint64 (guint64 (granulepos op) + granulepos_offset e) /\
    GST_BUFFER_OFFSET u = granulepos_to_timestamp e (gint64 (GST_BUFFER_OFFSET_END u)) /\
    (0 <= granulepos op -> granulepos op + granulepos_offset e < 2 ^ 63 ->
     GST_BUFFER_OFFSET_END u = granulepos op + granulepos_offset e /\
     guint64 (GST_BUFFER_TIMESTAMP u + GST_BUFFER_DURATION u) =
       guint64 (GST_BUFFER_OFFSET u + subgranule_offset e)).
Proof.
  intros Hh Hp Hts e units ops k u op Hu Hop.
  pose proof (chain_all_session_inv _ buffers e0 Hts (session_inv_start e0 Hh Hp))
    as [_ Hinv].
  fold e in Hinv. destruct (header_sent e).
  2: { destruct Hinv as [Hnone _]. subst units. rewrite Hnone in Hu. by destruct k. }
  destruct Hinv as (Hunits & _ & Hoff & _).
  subst units ops. rewrite Hunits in Hu.
  destruct (stamps_lookup _ _ _ _ _ _ Hu Hop) as (prev & ->).
  split; [done |]. split; [done |]. split; [done |]. split; [done |].
  intros Hg Hsum.
  assert (Hend : guint64 (guint64 (granulepos op) + granulepos_offset e) =
                 granulepos op + granulepos_offset e).
  { unfold is_guint64, G_MAXUINT64 in Hoff. unfold guint64.
    rewrite (Z.mod_small (granulepos op)) by lia. apply Z.mod_small. lia. }
  split; [exact Hend |].
  rewrite stamp_timestamp, stamp_duration.
  rewrite (guint64_add_sub _ _ (granulepos_to_timestamp_offset_range e (granulepos op))).
  unfold stamp, gst_vorbisenc_buffer_from_packet.
  cbn [fst GST_BUFFER_OFFSET granulepos_offset set_next_ts].
  unfold granulepos_to_timestamp_offset, granulepos_to_timestamp.
  cbn [frequency granulepos_offset subgranule_offset set_next_ts].
  rewrite Hend.
  assert (Hsigned : gint64 (granulepos op + granulepos_offset e) =
                    granulepos op + granulepos_offset e).
  { apply gint64_id. unfold is_gint64, is_guint64 in *. lia. }
  rewrite Hsigned.
  assert (Hpos : (0 <=? granulepos op + granulepos_offset e) = true)
    by (apply Z.leb_le; unfold is_guint64 in Hoff; lia).
  rewrite Hpos. assert (Hg' : (0 <=? granulepos op) = true) by by apply Z.leb_le.
  rewrite Hg'.
  assert (Hu64 : guint64 (granulepos op + granulepos_offset e) =
                 granulepos op + granulepos_offset e).
  { apply guint64_id. unfold is_guint64, G_MAXUINT64 in *. lia. }
  by rewrite Hu64.
Qed.

(** ** The bytes the chain function reads *)

Lemma sample_take (data : list byte) (n m : nat) :
  (4 * m + 4 <= n)%nat -> sample (take n data) m = sample data m.
Proof.
  intros H. unfold sample.
  rewrite !take_drop_commute, take_take. do 2 f_equal. lia.
Qed.

Lemma deinterleaved_unique (nchannels vals : nat) (data data' : list byte)
    (b b' : list (list gfloat)) :
  (forall m, (m < vals * nchannels)%nat -> sample data' m = sample data m) ->
  deinterleaved nchannels vals data vals 0 b ->
  deinterleaved nchannels vals data' vals 0 b' ->
  b' = b.
Proof.
  intros Hdata [Hlen Hrows] [Hlen' Hrows'].
  apply list_eq. intros j.
  destruct (decide (j < nchannels)%nat) as [Hj | Hj].
  2: { rewrite !lookup_ge_None_2 by lia. done. }
  destruct (Hrows j Hj) as (row & -> & Hrow & Hcells).
  destruct (Hrows' j Hj) as (row' & -> & Hrow' & Hcells').
  f_equal. apply list_eq. intros i.
  destruct (decide (i < vals)%nat) as [Hi | Hi].
  2: { rewrite !lookup_ge_None_2 by lia. done. }
  rewrite Hcells, Hcells' by lia. f_equal. apply Hdata. nia.
Qed.

Lemma whole_frames_same (e : GstVorbisEnc) (buffer : GstBuffer) :
  0 < channels e -> is_gint (channels e) ->
  chain_size e (whole_frames e buffer) = chain_size e buffer /\
  chain_vorbis_buffer e (whole_frames e buffer) = chain_vorbis_buffer e buffer.
Proof.
  intros Hc Hg.
  destruct (chain_vorbis_buffer_spec e buffer Hc Hg) as [Hsize Hb].
  destruct (chain_vorbis_buffer_spec e (whole_frames e buffer) Hc Hg) as [Hsize' Hb'].
  cbv zeta in Hb, Hb'.
  set (frames := GST_BUFFER_SIZE buffer / (channels e * 4)) in *.
  assert (Hframes : 0 <= frames).
  { apply Z.div_pos; [unfold GST_BUFFER_SIZE |]; lia. }
  assert (Hfit : frames * (channels e * 4) <= GST_BUFFER_SIZE buffer).
  { rewrite Z.mul_comm. apply Z.mul_div_le. lia. }
  assert (Hwhole : GST_BUFFER_SIZE (whole_frames e buffer) = frames * (channels e * 4)).
  { unfold GST_BUFFER_SIZE, whole_frames. cbn [GST_BUFFER_DATA].
    rewrite length_take, Hsize. unfold GST_BUFFER_SIZE in Hfit. lia. }
  assert (Hsame : GST_BUFFER_SIZE (whole_frames e buffer) / (channels e * 4) = frames).
  { rewrite Hwhole. apply Z.div_mul. lia. }
  rewrite Hsame in Hsize', Hb'.
  split; [by rewrite Hsize', Hsize |].
  refine (deinterleaved_unique _ _ _ _ _ _ _ Hb Hb').
  intros m Hm. unfold whole_frames. cbn [GST_BUFFER_DATA].
  apply sample_take. rewrite Hsize. nia.
Qed.

(** X16.  The chain function reads the whole frames of a buffer and nothing
    after them: the bytes that follow the last whole frame are dropped
    without a trace.  A chain call on the buffer cut after its last whole
    frame returns the same flow return and leaves the element in the same
    state. *)
Theorem chain_ignores_partial_frame (e : GstVorbisEnc) (buffer : GstBuffer) :
  0 < channels e -> is_gint (channels e) ->
  gst_vorbisenc_chain e (whole_frames e buffer) = gst_vorbisenc_chain e buffer.
Proof.
  intros Hc Hg.
  assert (Hdata : forall x, channels x = channels e ->
            gst_vorbisenc_chain_data x (whole_frames e buffer) =
            gst_vorbisenc_chain_data x buffer).
  { intros x Hx. unfold gst_vorbisenc_chain_data. cbv zeta.
    destruct (chain_ingest_channels e x buffer Hx) as [Hb Hs].
    destruct (chain_ingest_channels e x (whole_frames e buffer) Hx) as [Hb' Hs'].
    destruct (whole_frames_same e buffer Hc Hg) as [Hsize Hbuf].
    rewrite Hs, Hs', Hsize.
    destruct (chain_ingest_channels e (vcall (vorbis_analysis_buffer (chain_size e buffer)) x)
                buffer Hx) as [Hb2 _].
    destruct (chain_ingest_channels e (vcall (vorbis_analysis_buffer (chain_size e buffer)) x)
                (whole_frames e buffer) Hx) as [Hb2' _].
    by rewrite Hb2, Hb2', Hbuf. }
  unfold gst_vorbisenc_chain.
  destruct (setup e); cbn [negb]; [| done].
  destruct (header_sent e); cbn [negb]; [by apply Hdata |].
  change (gst_vorbisenc_chain_headers e (whole_frames e buffer))
    with (gst_vorbisenc_chain_headers e buffer).
  pose proof (gst_vorbisenc_chain_headers_spec e buffer) as [[] _ _ _].
  destruct (gst_vorbisenc_chain_headers e buffer) as [ret e1].
  destruct (flow_is_ok ret); cbn [negb]; [| done].
  by apply Hdata.
Qed.

(** X17.  A buffer shorter than one frame, the empty buffer included, is
    not skipped: the chain function submits zero frames to the library, in
    an analysis block with an empty row for each channel, and [samples_in]
    does not advance. *)
Theorem chain_short_buffer_submits_nothing (e : GstVorbisEnc) (buffer : GstBuffer) :
  setup e = true -> header_sent e = true ->
  0 < channels e -> is_gint (channels e) ->
  GST_BUFFER_SIZE buffer < channels e * 4 ->
  let e' := snd (gst_vorbisenc_chain e buffer) in
  wrote_calls (vorbis e') =
    (replicate (Z.to_nat (channels e)) [], 0) :: wrote_calls (vorbis e) /\
  samples_in e' = guint64 (samples_in e).
Proof.
  intros Hs Hh Hc Hg Hshort e'. subst e'.
  unfold gst_vorbisenc_chain. rewrite Hs, Hh. cbn [negb].
  destruct (gst_vorbisenc_chain_data_submits e buffer) as [Hw Hn]. cbv zeta in Hw, Hn.
  destruct (chain_vorbis_buffer_spec e buffer Hc Hg) as [Hsize _].
  assert (Hzero : chain_size e buffer = 0).
  { rewrite Hsize. apply Z.div_small. unfold GST_BUFFER_SIZE in *. lia. }
  rewrite Hw, Hn, Hzero, Z.add_0_r. split; [| done].
  do 2 f_equal. unfold chain_vorbis_buffer. rewrite Hzero. cbn [Z.to_nat deinterleave fst].
  unfold analysis_buffer. cbn [replicate]. f_equal.
  unfold is_gint in Hg. rewrite guint64_id; [done |].
  unfold is_guint64, G_MAXUINT64. lia.
Qed.

(** ** Tags and comments *)


(** ** Conversions between formats *)

Lemma gint_id (z : Z) : is_gint z -> gint z = z.
Proof.
  unfold is_gint, gint. intros Hz.
  destruct (Z.lt_ge_cases z 0) as [Hneg | Hpos].
  - replace (z mod 2 ^ 32) with (z + 2 ^ 32).
    + destruct (Z.ltb_spec (z + 2 ^ 32) (2 ^ 31)); lia.
    + apply Z.mod_unique with (q := -1); lia.
  - rewrite Z.mod_small by lia. destruct (Z.ltb_spec z (2 ^ 31)); lia.
Qed.

(** X19.  On the sink pad, a count of samples converted to bytes and back
    is the count itself, for an element with a channel count other than 0
    (the product within 64 bits). *)
Theorem convert_sink_round_trip (e : GstVorbisEnc) (v : Z) :
  channels e <> 0 -> is_gint (channels e * 2) ->
  is_gint64 v -> is_gint64 (v * (channels e * 2)) ->
  gst_vorbisenc_convert_sink e GST_FORMAT_DEFAULT v GST_FORMAT_BYTES =
    Some (v * (channels e * 2)) /\
  gst_vorbisenc_convert_sink e GST_FORMAT_BYTES (v * (channels e * 2)) GST_FORMAT_DEFAULT =
    Some v.
Proof.
  intros Hc Hg Hv Hprod. unfold gst_vorbisenc_convert_sink.
  rewrite (gint_id _ Hg).
  destruct (Z.eqb_spec (channels e * 2) 0) as [H0 | _]; [lia |].
  rewrite (gint64_id _ Hprod). split; [done |].
  rewrite Z.quot_mul by lia. by rewrite (gint64_id _ Hv).
Qed.

(** X20.  The sink pad counts two bytes for a sample of a channel, the
    chain function four: for a buffer of whole frames the conversion of its
    size from bytes to samples gives twice the frame count the chain
    function submits for it. *)
Theorem convert_sink_counts_twice_the_frames (e : GstVorbisEnc) (buffer : GstBuffer) :
  0 < channels e -> is_gint (channels e * 2) ->
  GST_BUFFER_SIZE buffer mod (channels e * 4) = 0 ->
  GST_BUFFER_SIZE buffer < 2 ^ 63 ->
  gst_vorbisenc_convert_sink e GST_FORMAT_BYTES (GST_BUFFER_SIZE buffer)
    GST_FORMAT_DEFAULT = Some (2 * chain_size e buffer).
Proof.
  intros Hc Hg Hwhole Hfit.
  assert (Hgc : is_gint (channels e)) by (unfold is_gint in *; lia).
  destruct (chain_vorbis_buffer_spec e buffer Hc Hgc) as [-> _].
  unfold gst_vorbisenc_convert_sink. rewrite (gint_id _ Hg).
  destruct (Z.eqb_spec (channels e * 2) 0) as [H0 | _]; [lia |].
  assert (Hsize : 0 <= GST_BUFFER_SIZE buffer) by (unfold GST_BUFFER_SIZE; lia).
  apply Z.div_exact in Hwhole; [| lia].
  set (frames := GST_BUFFER_SIZE buffer / (channels e * 4)) in *.
  assert (Hframes : 0 <= frames) by (apply Z.div_pos; lia).
  rewrite Hwhole at 1.
  replace (channels e * 4 * frames) with (2 * frames * (channels e * 2)) by lia.
  rewrite Z.quot_mul by lia.
  rewrite gint64_id; [done |]. unfold is_gint64. nia.
Qed.

(** X21.  On the source pad a conversion is answered only between bytes and
    time, in either direction, and only once samples have come in, bytes
    have gone out and the sample rate is not 0; every other request,
    a format to itself included, is refused. *)
Theorem convert_src_answers (e : GstVorbisEnc) (src_format dest_format : GstFormat)
    (src_value : Z) :
  is_Some (gst_vorbisenc_convert_src e src_format src_value dest_format) <->
  samples_in e <> 0 /\ bytes_out e <> 0 /\ frequency e <> 0 /\
  ((src_format = GST_FORMAT_BYTES /\ dest_format = GST_FORMAT_TIME) \/
   (src_format = GST_FORMAT_TIME /\ dest_format = GST_FORMAT_BYTES)).
Proof.
  unfold gst_vorbisenc_convert_src.
  destruct (Z.eqb_spec (samples_in e) 0) as [Hs | Hs];
    [cbn [orb]; split; [by intros [? [=]] | by intros []] |].
  destruct (Z.eqb_spec (bytes_out e) 0) as [Hb | Hb];
    [cbn [orb]; split; [by intros [? [=]] | by intros (_ & ? & _)] |].
  destruct (Z.eqb_spec (frequency e) 0) as [Hf | Hf];
    [cbn [orb]; split; [by intros [? [=]] | by intros (_ & _ & ? & _)] |].
  cbn [orb].
  destruct src_format, dest_format; split;
    first [ by intros [? [=]]
          | intros _; repeat split; auto; fail
          | intros (_ & _ & _ & [[[=] [=]] | [[=] [=]]])
          | intros _; by eexists ].
Qed.

(** X22.  On the sink pad a conversion is answered between two different
    formats out of bytes, samples and time, and no other; from bytes it is
    refused when the channel count (for time, the byte rate) is 0, and from
    samples to time when the sample rate is 0, while a conversion from time
    is answered whatever the channel count and the sample rate are. *)
Theorem convert_sink_answers (e : GstVorbisEnc) (src_format dest_format : GstFormat)
    (src_value : Z) :
  let bytes_per_sample := gint (channels e * 2) in
  is_Some (gst_vorbisenc_convert_sink e src_format src_value dest_format) <->
  (src_format = GST_FORMAT_BYTES /\ dest_format = GST_FORMAT_DEFAULT /\
   bytes_per_sample <> 0) \/
  (src_format = GST_FORMAT_BYTES /\ dest_format = GST_FORMAT_TIME /\
   gint (bytes_per_sample * frequency e) <> 0) \/
  (src_format = GST_FORMAT_DEFAULT /\ dest_format = GST_FORMAT_BYTES) \/
  (src_format = GST_FORMAT_DEFAULT /\ dest_format = GST_FORMAT_TIME /\
   frequency e <> 0) \/
  (src_format = GST_FORMAT_TIME /\
   (dest_format = GST_FORMAT_BYTES \/ dest_format = GST_FORMAT_DEFAULT)).
Proof.
  intros bytes_per_sample. unfold gst_vorbisenc_convert_sink. fold bytes_per_sample.
  destruct src_format, dest_format;
    repeat match goal with
           | |- context [?a =? 0] => destruct (Z.eqb_spec a 0)
           end;
    (split;
     [ first [ by intros [? [=]] | intros _ ]
     | first [ intros _; by eexists | idtac ] ]);
    try (intros [(H1 & H2 & H3) | [(H1 & H2 & H3) | [(H1 & H2) | [(H1 & H2 & H3) | (H1 & [H2 | H2])]]]];
         first [discriminate H1 | discriminate H2 | contradiction ]);
    try (by left); try (right; by left); try (do 2 right; by left);
    try (do 3 right; by left); try (do 4 right; split; [done | by left]);
    try (do 4 right; split; [done | by right]).
Qed.

(** ** The property specifications *)

(** X23.  A property read from an element fresh from [gst_vorbisenc_init]
    gives the default value of the specification [gst_vorbisenc_class_init]
    installed under its number, for each of the six properties. *)
Theorem init_gives_spec_defaults (enc : GstVorbisEnc) (id : Z) (pspec : GParamSpec) :
  In (id, pspec) gst_vorbisenc_class_init ->
  gst_vorbisenc_get_property (gst_vorbisenc_init enc) id =
    Some (g_param_value_set_default pspec).
Proof.
  unfold gst_vorbisenc_class_init. cbn [In].
  intros [H | [H | [H | [H | [H | [H | []]]]]]]; by injection H as <- <-.
Qed.

Lemma valid_bitrate_floor (v : Z) :
  -1 <= v <= HIGHEST_BITRATE -> valid_bitrate (bitrate_floor v).
Proof.
  unfold valid_bitrate, bitrate_floor, LOWEST_BITRATE, HIGHEST_BITRATE.
  intros Hv. destruct (Z.leb_spec 0 v), (Z.ltb_spec v 6000); cbn [andb]; lia.
Qed.

Lemma gst_vorbisenc_clear_bitrates (e : GstVorbisEnc) :
  bitrate (snd (gst_vorbisenc_clear e)) = bitrate e /\
  min_bitrate (snd (gst_vorbisenc_clear e)) = min_bitrate e /\
  max_bitrate (snd (gst_vorbisenc_clear e)) = max_bitrate e.
Proof.
  unfold gst_vorbisenc_clear. destruct (setup e); [| done].
  pose proof (gst_vorbisenc_output_buffers_keeps (vcall (vorbis_analysis_wrote [] 0) e))
    as [].
  by destruct (gst_vorbisenc_output_buffers _) as [ret e1].
Qed.

Lemma valid_bitrates_invoke (e e' : GstVorbisEnc) (c : invocation) :
  in_spec_range c -> invoke e c = Some e' -> valid_bitrates e -> valid_bitrates e'.
Proof.
  intros Hc Hrun (Hb & Hmin & Hmax). unfold valid_bitrates.
  destruct c; cbn [invoke] in Hrun.
  - injection Hrun as <-. destruct (gst_vorbisenc_chain_keeps e buffer).
    by rewrite ck_bitrate0, ck_min_bitrate0, ck_max_bitrate0.
  - destruct event as [| list_ | name]; cbn [gst_vorbisenc_sink_event] in Hrun.
    + destruct (gst_vorbisenc_clear_bitrates e) as (H1 & H2 & H3).
      destruct (gst_vorbisenc_clear e) as [ret e1]. cbn in Hrun. injection Hrun as <-.
      cbn in H1, H2, H3 |- *. by rewrite H1, H2, H3.
    + destruct (tags e); [| discriminate]. by injection Hrun as <-.
    + by injection Hrun as <-.
  - injection Hrun as <-.
    destruct (gst_vorbisenc_sink_setcaps_spec e caps_channels caps_rate) as [[] _ _].
    by rewrite sk_bitrate0, sk_min_bitrate0, sk_max_bitrate0.
  - injection Hrun as <-. destruct prop as [v | v | v | v | v |]; cbn in Hc.
    + rewrite set_property_max_bitrate.
      destruct (notify_managed_spec (managed e)
                  (set_managed ((0 <? min_bitrate e) && (0 <? bitrate_floor v))
                     (set_max_bitrate (bitrate_floor v) e))) as (H1 & H2 & _).
      rewrite H1, H2. unfold notify_managed.
      split; [by destruct (eqb _ _) |]. split; [done |]. by apply valid_bitrate_floor.
    + rewrite set_property_bitrate. split; [by apply valid_bitrate_floor | done].
    + rewrite set_property_min_bitrate.
      destruct (notify_managed_spec (managed e)
                  (set_managed ((0 <? bitrate_floor v) && (0 <? max_bitrate e))
                     (set_min_bitrate (bitrate_floor v) e))) as (H1 & H2 & _).
      rewrite H1, H2. unfold notify_managed.
      split; [by destruct (eqb _ _) |]. split; [by apply valid_bitrate_floor | done].
    + cbn. by destruct ((0 <=? v)%float).
    + done.
    + done.
  - injection Hrun as <-. by destruct transition.
Qed.

(** X24.  From [gst_vorbisenc_init] on, over any sequence of calls of the
    entry points in which each bitrate written lies in the range of its
    specification, from -1 up to [HIGHEST_BITRATE], the bitrate and both
    bounds are each either -1 or from [LOWEST_BITRATE] up to
    [HIGHEST_BITRATE]: no value from 0 up to 5999 is ever stored. *)
Theorem bitrates_stay_valid (enc e' : GstVorbisEnc) (calls : list invocation) :
  Forall in_spec_range calls ->
  invoke_all (gst_vorbisenc_init enc) calls = Some e' ->
  valid_bitrates e'.
Proof.
  intros Hcalls.
  assert (Hstart : valid_bitrates (gst_vorbisenc_init enc))
    by (repeat split; by left).
  revert Hstart. generalize (gst_vorbisenc_init enc).
  induction Hcalls as [| c calls Hc _ IH]; intros e Hstart; cbn [invoke_all].
  - by intros [= <-].
  - destruct (invoke e c) as [e1 |] eqn:Hrun; [| discriminate].
    apply IH. by eapply valid_bitrates_invoke.
Qed.

(** ** Queries *)

(** X25.  The source pad hands to the default handler every query of a
    type it does not advertise, that is every query but position, duration
    and convert; the sink pad every query but convert.  A convert query is
    answered by the convert function of its pad alone: the handler returns
    [TRUE] with the converted value in the query exactly when the
    conversion succeeds, and [FALSE] with the query as it was
    otherwise. *)
Theorem queries_answered (e : GstVorbisEnc) (query : GstQuery) :
  (~ In (GST_QUERY_TYPE query) gst_vorbisenc_get_query_types ->
   gst_vorbisenc_src_query e query = gst_pad_query_default query) /\
  (GST_QUERY_TYPE query <> GST_QUERY_CONVERT ->
   gst_vorbisenc_sink_query e query = gst_pad_query_default query) /\
  (GST_QUERY_TYPE query = GST_QUERY_CONVERT ->
   gst_vorbisenc_src_query e query =
     match gst_vorbisenc_convert_src e (query_format query) (query_value query)
             (query_dest_format query) with
     | Some dest_val =>
         (true, mkGstQuery GST_QUERY_CONVERT (query_format query) (query_value query)
                  (query_dest_format query) dest_val)
     | None => (false, query)
     end /\
   gst_vorbisenc_sink_query e query =
     match gst_vorbisenc_convert_sink e (query_format query) (query_value query)
             (query_dest_format query) with
     | Some dest_val =>
         (true, mkGstQuery GST_QUERY_CONVERT (query_format query) (query_value query)
                  (query_dest_format query) dest_val)
     | None => (false, query)
     end).
Proof.
  unfold gst_vorbisenc_src_query, gst_vorbisenc_sink_query, gst_query_set_convert,
    gst_vorbisenc_get_query_types.
  destruct query as [type format value dest_format dest_value].
  cbn [GST_QUERY_TYPE query_format query_value query_dest_format query_dest_value In].
  split; [| split].
  - intros Hnot. destruct type; try reflexivity; exfalso; apply Hnot; auto.
  - intros Hnot. by destruct type.
  - intros ->. split; by destruct (_ : option Z).
Qed.

(** ** Tag values *)

Lemma decimal_value_from_app (s1 s2 : string) (acc v : Z) :
  decimal_value_from acc s1 = Some v ->
  decimal_value_from acc (s1 ++ s2) = decimal_value_from v s2.
Proof.
  revert acc. induction s1 as [| c s1 IH]; intros acc; cbn [decimal_value_from append].
  - by intros [= ->].
  - destruct (_ && _); [apply IH | discriminate].
Qed.

Lemma length_append (s1 s2 : string) :
  String.length (s1 ++ s2) = (String.length s1 + String.length s2)%nat.
Proof. induction s1 as [| c s1 IH]; cbn; [done | by rewrite IH]. Qed.

Lemma decimal_value_digit (d acc : Z) (s : string) :
  0 <= d < 10 ->
  decimal_value_from acc (String (digit d) s) = decimal_value_from (acc * 10 + d) s.
Proof.
  intros Hd. cbn [decimal_value_from]. unfold digit.
  rewrite nat_ascii_embedding by lia.
  replace (Z.of_nat (48 + Z.to_nat d) - 48) with d by lia.
  destruct (Z.leb_spec 0 d), (Z.ltb_spec d 10); cbn [andb]; first [done | lia].
Qed.

(** The digits of [decimal]: at most [k] of them for a number below
    [10 ^ k], and they stand for the number. *)
Lemma decimal_spec (k : nat) (fuel : nat) (n : Z) (acc : string) :
  (1 <= k <= fuel)%nat -> 0 <= n < 10 ^ Z.of_nat k ->
  exists ds,
    decimal fuel n acc = (ds ++ acc)%string /\
    (1 <= String.length ds <= k)%nat /\
    forall a, decimal_value_from a ds = Some (a * 10 ^ Z.of_nat (String.length ds) + n).
Proof.
  revert fuel n acc. induction k as [| k IH]; intros fuel n acc Hk Hn; [lia |].
  destruct fuel as [| fuel]; [lia |]. cbn [decimal].
  assert (Hmod : 0 <= n mod 10 < 10) by (apply Z.mod_pos_bound; lia).
  destruct (Z.eqb_spec (n / 10) 0) as [Hz | Hnz].
  - exists (String (digit (n mod 10)) EmptyString). split; [done |].
    split; [cbn; lia |]. intros a. rewrite decimal_value_digit by done.
    cbn. f_equal. pose proof (Z.div_mod n 10 ltac:(lia)). lia.
  - assert (Hdiv : 0 <= n / 10 < 10 ^ Z.of_nat k).
    { split; [apply Z.div_pos; lia |].
      apply Z.div_lt_upper_bound; [lia |].
      replace (10 * 10 ^ Z.of_nat k) with (10 ^ Z.of_nat (S k)); [lia |].
      rewrite Nat2Z.inj_succ, Z.pow_succ_r by lia. lia. }
    assert (Hk1 : (1 <= k)%nat).
    { destruct k as [| k]; [| lia]. cbn in Hdiv. lia. }
    destruct (IH fuel (n / 10) (String (digit (n mod 10)) acc) ltac:(lia) Hdiv)
      as (ds & Heq & Hlen & Hval).
    exists (ds ++ String (digit (n mod 10)) EmptyString)%string.
    split.
    { rewrite Heq. clear. induction ds as [| c ds IH]; cbn; [done | by rewrite IH]. }
    rewrite length_append. cbn [String.length].
    split; [lia |]. intros a.
    rewrite (decimal_value_from_app _ _ _ _ (Hval a)), decimal_value_digit by done.
    cbn [decimal_value_from]. f_equal.
    replace (Z.of_nat (String.length ds + 1)) with (Z.succ (Z.of_nat (String.length ds)))
      by lia.
    rewrite Z.pow_succ_r by lia.
    pose proof (Z.div_mod n 10 ltac:(lia)). lia.
Qed.

Lemma printf_u_spec (n : Z) :
  0 <= n < 2 ^ 32 ->
  (1 <= String.length (printf_u n) <= 10)%nat /\
  decimal_value_from 0 (printf_u n) = Some n.
Proof.
  intros Hn. unfold printf_u.
  destruct (decimal_spec 10 10 n EmptyString ltac:(lia) ltac:(lia))
    as (ds & -> & Hlen & Hval).
  assert (Hnil : (ds ++ EmptyString)%string = ds)
    by (clear; induction ds as [| c ds IH]; cbn; [done | by rewrite IH]).
  rewrite Hnil, Hval. split; [done |]. f_equal; lia.
Qed.

Lemma printf_0d_spec (width : nat) (n : Z) :
  (1 <= width <= 10)%nat -> 0 <= n < 10 ^ Z.of_nat width ->
  String.length (printf_0d width n) = width /\
  decimal_value_from 0 (printf_0d width n) = Some n.
Proof.
  intros Hw Hn. unfold printf_0d. cbv zeta.
  destruct (decimal_spec width 10 n EmptyString ltac:(lia) Hn)
    as (ds & -> & Hlen & Hval).
  assert (Hnil : (ds ++ EmptyString)%string = ds)
    by (clear; induction ds as [| c ds IH]; cbn; [done | by rewrite IH]).
  rewrite Hnil.
  assert (Hzeros : forall k, String.length (zeros k ds) = (k + String.length ds)%nat /\
                             decimal_value_from 0 (zeros k ds) = decimal_value_from 0 ds).
  { induction k as [| k [IH1 IH2]]; [done |]. cbn [zeros String.length].
    split; [lia |]. exact IH2. }
  destruct (Hzeros (width - String.length ds)%nat) as [-> ->].
  split; [lia |]. rewrite Hval. f_equal; lia.
Qed.

(** X26.  The value of a numbered tag (track and disc numbers and counts)
    is written in decimal, with up to ten digits and whatever type the tag
    is registered with.  The value of any other tag of type date is
    written as year, month and day with four, two and two digits, zeros in
    front, and "-" between them; the digits stand for the numbers of the
    date (a year up to 9999). *)
Theorem tag_values_are_decimal (list_ : GstTagList) (tag : string) (index : Z) :
  let numbered :=
    String.eqb tag GST_TAG_TRACK_NUMBER || String.eqb tag GST_TAG_ALBUM_VOLUME_NUMBER
    || String.eqb tag GST_TAG_TRACK_COUNT || String.eqb tag GST_TAG_ALBUM_VOLUME_COUNT in
  (forall track_no,
     numbered = true ->
     gst_tag_list_get_uint_index list_ tag index = Some track_no ->
     0 <= track_no < 2 ^ 32 ->
     exists s,
       gst_vorbisenc_get_tag_value list_ (Some tag) index = Some s /\
       (1 <= String.length s <= 10)%nat /\
       decimal_value_from 0 s = Some track_no) /\
  (forall date,
     numbered = false -> gst_tag_get_type tag = GST_TYPE_DATE ->
     gst_tag_list_get_date_index list_ tag index = Some date ->
     0 <= g_date_get_year date < 10000 ->
     0 <= g_date_get_month date < 100 -> 0 <= g_date_get_day date < 100 ->
     exists y m d,
       gst_vorbisenc_get_tag_value list_ (Some tag) index =
         Some (y ++ "-" ++ m ++ "-" ++ d)%string /\
       String.length y = 4%nat /\ String.length m = 2%nat /\ String.length d = 2%nat /\
       decimal_value_from 0 y = Some (g_date_get_year date) /\
       decimal_value_from 0 m = Some (g_date_get_month date) /\
       decimal_value_from 0 d = Some (g_date_get_day date)).
Proof.
  intros numbered. split.
  - intros track_no Hnum Hget Hrange.
    unfold gst_vorbisenc_get_tag_value. fold numbered. rewrite Hnum, Hget.
    destruct (printf_u_spec track_no Hrange) as [Hlen Hval]. by eexists.
  - intros date Hnum Htype Hget Hy Hm Hd.
    unfold gst_vorbisenc_get_tag_value. fold numbered. rewrite Hnum, Htype, Hget.
    destruct (printf_0d_spec 4 (g_date_get_year date) ltac:(lia) ltac:(lia)) as [Hly Hvy].
    destruct (printf_0d_spec 2 (g_date_get_month date) ltac:(lia) ltac:(lia)) as [Hlm Hvm].
    destruct (printf_0d_spec 2 (g_date_get_day date) ltac:(lia) ltac:(lia)) as [Hld Hvd].
    by eexists _, _, _.
Qed.

(** ** The comments of a tag *)

Lemma metadata_set1_loop_spec (n : nat) (i : Z) (list_ : GstTagList)
    (tag vorbistag : string) (enc : GstVorbisEnc) :
  metadata_set1_loop n i list_ tag vorbistag enc =
  set_vorbis (tag_comments n i list_ tag vorbistag ++ vorbis enc) enc.
Proof.
  revert i enc. induction n as [| n IH]; intros i enc;
    cbn [metadata_set1_loop tag_comments].
  - cbn [app]. by rewrite set_vorbis_same.
  - rewrite IH.
    destruct (gst_vorbisenc_get_tag_value list_ (Some tag) i) as [vorbisvalue |].
    + cbn [vorbis vcall set_vorbis]. by rewrite <- app_assoc.
    + by rewrite app_nil_r.
Qed.

(** X27.  [gst_vorbisenc_metadata_set1] changes nothing but the comments of
    the library: it adds one comment for each value of the tag that
    [gst_vorbisenc_get_tag_value] can write, all under the Vorbis name of
    the tag, so never more than the list holds values for the tag, and none
    for a tag that has no Vorbis name. *)
Theorem metadata_set1_adds_comments (list_ : GstTagList) (tag : string)
    (enc : GstVorbisEnc) :
  let count := Z.to_nat (gst_tag_list_get_tag_size list_ tag) in
  match gst_tag_to_vorbis_tag tag with
  | None => gst_vorbisenc_metadata_set1 list_ tag enc = enc
  | Some vorbistag =>
      exists calls,
        gst_vorbisenc_metadata_set1 list_ tag enc = set_vorbis (calls ++ vorbis enc) enc /\
        (length calls <= count)%nat /\
        (forall k c, calls !! k = Some c ->
           exists i vorbisvalue,
             0 <= i < Z.of_nat count /\
             gst_vorbisenc_get_tag_value list_ (Some tag) i = Some vorbisvalue /\
             c = vorbis_comment_add_tag vorbistag vorbisvalue) /\
        (forall i vorbisvalue,
           0 <= i < Z.of_nat count ->
           gst_vorbisenc_get_tag_value list_ (Some tag) i = Some vorbisvalue ->
           In (vorbis_comment_add_tag vorbistag vorbisvalue) calls)
  end.
Proof.
  intros count. unfold gst_vorbisenc_metadata_set1.
  destruct (gst_tag_to_vorbis_tag tag) as [vorbistag |]; [| done].
  cbv zeta. fold count. exists (tag_comments count 0 list_ tag vorbistag).
  split; [apply metadata_set1_loop_spec |].
  assert (Hgen : forall n i,
    (length (tag_comments n i list_ tag vorbistag) <= n)%nat /\
    (forall c, In c (tag_comments n i list_ tag vorbistag) ->
       exists j vorbisvalue,
         i <= j < i + Z.of_nat n /\
         gst_vorbisenc_get_tag_value list_ (Some tag) j = Some vorbisvalue /\
         c = vorbis_comment_add_tag vorbistag vorbisvalue) /\
    (forall j vorbisvalue,
       i <= j < i + Z.of_nat n ->
       gst_vorbisenc_get_tag_value list_ (Some tag) j = Some vorbisvalue ->
       In (vorbis_comment_add_tag vorbistag vorbisvalue)
         (tag_comments n i list_ tag vorbistag))).
  { induction n as [| n IH]; intros i; cbn [tag_comments].
    - split; [done |]. split; [by intros c [] | intros; lia].
    - destruct (IH (i + 1)) as (Hlen & Hin & Hall).
      split; [| split].
      + rewrite length_app.
        destruct (gst_vorbisenc_get_tag_value list_ (Some tag) i); cbn; lia.
      + intros c Hc. apply in_app_iff in Hc as [Hc | Hc].
        * destruct (Hin c Hc) as (j & v & Hj & Hv & ->). exists j, v.
          split; [lia | done].
        * destruct (gst_vorbisenc_get_tag_value list_ (Some tag) i) as [v |] eqn:Hv;
            [| by destruct Hc].
          destruct Hc as [<- | []]. exists i, v. split; [lia | done].
      + intros j v Hj Hv. apply in_app_iff.
        destruct (decide (j = i)) as [-> | Hne].
        * right. rewrite Hv. by left.
        * left. apply (Hall j v); [lia | done]. }
  destruct (Hgen count 0) as (Hlen & Hin & Hall).
  split; [exact Hlen |]. split.
  - intros k c Hk. apply list_elem_of_lookup_2, list_elem_of_In in Hk.
    destruct (Hin c Hk) as (j & v & Hj & Hv & ->). exists j, v. split; [lia | done].
  - intros i v Hi Hv. apply (Hall i v); [lia | done].
Qed.

(** ** The caps of the sink pad template *)

(** X28.  Caps that fit the sink pad template, a sample rate from 8000 to
    50000 Hz and one or two channels of 32 bits, set the element up in the
    range its arithmetic is written for: the frame count of a buffer is its
    size divided by the channel count times the width of a sample in bytes,
    with no wrap-around, the sample rate is positive and not above
    [GST_SECOND], and the sink pad does not refuse to convert bytes to
    samples. *)
Theorem sink_template_caps_in_range (e : GstVorbisEnc) (channels_ rate : Z)
    (buffer : GstBuffer) (src_value : Z) :
  (raw_caps_channels raw_caps_factory).1 <= channels_ <=
    (raw_caps_channels raw_caps_factory).2 ->
  (raw_caps_rate raw_caps_factory).1 <= rate <= (raw_caps_rate raw_caps_factory).2 ->
  let e' := snd (gst_vorbisenc_sink_setcaps e (Some channels_) (Some rate)) in
  channels e' = channels_ /\ frequency e' = rate /\
  chain_size e' buffer =
    GST_BUFFER_SIZE buffer / (channels_ * (raw_caps_width raw_caps_factory / 8)) /\
  0 < frequency e' <= GST_SECOND /\
  is_Some (gst_vorbisenc_convert_sink e' GST_FORMAT_BYTES src_value GST_FORMAT_DEFAULT).
Proof.
  intros Hc Hr e'. cbn in Hc, Hr.
  destruct (gst_vorbisenc_sink_setcaps_spec e (Some channels_) (Some rate)) as [[] _ _].
  fold e' in sk_channels0, sk_frequency0. cbn in sk_channels0, sk_frequency0.
  assert (Hg : is_gint (channels e')) by (unfold is_gint; lia).
  destruct (chain_vorbis_buffer_spec e' buffer ltac:(lia) Hg) as [Hsize _].
  split; [done |]. split; [done |].
  split; [by rewrite Hsize, sk_channels0 |].
  split; [unfold GST_SECOND; lia |].
  unfold gst_vorbisenc_convert_sink. rewrite gint_id by (unfold is_gint; lia).
  destruct (Z.eqb_spec (channels e' * 2) 0); [lia | by eexists].
Qed.

(** ** The drain loops run to their exit *)

Section Termination.

(** [vorbis_pending] bounds what the library still holds: a packet handed
    out and a block taken each lower it, and asking in vain for a packet
    does not raise it. *)
Hypothesis pending_flushpacket : forall h,
  vorbis_ret (vorbis_bitrate_flushpacket :: h) <> 0 ->
  (vorbis_pending (vorbis_bitrate_flushpacket :: h) < vorbis_pending h)%nat.
Hypothesis pending_flushpacket_none : forall h,
  vorbis_ret (vorbis_bitrate_flushpacket :: h) = 0 ->
  (vorbis_pending (vorbis_bitrate_flushpacket :: h) <= vorbis_pending h)%nat.
Hypothesis pending_blockout : forall h,
  vorbis_ret (vorbis_analysis_blockout :: h) = 1 ->
  (vorbis_pending
     (vorbis_bitrate_addblock :: vorbis_analysis :: vorbis_analysis_blockout :: h)
   < vorbis_pending h)%nat.

Lemma gst_vorbisenc_push_packet_vorbis (e : GstVorbisEnc) (op : ogg_packet) :
  vorbis (snd (gst_vorbisenc_push_packet e op)) = vorbis e.
Proof. reflexivity. Qed.

Lemma flush_packets_pending (fuel : nat) (e : GstVorbisEnc) :
  (vorbis_pending (vorbis (snd (flush_packets fuel e))) <= vorbis_pending (vorbis e))%nat.
Proof using pending_flushpacket pending_flushpacket_none.
  revert e. induction fuel as [| fuel IH]; intros e; cbn [flush_packets]; [done |].
  change (vorbis (vcall vorbis_bitrate_flushpacket e))
    with (vorbis_bitrate_flushpacket :: vorbis e).
  destruct (Z.eqb_spec (vorbis_ret (vorbis_bitrate_flushpacket :: vorbis e)) 0)
    as [Hz | Hnz].
  - cbn [snd]. by apply pending_flushpacket_none.
  - pose proof (pending_flushpacket _ Hnz) as Hlt.
    pose proof (gst_vorbisenc_push_packet_vorbis (vcall vorbis_bitrate_flushpacket e)
                  (vorbis_op (vorbis_bitrate_flushpacket :: vorbis e))) as Hv.
    destruct (gst_vorbisenc_push_packet (vcall vorbis_bitrate_flushpacket e)
                (vorbis_op (vorbis_bitrate_flushpacket :: vorbis e))) as [ret e2].
    cbn [snd] in Hv. change (vorbis (vcall vorbis_bitrate_flushpacket e))
      with (vorbis_bitrate_flushpacket :: vorbis e) in Hv.
    destruct (flow_is_ok ret).
    + specialize (IH e2). rewrite Hv in IH. lia.
    + cbn [snd]. rewrite Hv. lia.
Qed.

(** With more fuel than the library has pending, the fuel of the inner loop
    plays no part. *)
Lemma flush_packets_fuel (fuel1 fuel2 : nat) (e : GstVorbisEnc) :
  (vorbis_pending (vorbis e) < fuel1)%nat -> (vorbis_pending (vorbis e) < fuel2)%nat ->
  flush_packets fuel1 e = flush_packets fuel2 e.
Proof using pending_flushpacket.
  revert fuel2 e. induction fuel1 as [| fuel1 IH]; intros fuel2 e H1 H2; [lia |].
  destruct fuel2 as [| fuel2]; [lia |]. cbn [flush_packets].
  change (vorbis (vcall vorbis_bitrate_flushpacket e))
    with (vorbis_bitrate_flushpacket :: vorbis e).
  destruct (Z.eqb_spec (vorbis_ret (vorbis_bitrate_flushpacket :: vorbis e)) 0)
    as [Hz | Hnz]; [done |].
  pose proof (pending_flushpacket _ Hnz) as Hlt.
  pose proof (gst_vorbisenc_push_packet_vorbis (vcall vorbis_bitrate_flushpacket e)
                (vorbis_op (vorbis_bitrate_flushpacket :: vorbis e))) as Hv.
  destruct (gst_vorbisenc_push_packet (vcall vorbis_bitrate_flushpacket e)
              (vorbis_op (vorbis_bitrate_flushpacket :: vorbis e))) as [ret e2].
  cbn [snd] in Hv. change (vorbis (vcall vorbis_bitrate_flushpacket e))
    with (vorbis_bitrate_flushpacket :: vorbis e) in Hv.
  destruct (flow_is_ok ret); [| done].
  apply IH; rewrite Hv; lia.
Qed.

(** The same for the outer loop: the drain of [gst_vorbisenc_output_buffers]
    is the drain with any larger fuel, so it ends at the exit of the loop and
    not for want of fuel. *)
Lemma output_blocks_fuel (fuel1 fuel2 : nat) (e : GstVorbisEnc) :
  (vorbis_pending (vorbis e) < fuel1)%nat -> (vorbis_pending (vorbis e) < fuel2)%nat ->
  output_blocks fuel1 e = output_blocks fuel2 e.
Proof using pending_flushpacket pending_flushpacket_none pending_blockout.
  revert fuel2 e. induction fuel1 as [| fuel1 IH]; intros fuel2 e H1 H2; [lia |].
  destruct fuel2 as [| fuel2]; [lia |]. cbn [output_blocks].
  change (vorbis (vcall vorbis_analysis_blockout e))
    with (vorbis_analysis_blockout :: vorbis e).
  destruct (Z.eqb_spec (vorbis_ret (vorbis_analysis_blockout :: vorbis e)) 1)
    as [Hone | Hnone]; [| done].
  pose proof (pending_blockout _ Hone) as Hlt.
  set (e2 := vcall vorbis_bitrate_addblock _).
  pose proof (flush_packets_pending (S (vorbis_pending (vorbis e2))) e2) as Hle.
  destruct (flush_packets (S (vorbis_pending (vorbis e2))) e2) as [ret e3].
  cbn [snd] in Hle.
  change (vorbis e2)
    with (vorbis_bitrate_addblock :: vorbis_analysis :: vorbis_analysis_blockout
          :: vorbis e) in Hle.
  destruct (flow_is_ok ret); [| done].
  apply IH; lia.
Qed.

Lemma gst_vorbisenc_output_buffers_fuel (fuel : nat) (e : GstVorbisEnc) :
  (vorbis_pending (vorbis e) < fuel)%nat ->
  output_blocks fuel e = gst_vorbisenc_output_buffers e.
Proof using pending_flushpacket pending_flushpacket_none pending_blockout.
  intros H. unfold gst_vorbisenc_output_buffers. apply output_blocks_fuel; lia.
Qed.

Lemma output_blocks_exit (fuel : nat) (e : GstVorbisEnc) :
  (vorbis_pending (vorbis e) < fuel)%nat ->
  flow_is_ok (fst (output_blocks fuel e)) = true ->
  exists h, vorbis (snd (output_blocks fuel e)) = vorbis_analysis_blockout :: h /\
            vorbis_ret (vorbis_analysis_blockout :: h) <> 1.
Proof using pending_flushpacket pending_flushpacket_none pending_blockout.
  revert e. induction fuel as [| fuel IH]; intros e Hfuel; [lia |].
  cbn [output_blocks].
  change (vorbis (vcall vorbis_analysis_blockout e))
    with (vorbis_analysis_blockout :: vorbis e).
  destruct (Z.eqb_spec (vorbis_ret (vorbis_analysis_blockout :: vorbis e)) 1)
    as [Hone | Hnone]; [| intros _; by exists (vorbis e)].
  pose proof (pending_blockout _ Hone) as Hlt.
  set (e2 := vcall vorbis_bitrate_addblock _).
  pose proof (flush_packets_pending (S (vorbis_pending (vorbis e2))) e2) as Hle.
  destruct (flush_packets (S (vorbis_pending (vorbis e2))) e2) as [ret e3].
  cbn [snd] in Hle.
  change (vorbis e2)
    with (vorbis_bitrate_addblock :: vorbis_analysis :: vorbis_analysis_blockout
          :: vorbis e) in Hle.
  destruct (flow_is_ok ret) eqn:Hok; [| cbn [fst]; congruence].
  apply IH. lia.
Qed.

(** X29.  With a library that keeps the bound on what it holds, a drain
    that returns [GST_FLOW_OK] has left the loop at its exit: the last call
    to the library is a [vorbis_analysis_blockout] that gave no block.  So
    does a chain call on a set-up session that returns [GST_FLOW_OK]: it
    took every block the library had for it. *)
Theorem drain_ends_without_block (e : GstVorbisEnc) (buffer : GstBuffer) :
  (flow_is_ok (fst (gst_vorbisenc_output_buffers e)) = true ->
   exists h,
     vorbis (snd (gst_vorbisenc_output_buffers e)) = vorbis_analysis_blockout :: h /\
     vorbis_ret (vorbis_analysis_blockout :: h) <> 1) /\
  (setup e = true -> flow_is_ok (fst (gst_vorbisenc_chain e buffer)) = true ->
   exists h,
     vorbis (snd (gst_vorbisenc_chain e buffer)) = vorbis_analysis_blockout :: h /\
     vorbis_ret (vorbis_analysis_blockout :: h) <> 1).
Proof using pending_flushpacket pending_flushpacket_none pending_blockout.
  assert (Hdrain : forall x, flow_is_ok (fst (gst_vorbisenc_output_buffers x)) = true ->
            exists h,
              vorbis (snd (gst_vorbisenc_output_buffers x)) =
                vorbis_analysis_blockout :: h /\
              vorbis_ret (vorbis_analysis_blockout :: h) <> 1).
  { intros x. unfold gst_vorbisenc_output_buffers. apply output_blocks_exit. lia. }
  split; [apply Hdrain |].
  intros Hs. unfold gst_vorbisenc_chain. rewrite Hs. cbn [negb].
  assert (Hdata : forall x, flow_is_ok (fst (gst_vorbisenc_chain_data x buffer)) = true ->
            exists h,
              vorbis (snd (gst_vorbisenc_chain_data x buffer)) =
                vorbis_analysis_blockout :: h /\
              vorbis_ret (vorbis_analysis_blockout :: h) <> 1).
  { intros x. rewrite gst_vorbisenc_chain_data_ingest. apply Hdrain. }
  destruct (header_sent e); cbn [negb]; [apply Hdata |].
  destruct (gst_vorbisenc_chain_headers e buffer) as [ret e1].
  destruct (flow_is_ok ret) eqn:Hok; cbn [negb fst]; [apply Hdata | congruence].
Qed.

End Termination.

End Element.

(** ** The element on the small library *)

Local Abbreviation demo_chain peer :=
  (gst_vorbisenc_chain Demo.vorbis_ret Demo.vorbis_op Demo.vorbis_headers
     Demo.vorbis_pending peer Demo.user_tags Demo.tag_list_merge Demo.comments).
Local Abbreviation demo_chain_all peer :=
  (chain_all Demo.vorbis_ret Demo.vorbis_op Demo.vorbis_headers
     Demo.vorbis_pending peer Demo.user_tags Demo.tag_list_merge Demo.comments).
Local Abbreviation demo_chain_headers peer :=
  (gst_vorbisenc_chain_headers Demo.vorbis_headers peer Demo.user_tags
     Demo.tag_list_merge Demo.comments).
Local Abbreviation demo_header_units :=
  (header_units Demo.vorbis_headers Demo.user_tags Demo.tag_list_merge Demo.comments).
Local Abbreviation demo_packets_of := (packets_of Demo.vorbis_ret Demo.vorbis_op).

(** The session of the examples is what the caps handler makes of a fresh
    element. *)
Lemma demo_session_setcaps :
  gst_vorbisenc_sink_setcaps Demo.vorbis_ret (gst_vorbisenc_init Demo.blank)
    (Some 2) (Some 44100) = (true, Demo.session).
Proof. reflexivity. Qed.

(** The small library keeps the bound the drain loops rely on. *)
Lemma demo_pending :
  (forall h, Demo.vorbis_ret (vorbis_bitrate_flushpacket :: h) <> 0 ->
     (Demo.vorbis_pending (vorbis_bitrate_flushpacket :: h) < Demo.vorbis_pending h)%nat) /\
  (forall h, Demo.vorbis_ret (vorbis_bitrate_flushpacket :: h) = 0 ->
     (Demo.vorbis_pending (vorbis_bitrate_flushpacket :: h) <= Demo.vorbis_pending h)%nat) /\
  (forall h, Demo.vorbis_ret (vorbis_analysis_blockout :: h) = 1 ->
     (Demo.vorbis_pending
        (vorbis_bitrate_addblock :: vorbis_analysis :: vorbis_analysis_blockout :: h)
      < Demo.vorbis_pending h)%nat).
Proof.
  split; [| split].
  - intros h Hret. unfold Demo.vorbis_pending. cbn [Demo.blocks].
    destruct h as [| c h]; [done |]. destruct c; try done. lia.
  - intros h _. unfold Demo.vorbis_pending. cbn [Demo.blocks]. lia.
  - intros h Hret. unfold Demo.vorbis_pending. cbn [Demo.blocks].
    cbn [Demo.vorbis_ret] in Hret.
    destruct (Demo.blocks h) as [| n]; [done |]. cbn [Nat.pred].
    destruct h as [| c h]; [lia |]. destruct c; lia.
Qed.

(** *** C1 *)

(** The peer that refuses the second push: the first chain call pushes the
    identification and the comment header and returns the refusal; the next
    call runs the handshake again.  The first three units of the session are
    identification, comment, identification. *)
Lemma headers_pushed_again_after_refusal :
  setup Demo.session = true /\ header_sent Demo.session = false /\
  fst (demo_chain Demo.refuse_second Demo.session Demo.buffer1) = GST_FLOW_WRONG_STATE /\
  map GST_BUFFER_DATA
    (take 3 (srcpad (demo_chain_all Demo.refuse_second Demo.session
                       [Demo.buffer1; Demo.buffer2]))) =
    [[x01]; [x03]; [x01]] /\
  map GST_BUFFER_DATA
    (srcpad (demo_chain_all Demo.refuse_second Demo.session
               [Demo.buffer1; Demo.buffer2])) =
    [[x01]; [x03]; [x01]; [x03]; [x05]; [x2a]].
Proof. repeat split; reflexivity. Qed.

Lemma header_units_first_witness :
  setup Demo.session = true /\ header_sent Demo.session = false /\
  exists ds,
    srcpad (demo_chain_all Demo.accept Demo.session [Demo.buffer1; Demo.buffer2]) =
      srcpad Demo.session ++ demo_header_units Demo.session ++ ds /\
    Forall (fun u => is_data_unit u = true) ds.
Proof.
  split; [reflexivity |]. split; [reflexivity |].
  pose proof (header_units_first Demo.vorbis_ret Demo.vorbis_op Demo.vorbis_headers
                Demo.vorbis_pending Demo.accept Demo.user_tags Demo.tag_list_merge
                Demo.comments Demo.session Demo.buffer1 [Demo.buffer2]
                eq_refl eq_refl) as (_ & _ & _ & H & _).
  exact (proj2 (proj2 H)).
Defined.

(** *** C3 *)


(** *** C4 *)


(** *** C5 *)



(** *** C7 *)

Lemma chain_not_setup_witness :
  let e := gst_vorbisenc_init Demo.blank in
  setup e = false /\
  fst (demo_chain Demo.accept e Demo.buffer1) = GST_FLOW_UNEXPECTED /\
  vorbis (snd (demo_chain Demo.accept e Demo.buffer1)) = vorbis e /\
  samples_in (snd (demo_chain Demo.accept e Demo.buffer1)) = samples_in e.
Proof.
  split; [reflexivity |].
  pose proof (chain_not_setup Demo.vorbis_ret Demo.vorbis_op Demo.vorbis_headers
                Demo.vorbis_pending Demo.accept Demo.user_tags Demo.tag_list_merge
                Demo.comments (gst_vorbisenc_init Demo.blank) Demo.buffer1 eq_refl)
    as (Hret & _ & _ & Hv & _ & _ & _ & _ & _ & _ & Hs & _).
  split; [exact Hret |]. split; [exact Hv | exact Hs].
Defined.

(** *** C9 *)

(** The peer that refuses the second push, on the first buffer: two frames
    come in, nothing is submitted and [samples_in] stays 0. *)
Lemma refused_header_drops_buffer :
  let e' := snd (demo_chain Demo.refuse_second Demo.session Demo.buffer1) in
  setup Demo.session = true /\ channels Demo.session = 2 /\
  GST_BUFFER_SIZE Demo.buffer1 / (channels Demo.session * 4) = 2 /\
  wrote_calls (vorbis e') = [] /\
  samples_in Demo.session = 0 /\ samples_in e' = 0.
Proof. repeat split; reflexivity. Qed.

Lemma chain_submits_deinterleaved_witness :
  let e' := snd (demo_chain Demo.accept Demo.session Demo.buffer1) in
  setup Demo.session = true /\ channels Demo.session = 2 /\
  chain_size Demo.session Demo.buffer1 = 2 /\
  wrote_calls (vorbis e') =
    [([[[x00; x01; x02; x03]; [x08; x09; x0a; x0b]];
       [[x04; x05; x06; x07]; [x0c; x0d; x0e; x0f]]], 2)] /\
  samples_in e' = 2.
Proof.
  split; [reflexivity |]. split; [reflexivity |].
  assert (Hc : 0 < channels Demo.session) by (vm_compute; reflexivity).
  assert (Hg : is_gint (channels Demo.session))
    by (split; vm_compute; [discriminate | reflexivity]).
  pose proof (chain_submits_deinterleaved Demo.vorbis_ret Demo.vorbis_op
                Demo.vorbis_headers Demo.vorbis_pending Demo.accept Demo.user_tags
                Demo.tag_list_merge Demo.comments Demo.session Demo.buffer1
                eq_refl Hc Hg (or_intror eq_refl)) as (Hsize & Hw & Hs & _).
  split; [exact Hsize |]. split; [exact Hw | exact Hs].
Defined.

(** *** C2 *)


(** *** C6 *)

(** The example of the spec: 4000 is stored as 6000; with a maximum already
    set the assignment sets [managed], which is notified. *)
Lemma bitrate_properties_floor_witness :
  let e := gst_vorbisenc_set_property Demo.session (ARG_MAX_BITRATE 128000) in
  let emin := gst_vorbisenc_set_property e (ARG_MIN_BITRATE 4000) in
  managed e = false /\
  min_bitrate emin = 6000 /\ managed emin = true /\
  notified emin = notified e ++ ["managed"%string] /\
  bitrate (gst_vorbisenc_set_property e (ARG_BITRATE 4000)) = 6000.
Proof.
  intros e emin. split; [reflexivity |].
  pose proof (bitrate_properties_floor e 4000)
    as (Hlow & _ & _ & _ & Hman & _ & Hnot & _).
  destruct (Hlow ltac:(unfold LOWEST_BITRATE; lia)) as (Hmin & _ & Hb).
  split; [exact Hmin |]. split; [exact Hman |]. split; [exact Hnot | exact Hb].
Defined.

(** *** C8 *)

Lemma granulepos_to_timestamp_witness :
  granulepos_to_timestamp Demo.session (-1) = GST_CLOCK_TIME_NONE /\
  granulepos_to_timestamp_offset Demo.session (-1) = GST_CLOCK_TIME_NONE /\
  granulepos_to_timestamp Demo.session 44100 = 1000000000.
Proof.
  pose proof (granulepos_to_timestamp_unknown_or_scaled Demo.session (-1)) as [Hneg _].
  pose proof (granulepos_to_timestamp_unknown_or_scaled Demo.session 44100) as [_ Hpos].
  destruct (Hneg ltac:(lia)) as (H1 & H2 & _).
  split; [exact H1 |]. split; [exact H2 |].
  apply Hpos.
  - lia.
  - split; vm_compute; [discriminate | reflexivity].
  - vm_compute. reflexivity.
  - split; vm_compute; [discriminate | reflexivity].
  - vm_compute. discriminate.
Defined.

(** *** C10 *)

Lemma quality_property_sets_flag_witness :
  let e := gst_vorbisenc_init Demo.blank in
  let eb := gst_vorbisenc_set_property e (ARG_BITRATE 128000) in
  let q := (-0x1p-4)%float in
  quality_set (gst_vorbisenc_set_property eb (ARG_QUALITY q)) = false /\
  setup_mode (vorbis (snd (gst_vorbisenc_setup Demo.vorbis_ret
                             (gst_vorbisenc_set_property eb (ARG_QUALITY q))))) =
    Some ManagedBitrate /\
  setup_call (vorbis (snd (gst_vorbisenc_setup Demo.vorbis_ret
                             (gst_vorbisenc_set_property e (ARG_QUALITY q))))) =
    Some (vorbis_encode_setup_vbr (-1) (-1) q) /\
  quality_set (snd (gst_vorbisenc_setup Demo.vorbis_ret
                      (gst_vorbisenc_set_property e (ARG_QUALITY q)))) = true.
Proof.
  intros e eb q.
  pose proof (quality_property_sets_flag Demo.vorbis_ret eb q) as (_ & _ & Hb).
  pose proof (quality_property_sets_flag Demo.vorbis_ret e q) as (_ & _ & He).
  destruct (Hb eq_refl) as (Hflag & Hmanaged & _).
  destruct (He eq_refl) as (_ & _ & Hvbr).
  split; [exact Hflag |].
  split; [apply Hmanaged; left; vm_compute; discriminate |].
  destruct (Hvbr ltac:(repeat split; vm_compute; reflexivity)) as (_ & Hcall & Hset).
  split; [exact Hcall | exact Hset].
Defined.

(** *** The counters *)

Local Abbreviation demo_invoke_all :=
  (invoke_all Demo.vorbis_ret Demo.vorbis_op Demo.vorbis_headers Demo.vorbis_pending
     Demo.accept Demo.accept_event Demo.user_tags Demo.tag_list_merge
     Demo.tag_list_insert Demo.comments Demo.parent_change_state).
Local Abbreviation demo_sink_setcaps := (gst_vorbisenc_sink_setcaps Demo.vorbis_ret).
Local Abbreviation demo_change_state :=
  (gst_vorbisenc_change_state Demo.parent_change_state).
Local Abbreviation demo_sink_event :=
  (gst_vorbisenc_sink_event Demo.vorbis_ret Demo.vorbis_op Demo.vorbis_pending
     Demo.accept Demo.accept_event Demo.tag_list_insert).
Local Abbreviation demo_clear :=
  (gst_vorbisenc_clear Demo.vorbis_ret Demo.vorbis_op Demo.vorbis_pending Demo.accept).

(** A session of two buffers and the end of the stream: three headers and
    two packets of one byte each went out, four frames came in. *)
Lemma bytes_out_counts_pushed_witness :
  is_guint64 (bytes_out Demo.session) /\
  exists e' units,
    demo_invoke_all Demo.session
      [call_chain Demo.buffer1; call_chain Demo.buffer2;
       call_sink_event GST_EVENT_EOS] = Some e' /\
    srcpad e' = srcpad Demo.session ++ units /\
    bytes_out e' = guint64 (bytes_out Demo.session + total_size units) /\
    bytes_out e' = 5.
Proof.
  assert (Hrange : is_guint64 (bytes_out Demo.session))
    by (split; vm_compute; discriminate).
  split; [exact Hrange |].
  destruct (demo_invoke_all Demo.session
              [call_chain Demo.buffer1; call_chain Demo.buffer2;
               call_sink_event GST_EVENT_EOS]) as [e' |] eqn:Hrun;
    [| vm_compute in Hrun; discriminate Hrun].
  destruct (bytes_out_counts_pushed Demo.vorbis_ret Demo.vorbis_op Demo.vorbis_headers
              Demo.vorbis_pending Demo.accept Demo.accept_event Demo.user_tags
              Demo.tag_list_merge Demo.tag_list_insert Demo.comments
              Demo.parent_change_state Demo.session e' _ Hrange Hrun)
    as (units & Hpad & Hbytes).
  exists e', units. split; [reflexivity |]. split; [exact Hpad |].
  split; [exact Hbytes |].
  vm_compute in Hrun. injection Hrun as <-. reflexivity.
Defined.

Lemma samples_in_counts_submitted_witness :
  is_guint64 (samples_in Demo.session) /\
  exists e' calls,
    demo_invoke_all Demo.session
      [call_chain Demo.buffer1; call_chain Demo.buffer2;
       call_sink_event GST_EVENT_EOS] = Some e' /\
    vorbis e' = calls ++ vorbis Demo.session /\
    samples_in e' = guint64 (samples_in Demo.session + submitted_samples calls) /\
    samples_in e' = 4.
Proof.
  assert (Hrange : is_guint64 (samples_in Demo.session))
    by (split; vm_compute; discriminate).
  split; [exact Hrange |].
  destruct (demo_invoke_all Demo.session
              [call_chain Demo.buffer1; call_chain Demo.buffer2;
               call_sink_event GST_EVENT_EOS]) as [e' |] eqn:Hrun;
    [| vm_compute in Hrun; discriminate Hrun].
  destruct (samples_in_counts_submitted Demo.vorbis_ret Demo.vorbis_op
              Demo.vorbis_headers Demo.vorbis_pending Demo.accept Demo.accept_event
              Demo.user_tags Demo.tag_list_merge Demo.tag_list_insert Demo.comments
              Demo.parent_change_state Demo.session e' _ Hrange Hrun)
    as (calls & Hv & Hsamples).
  exists e', calls. split; [reflexivity |]. split; [exact Hv |].
  split; [exact Hsamples |].
  vm_compute in Hrun. injection Hrun as <-. reflexivity.
Defined.

(** *** The caps handler *)

(** Caps of a stereo stream at 44100 Hz on a fresh element: the small
    library takes the call, and the session is set up. *)
Lemma sink_setcaps_result_witness :
  let e := gst_vorbisenc_init Demo.blank in
  let e' := snd (demo_sink_setcaps e (Some 2) (Some 44100)) in
  fst (demo_sink_setcaps e (Some 2) (Some 44100)) = true /\
  channels e' = 2 /\ frequency e' = 44100 /\ setup e' = true /\
  next_ts e' = 0 /\ demo_packets_of (vorbis e') = [].
Proof.
  intros e e'.
  pose proof (sink_setcaps_result Demo.vorbis_ret Demo.vorbis_op Demo.vorbis_headers
                Demo.vorbis_pending Demo.accept Demo.user_tags Demo.tag_list_merge
                Demo.comments e (Some 2) (Some 44100))
    as (Hc & Hf & Hres & Hsetup & Hdone & _).
  assert (Hok : fst (demo_sink_setcaps e (Some 2) (Some 44100)) = true)
    by (rewrite Hres; reflexivity).
  destruct (Hdone Hok) as (Hts & Hpackets & _).
  split; [exact Hok |]. split; [exact Hc |]. split; [exact Hf |].
  split; [by rewrite <- Hok |]. split; [exact Hts | exact Hpackets].
Defined.

(** The caps handler called again after the first buffer of the session:
    the next buffer brings no header, and its data unit carries
    timestamp 0. *)
Lemma setcaps_midstream_sends_no_headers_witness :
  let e := snd (demo_chain Demo.accept Demo.session Demo.buffer1) in
  let e1 := snd (demo_sink_setcaps e (Some 2) (Some 44100)) in
  let e2 := snd (demo_chain Demo.accept e1 Demo.buffer2) in
  header_sent e = true /\ setup e1 = true /\
  next_ts e = 1000045351 /\ next_ts e1 = 0 /\
  headerout_calls (vorbis e2) = headerout_calls (vorbis e) /\
  map GST_BUFFER_TIMESTAMP (drop (length (srcpad e)) (srcpad e2)) = [0].
Proof.
  intros e e1 e2.
  assert (Hsent : header_sent e = true) by (vm_compute; reflexivity).
  assert (Hsetup : setup e1 = true) by (vm_compute; reflexivity).
  pose proof (setcaps_midstream_sends_no_headers Demo.vorbis_ret Demo.vorbis_op
                Demo.vorbis_headers Demo.vorbis_pending Demo.accept Demo.user_tags
                Demo.tag_list_merge Demo.comments e (Some 2) (Some 44100) Demo.buffer2
                Hsent Hsetup) as (_ & Hts & _ & _ & Hout & _ & Hfirst).
  split; [exact Hsent |]. split; [exact Hsetup |].
  split; [vm_compute; reflexivity |]. split; [exact Hts |]. split; [exact Hout |].
  assert (Hpad : exists u, srcpad e2 = srcpad e ++ [u]) by (vm_compute; by eexists).
  destruct Hpad as (u & Hpad).
  rewrite Hpad, drop_app_length. cbn [map]. by rewrite (Hfirst u [] Hpad).
Defined.

(** *** State changes, events and the tag list *)

(** A stream that is stopped and started again: the buffer that comes after
    the caps is answered with the identification header first. *)
Lemma ready_to_paused_restarts_session_witness :
  let e := snd (demo_chain Demo.accept Demo.session Demo.buffer1) in
  let e1 := snd (demo_change_state e GST_STATE_CHANGE_READY_TO_PAUSED) in
  let e2 := snd (demo_sink_setcaps e1 (Some 2) (Some 44100)) in
  header_sent e = true /\ setup e1 = false /\ header_sent e1 = false /\
  fst (demo_chain Demo.accept e1 Demo.buffer2) = GST_FLOW_UNEXPECTED /\
  setup e2 = true /\
  exists rest,
    map GST_BUFFER_DATA (drop (length (srcpad e)) (srcpad
      (snd (demo_chain Demo.accept e2 Demo.buffer2)))) = [x01] :: rest.
Proof.
  intros e e1 e2.
  pose proof (ready_to_paused_restarts_session Demo.vorbis_ret Demo.vorbis_op
                Demo.vorbis_headers Demo.vorbis_pending Demo.accept Demo.user_tags
                Demo.tag_list_merge Demo.comments Demo.parent_change_state
                e (Some 2) (Some 44100) Demo.buffer2)
    as (_ & Hs & Hh & _ & _ & Hret & Hnext).
  assert (Hsetup : setup e2 = true) by (vm_compute; reflexivity).
  destruct (Hnext Hsetup) as (_ & _ & rest & Hpad).
  split; [vm_compute; reflexivity |]. split; [exact Hs |]. split; [exact Hh |].
  split; [exact Hret |]. split; [exact Hsetup |].
  exists (map GST_BUFFER_DATA rest). subst e2 e1. rewrite Hpad, drop_app_length.
  reflexivity.
Defined.

(** From [NULL_TO_READY] on: caps, a tag event, a buffer and the end of the
    stream; every call returns and the tag list is in place. *)
Lemma tag_list_kept_until_ready_to_null_witness :
  let e0 :=
    snd (demo_change_state (gst_vorbisenc_init Demo.blank)
           GST_STATE_CHANGE_NULL_TO_READY) in
  tags (gst_vorbisenc_init Demo.blank) = None /\
  (exists e',
     demo_invoke_all e0
       [call_change_state GST_STATE_CHANGE_READY_TO_PAUSED;
        call_sink_setcaps (Some 2) (Some 44100);
        call_sink_event (GST_EVENT_TAG [("title", "demo")]%string);
        call_chain Demo.buffer1; call_sink_event GST_EVENT_EOS] = Some e' /\
     is_Some (tags e')) /\
  demo_sink_event (snd (demo_change_state e0 GST_STATE_CHANGE_READY_TO_NULL))
    (GST_EVENT_TAG [("title", "demo")]%string) = None.
Proof.
  intros e0.
  pose proof (tag_list_kept_until_ready_to_null Demo.vorbis_ret Demo.vorbis_op
                Demo.vorbis_headers Demo.vorbis_pending Demo.accept Demo.accept_event
                Demo.user_tags Demo.tag_list_merge Demo.tag_list_insert Demo.comments
                Demo.parent_change_state (gst_vorbisenc_init Demo.blank)
                [call_change_state GST_STATE_CHANGE_READY_TO_PAUSED;
                 call_sink_setcaps (Some 2) (Some 44100);
                 call_sink_event (GST_EVENT_TAG [("title", "demo")]%string);
                 call_chain Demo.buffer1; call_sink_event GST_EVENT_EOS])
    as [Hkept _].
  pose proof (tag_list_kept_until_ready_to_null Demo.vorbis_ret Demo.vorbis_op
                Demo.vorbis_headers Demo.vorbis_pending Demo.accept Demo.accept_event
                Demo.user_tags Demo.tag_list_merge Demo.tag_list_insert Demo.comments
                Demo.parent_change_state e0 []) as [_ Hgone].
  split; [reflexivity |]. split; [| apply Hgone].
  apply Hkept. repeat constructor; discriminate.
Defined.

(** A new-segment event on the running session: it is pushed on, and
    nothing else happens. *)
Lemma sink_event_forwards_witness :
  let e := snd (demo_chain Demo.accept Demo.session Demo.buffer1) in
  exists res e',
    demo_sink_event e (GST_EVENT_OTHER "newsegment") = Some (res, e') /\
    res = true /\
    srcpad_events e' = [GST_EVENT_OTHER "newsegment"] /\
    srcpad e' = srcpad e /\ vorbis e' = vorbis e /\ tags e' = tags e.
Proof.
  intros e.
  pose proof (sink_event_forwards Demo.vorbis_ret Demo.vorbis_op Demo.vorbis_pending
                Demo.accept Demo.accept_event Demo.tag_list_insert e
                (GST_EVENT_OTHER "newsegment")) as H.
  destruct (demo_sink_event e (GST_EVENT_OTHER "newsegment")) as [[res e'] |] eqn:Hev.
  - destruct H as (Hres & Hevents & Hother & _ & Htags).
    destruct (Hother ltac:(discriminate)) as (Hpad & Hv & _).
    exists res, e'. split; [reflexivity |]. split; [by rewrite Hres |].
    split; [by rewrite Hevents |]. split; [exact Hpad |]. split; [exact Hv |].
    apply Htags. intros l. discriminate.
  - destruct H as (_ & l & Hl). discriminate Hl.
Defined.

(** *** Properties *)

Lemma get_property_after_set_witness :
  let e := gst_vorbisenc_set_property Demo.session (ARG_BITRATE 4000) in
  gst_vorbisenc_get_property e 2 = Some (G_VALUE_INT 6000) /\
  gst_vorbisenc_get_property e 1 = Some (G_VALUE_INT (-1)) /\
  gst_vorbisenc_get_property e 4 = Some (G_VALUE_FLOAT QUALITY_DEFAULT) /\
  gst_vorbisenc_get_property Demo.session 7 = None.
Proof.
  intros e. subst e.
  pose proof (get_property_after_set Demo.session (ARG_BITRATE 4000))
    as (Hown & Hother & Hnone).
  split; [exact Hown |].
  split; [rewrite (Hother 1) by discriminate; reflexivity |].
  split; [rewrite (Hother 4) by discriminate; reflexivity |].
  apply Hnone. right. reflexivity.
Defined.

(** A bitrate next to a quality that was set: the message names the
    bitrate, the encoder is set up by quality. *)
Lemma setup_start_message_witness :
  let e := gst_vorbisenc_set_property
             (gst_vorbisenc_set_property (gst_vorbisenc_init Demo.blank)
                (ARG_QUALITY 0.5%float)) (ARG_BITRATE 128000) in
  let e' := snd (gst_vorbisenc_setup Demo.vorbis_ret e) in
  quality_set e = true /\ bitrate e = 128000 /\
  last_message e' = Some (encoding_at_approximate_bitrate 128000) /\
  setup_mode (vorbis e') = Some QualityVBR /\
  notified e' = ["last_message"%string].
Proof.
  intros e e'.
  pose proof (setup_start_message Demo.vorbis_ret e)
    as (Hnot & m & Hm & _ & _ & Hboth).
  destruct (Hboth ltac:(reflexivity) ltac:(reflexivity)) as (_ & Hmode).
  split; [reflexivity |]. split; [reflexivity |].
  split; [reflexivity |]. split; [exact Hmode | exact Hnot].
Defined.

Lemma init_defaults_to_quality_witness :
  let e' := snd (demo_sink_setcaps (gst_vorbisenc_init Demo.blank) (Some 2) (Some 44100)) in
  fst (demo_sink_setcaps (gst_vorbisenc_init Demo.blank) (Some 2) (Some 44100)) = true /\
  e' = Demo.session /\
  setup_call (vorbis e') = Some (vorbis_encode_setup_vbr 2 44100 QUALITY_DEFAULT) /\
  last_message e' = Some (encoding_at_quality_level QUALITY_DEFAULT).
Proof.
  intros e'.
  pose proof (init_defaults_to_quality Demo.vorbis_ret Demo.blank 2 44100)
    as (Hcall & Hmsg & _ & _ & Hres & Hdone).
  split; [reflexivity |]. split; [reflexivity |].
  split; [exact Hcall | exact Hmsg].
Defined.

(** *** The flow return *)

(** The peer that refuses the second push: the first chain call stops at
    the comment header and returns the refusal. *)
Lemma chain_returns_first_refusal_witness :
  let ret := fst (demo_chain Demo.refuse_second Demo.session Demo.buffer1) in
  let e' := snd (demo_chain Demo.refuse_second Demo.session Demo.buffer1) in
  setup Demo.session = true /\ ret = GST_FLOW_WRONG_STATE /\
  exists units0 u,
    srcpad e' = srcpad Demo.session ++ units0 ++ [u] /\
    map GST_BUFFER_DATA (srcpad e') = [[x01]; [x03]] /\
    Demo.refuse_second (srcpad Demo.session ++ units0) u = GST_FLOW_WRONG_STATE.
Proof.
  intros ret e'.
  assert (Hret : ret = GST_FLOW_WRONG_STATE) by reflexivity.
  destruct (chain_returns_first_refusal Demo.vorbis_ret Demo.vorbis_op
              Demo.vorbis_headers Demo.vorbis_pending Demo.refuse_second Demo.user_tags
              Demo.tag_list_merge Demo.comments Demo.session Demo.buffer1 eq_refl)
    as [(units & Hpad & Hflow) _].
  fold ret e' in Hpad, Hflow. rewrite Hret in Hflow. cbn [flow_is_ok] in Hflow.
  destruct Hflow as (units0 & u & -> & _ & Hrefused).
  split; [reflexivity |]. split; [exact Hret |].
  exists units0, u. split; [exact Hpad |]. split; [reflexivity | exact Hrefused].
Defined.

(** *** The caps of the source pad and the offsets of the units *)

Lemma handshake_sets_streamheader_caps_witness :
  let e' := snd (demo_chain Demo.accept Demo.session Demo.buffer1) in
  setup Demo.session = true /\ header_sent Demo.session = false /\
  srcpad_caps e' = Some (mkGstCaps "audio/x-vorbis" [[x01]; [x03]; [x05]]) /\
  map GST_BUFFER_CAPS (take 3 (srcpad e')) =
    [srcpad_caps e'; srcpad_caps e'; srcpad_caps e'] /\
  map GST_BUFFER_OFFSET (take 3 (srcpad e')) = [0; 0; 0] /\
  bytes_out e' = 4.
Proof.
  intros e'.
  pose proof (handshake_sets_streamheader_caps Demo.vorbis_ret Demo.vorbis_op
                Demo.vorbis_headers Demo.vorbis_pending Demo.accept Demo.user_tags
                Demo.tag_list_merge Demo.comments Demo.session Demo.buffer1
                eq_refl eq_refl) as [Hcaps Hunits].
  split; [reflexivity |]. split; [reflexivity |]. split; [exact Hcaps |].
  repeat split; reflexivity.
Defined.

Lemma data_units_offsets_witness :
  let e := demo_chain_all Demo.accept Demo.session [Demo.buffer1; Demo.buffer2] in
  let units := data_units (pushed_since (length (srcpad Demo.session)) (srcpad e)) in
  let ops := demo_packets_of (vorbis e) in
  header_sent Demo.session = false /\ granulepos_offset e = 44100 /\
  map granulepos ops = [2; 4] /\
  forall k u op, units !! k = Some u -> ops !! k = Some op ->
    GST_BUFFER_OFFSET_END u = granulepos op + 44100 /\
    guint64 (GST_BUFFER_TIMESTAMP u + GST_BUFFER_DURATION u) =
      guint64 (GST_BUFFER_OFFSET u + subgranule_offset e).
Proof.
  intros e units ops.
  assert (Hts : Forall (fun b => is_guint64 (GST_BUFFER_TIMESTAMP b))
                  [Demo.buffer1; Demo.buffer2]).
  { repeat constructor; vm_compute; discriminate. }
  pose proof (data_units_offsets Demo.vorbis_ret Demo.vorbis_op Demo.vorbis_headers
                Demo.vorbis_pending Demo.accept Demo.user_tags Demo.tag_list_merge
                Demo.comments Demo.session [Demo.buffer1; Demo.buffer2]
                eq_refl eq_refl Hts) as H.
  cbv zeta in H. fold e in H. fold units ops in H.
  assert (Hoff : granulepos_offset e = 44100) by (vm_compute; reflexivity).
  assert (Hops : ops = [mk_ogg_packet [x2a] 2; mk_ogg_packet [x2a] 4])
    by (vm_compute; reflexivity).
  split; [reflexivity |]. split; [exact Hoff |]. split; [by rewrite Hops |].
  intros k u op Hu Hop.
  destruct (H k u op Hu Hop) as (_ & _ & _ & _ & Hexact).
  rewrite Hoff in Hexact. apply Hexact.
  - rewrite Hops in Hop. destruct k as [| [| k]]; try discriminate Hop;
      injection Hop as <-; vm_compute; discriminate.
  - rewrite Hops in Hop. destruct k as [| [| k]]; try discriminate Hop;
      injection Hop as <-; vm_compute; reflexivity.
Defined.

(** *** The bytes the chain function reads *)

(** Two stereo frames and one byte more: the byte is not read. *)
Lemma chain_ignores_partial_frame_witness :
  0 < channels Demo.session /\
  GST_BUFFER_SIZE Demo.buffer3 = 17 /\
  GST_BUFFER_DATA (whole_frames Demo.session Demo.buffer3) =
    GST_BUFFER_DATA Demo.buffer1 /\
  demo_chain Demo.accept Demo.session (whole_frames Demo.session Demo.buffer3) =
    demo_chain Demo.accept Demo.session Demo.buffer3.
Proof.
  assert (Hc : 0 < channels Demo.session) by (vm_compute; reflexivity).
  assert (Hg : is_gint (channels Demo.session))
    by (split; vm_compute; [discriminate | reflexivity]).
  split; [exact Hc |]. split; [reflexivity |]. split; [reflexivity |].
  exact (chain_ignores_partial_frame Demo.vorbis_ret Demo.vorbis_op Demo.vorbis_headers
           Demo.vorbis_pending Demo.accept Demo.user_tags Demo.tag_list_merge
           Demo.comments Demo.session Demo.buffer3 Hc Hg).
Defined.

(** Three bytes on a stereo session: zero frames are submitted. *)
Lemma chain_short_buffer_submits_nothing_witness :
  let e := snd (demo_chain Demo.accept Demo.session Demo.buffer1) in
  let e' := snd (demo_chain Demo.accept e Demo.buffer4) in
  header_sent e = true /\ GST_BUFFER_SIZE Demo.buffer4 = 3 /\
  wrote_calls (vorbis e') = ([[]; []], 0) :: wrote_calls (vorbis e) /\
  samples_in e' = 2.
Proof.
  intros e e'.
  assert (Hc : 0 < channels e) by (vm_compute; reflexivity).
  assert (Hg : is_gint (channels e)) by (split; vm_compute; [discriminate | reflexivity]).
  assert (Hshort : GST_BUFFER_SIZE Demo.buffer4 < channels e * 4)
    by (vm_compute; reflexivity).
  assert (Hs : setup e = true) by (vm_compute; reflexivity).
  assert (Hh : header_sent e = true) by (vm_compute; reflexivity).
  pose proof (chain_short_buffer_submits_nothing Demo.vorbis_ret Demo.vorbis_op
                Demo.vorbis_headers Demo.vorbis_pending Demo.accept Demo.user_tags
                Demo.tag_list_merge Demo.comments e Demo.buffer4 Hs Hh Hc Hg Hshort)
    as [Hw Hn].
  split; [exact Hh |]. split; [reflexivity |]. split; [exact Hw |].
  subst e'. rewrite Hn. vm_compute. reflexivity.
Defined.

(** *** Tags and comments *)


(** *** Conversions between formats *)

Lemma convert_sink_round_trip_witness :
  channels Demo.session = 2 /\
  gst_vorbisenc_convert_sink Demo.uint64_scale_int Demo.session
    GST_FORMAT_DEFAULT 100 GST_FORMAT_BYTES = Some 400 /\
  gst_vorbisenc_convert_sink Demo.uint64_scale_int Demo.session
    GST_FORMAT_BYTES 400 GST_FORMAT_DEFAULT = Some 100.
Proof.
  split; [reflexivity |].
  apply (convert_sink_round_trip Demo.uint64_scale_int Demo.session 100).
  - discriminate.
  - split; vm_compute; [discriminate | reflexivity].
  - split; vm_compute; [discriminate | reflexivity].
  - split; vm_compute; [discriminate | reflexivity].
Defined.

(** Sixteen bytes of a stereo stream: two frames for the chain function,
    four samples for the conversion. *)
Lemma convert_sink_counts_twice_the_frames_witness :
  GST_BUFFER_SIZE Demo.buffer1 = 16 /\ chain_size Demo.session Demo.buffer1 = 2 /\
  gst_vorbisenc_convert_sink Demo.uint64_scale_int Demo.session
    GST_FORMAT_BYTES 16 GST_FORMAT_DEFAULT = Some 4.
Proof.
  split; [reflexivity |]. split; [reflexivity |].
  apply (convert_sink_counts_twice_the_frames Demo.uint64_scale_int Demo.session
           Demo.buffer1).
  - vm_compute. reflexivity.
  - split; vm_compute; [discriminate | reflexivity].
  - vm_compute. reflexivity.
  - vm_compute. reflexivity.
Defined.

(** Before the first buffer nothing is answered; after it, bytes are
    converted to time. *)
Lemma convert_src_answers_witness :
  let e := snd (demo_chain Demo.accept Demo.session Demo.buffer1) in
  samples_in Demo.session = 0 /\
  gst_vorbisenc_convert_src Demo.uint64_scale_int Demo.session
    GST_FORMAT_BYTES 4 GST_FORMAT_TIME = None /\
  samples_in e = 2 /\ bytes_out e = 4 /\
  is_Some (gst_vorbisenc_convert_src Demo.uint64_scale_int e
             GST_FORMAT_BYTES 4 GST_FORMAT_TIME) /\
  gst_vorbisenc_convert_src Demo.uint64_scale_int e
    GST_FORMAT_BYTES 4 GST_FORMAT_BYTES = None.
Proof.
  intros e.
  split; [reflexivity |]. split; [reflexivity |].
  split; [reflexivity |]. split; [reflexivity |].
  split.
  - apply (convert_src_answers Demo.uint64_scale_int e GST_FORMAT_BYTES GST_FORMAT_TIME 4).
    repeat split; try (vm_compute; discriminate). by left.
  - reflexivity.
Defined.

Lemma convert_sink_answers_witness :
  is_Some (gst_vorbisenc_convert_sink Demo.uint64_scale_int Demo.session
             GST_FORMAT_TIME 1000000000 GST_FORMAT_DEFAULT) /\
  gst_vorbisenc_convert_sink Demo.uint64_scale_int Demo.session
    GST_FORMAT_TIME 1000000000 GST_FORMAT_DEFAULT = Some 44100 /\
  gst_vorbisenc_convert_sink Demo.uint64_scale_int Demo.session
    GST_FORMAT_TIME 1000000000 GST_FORMAT_TIME = None.
Proof.
  split; [| split; reflexivity].
  apply (convert_sink_answers Demo.uint64_scale_int Demo.session GST_FORMAT_TIME
           GST_FORMAT_DEFAULT 1000000000).
  do 4 right. split; [reflexivity |]. by right.
Defined.

(** *** The property specifications *)

Lemma init_gives_spec_defaults_witness :
  gst_vorbisenc_get_property (gst_vorbisenc_init Demo.blank) 4 =
    Some (G_VALUE_FLOAT QUALITY_DEFAULT) /\
  gst_vorbisenc_get_property (gst_vorbisenc_init Demo.blank) 1 = Some (G_VALUE_INT (-1)).
Proof.
  split.
  - apply (init_gives_spec_defaults Demo.blank 4
             (g_param_spec_float "quality" (-0x1.99999ap-4)%float 1%float
                QUALITY_DEFAULT G_PARAM_READWRITE)).
    do 3 right. left. reflexivity.
  - apply (init_gives_spec_defaults Demo.blank 1
             (g_param_spec_int "max-bitrate" (-1) HIGHEST_BITRATE MAX_BITRATE_DEFAULT
                G_PARAM_READWRITE)).
    left. reflexivity.
Defined.

Lemma bitrates_stay_valid_witness :
  exists e',
    demo_invoke_all (gst_vorbisenc_init Demo.blank)
      [call_set_property (ARG_BITRATE 4000); call_set_property (ARG_MAX_BITRATE (-1));
       call_sink_setcaps (Some 2) (Some 44100); call_chain Demo.buffer1] = Some e' /\
    bitrate e' = 6000 /\ valid_bitrates e'.
Proof.
  destruct (demo_invoke_all (gst_vorbisenc_init Demo.blank)
              [call_set_property (ARG_BITRATE 4000);
               call_set_property (ARG_MAX_BITRATE (-1));
               call_sink_setcaps (Some 2) (Some 44100); call_chain Demo.buffer1])
    as [e' |] eqn:Hrun; [| vm_compute in Hrun; discriminate Hrun].
  exists e'. split; [reflexivity |].
  split.
  - vm_compute in Hrun. injection Hrun as <-. reflexivity.
  - refine (bitrates_stay_valid Demo.vorbis_ret Demo.vorbis_op Demo.vorbis_headers
              Demo.vorbis_pending Demo.accept Demo.accept_event Demo.user_tags
              Demo.tag_list_merge Demo.tag_list_insert Demo.comments
              Demo.parent_change_state Demo.blank e' _ _ Hrun).
    repeat constructor; vm_compute; discriminate.
Defined.

(** *** Queries *)

Lemma queries_answered_witness :
  let query := mkGstQuery GST_QUERY_CONVERT GST_FORMAT_BYTES 16 GST_FORMAT_DEFAULT 0 in
  gst_vorbisenc_sink_query Demo.uint64_scale_int Demo.query_default Demo.session query =
    (true, mkGstQuery GST_QUERY_CONVERT GST_FORMAT_BYTES 16 GST_FORMAT_DEFAULT 4) /\
  gst_vorbisenc_src_query Demo.uint64_scale_int Demo.query_default Demo.query_position
    Demo.query_position Demo.query_convert Demo.session query = (false, query) /\
  gst_vorbisenc_src_query Demo.uint64_scale_int Demo.query_default Demo.query_position
    Demo.query_position Demo.query_convert Demo.session
    (mkGstQuery GST_QUERY_SEEKING GST_FORMAT_TIME 0 GST_FORMAT_TIME 0) =
    Demo.query_default (mkGstQuery GST_QUERY_SEEKING GST_FORMAT_TIME 0 GST_FORMAT_TIME 0).
Proof.
  intros query.
  pose proof (queries_answered Demo.uint64_scale_int Demo.query_default
                Demo.query_position Demo.query_position Demo.query_convert
                Demo.session query) as (_ & _ & Hconvert).
  destruct (Hconvert eq_refl) as [Hsrc Hsink].
  split; [exact Hsink |]. split; [exact Hsrc |].
  destruct (queries_answered Demo.uint64_scale_int Demo.query_default
              Demo.query_position Demo.query_position Demo.query_convert Demo.session
              (mkGstQuery GST_QUERY_SEEKING GST_FORMAT_TIME 0 GST_FORMAT_TIME 0))
    as (Hdefault & _ & _).
  apply Hdefault. intros Hin. cbn in Hin.
  destruct Hin as [H | [H | [H | []]]]; discriminate H.
Defined.

(** *** Tag values *)

Lemma tag_values_are_decimal_witness :
  gst_vorbisenc_get_tag_value "track-number" "track-count" "album-disc-number"
    "album-disc-count" Demo.tag_type Demo.tag_uint Demo.tag_date Demo.tag_string
    [] (Some "date"%string) 0 = Some "2006-03-01"%string /\
  gst_vorbisenc_get_tag_value "track-number" "track-count" "album-disc-number"
    "album-disc-count" Demo.tag_type Demo.tag_uint Demo.tag_date Demo.tag_string
    [] (Some "track-number"%string) 0 = Some "7"%string /\
  exists y m d,
    "2006-03-01"%string = (y ++ "-" ++ m ++ "-" ++ d)%string /\
    decimal_value_from 0 y = Some 2006 /\ decimal_value_from 0 m = Some 3 /\
    decimal_value_from 0 d = Some 1.
Proof.
  split; [reflexivity |]. split; [reflexivity |].
  destruct (tag_values_are_decimal "track-number" "track-count" "album-disc-number"
              "album-disc-count" Demo.tag_type Demo.tag_uint Demo.tag_date
              Demo.tag_string [] "date" 0) as [_ Hdate].
  destruct (Hdate (mk_GDate 2006 3 1) eq_refl eq_refl eq_refl
              ltac:(cbn; lia) ltac:(cbn; lia) ltac:(cbn; lia))
    as (y & m & d & Hvalue & _ & _ & _ & Hy & Hm & Hd).
  exists y, m, d. split; [| by repeat split].
  change (Some "2006-03-01"%string = Some (y ++ "-" ++ m ++ "-" ++ d)%string) in Hvalue.
  by injection Hvalue.
Defined.

Lemma metadata_set1_adds_comments_witness :
  let list_ := [("title", "a"); ("artist", "c"); ("title", "b")]%string in
  exists calls,
    vorbis (gst_vorbisenc_metadata_set1 "track-number" "track-count" "album-disc-number"
              "album-disc-count" Demo.tag_type Demo.tag_uint Demo.tag_date
              Demo.tag_string Demo.tag_size Demo.tag_to_vorbis_tag list_ "title"
              Demo.session) = calls ++ vorbis Demo.session /\
    calls = [vorbis_comment_add_tag "TITLE" "b"; vorbis_comment_add_tag "TITLE" "a"] /\
    (length calls <= 2)%nat.
Proof.
  intros list_.
  pose proof (metadata_set1_adds_comments "track-number" "track-count"
                "album-disc-number" "album-disc-count" Demo.tag_type Demo.tag_uint
                Demo.tag_date Demo.tag_string Demo.tag_size Demo.tag_to_vorbis_tag
                list_ "title" Demo.session) as H.
  cbv zeta in H.
  change (Demo.tag_to_vorbis_tag "title") with (Some "TITLE"%string) in H.
  destruct H as (calls & Hset & Hlen & _).
  exists calls.
  assert (Hcalls : calls =
            [vorbis_comment_add_tag "TITLE" "b"; vorbis_comment_add_tag "TITLE" "a"]).
  { apply (f_equal vorbis) in Hset. cbn [vorbis set_vorbis] in Hset.
    apply (app_inv_tail (vorbis Demo.session)). rewrite <- Hset. reflexivity. }
  split; [by rewrite Hset |]. split; [exact Hcalls | exact Hlen].
Defined.

(** *** The drain loops *)

Lemma drain_ends_without_block_witness :
  let e' := snd (demo_chain Demo.accept Demo.session Demo.buffer1) in
  setup Demo.session = true /\
  fst (demo_chain Demo.accept Demo.session Demo.buffer1) = GST_FLOW_OK /\
  exists h, vorbis e' = vorbis_analysis_blockout :: h /\
            Demo.vorbis_ret (vorbis_analysis_blockout :: h) <> 1.
Proof.
  intros e'.
  destruct demo_pending as (Hflush & Hnone & Hblock).
  pose proof (drain_ends_without_block Demo.vorbis_ret Demo.vorbis_op
                Demo.vorbis_headers Demo.vorbis_pending Demo.accept Demo.user_tags
                Demo.tag_list_merge Demo.comments Hflush Hnone Hblock
                Demo.session Demo.buffer1) as [_ Hchain].
  split; [reflexivity |]. split; [reflexivity |].
  exact (Hchain eq_refl eq_refl).
Defined.

(** *** The caps of the sink pad template *)

Lemma sink_template_caps_in_range_witness :
  let e' := snd (demo_sink_setcaps (gst_vorbisenc_init Demo.blank) (Some 2) (Some 44100)) in
  chain_size e' Demo.buffer1 = 16 / (2 * 4) /\ 0 < frequency e' <= GST_SECOND /\
  is_Some (gst_vorbisenc_convert_sink Demo.uint64_scale_int e'
             GST_FORMAT_BYTES 16 GST_FORMAT_DEFAULT).
Proof.
  intros e'.
  destruct (sink_template_caps_in_range Demo.vorbis_ret Demo.uint64_scale_int
              (gst_vorbisenc_init Demo.blank) 2 44100 Demo.buffer1 16)
    as (_ & _ & Hsize & Hrate & Hconvert).
  - cbn. lia.
  - cbn. lia.
  - split; [exact Hsize |]. split; [exact Hrate | exact Hconvert].
Defined.
